(** * HelloTriangle: the frame coordinator of [first_app.cpp]

    A shallow embedding of [lve::FirstApp] (src/HelloTriangle/src/first_app.cpp)
    and the properties of its frame loop, swap chain recreation, push
    constants and fractal vertex generator.

    The coordinator talks to a window, a device and a swap chain whose code
    lives outside [first_app.cpp].  Their answers are taken from a
    [Platform] of oracles, one per entry point, and every call is appended
    to a [trace], so that statements about order ("before any recording")
    and about absence ("zero draw commands") are statements about lists. *)

From Stdlib Require Import String ZArith NArith List Bool Lia QArith Qabs.
From Stdlib Require Import Floats.SpecFloat.
Import ListNotations.

Local Open Scope Z_scope.

(* ===================================================================== *)
(** ** Single precision arithmetic *)
(* ===================================================================== *)

(** C++ [float] is IEEE 754 binary32: 24 bits of precision, exponents below
    128.  [SpecFloat] gives the operations, rounding to nearest even. *)
Module F32.

Definition prec : Z := 24.
Definition emax : Z := 128.

Definition t : Set := spec_float.

(** [static_cast<float>(z)], and the conversion of an [int] operand. *)
Definition of_int (z : Z) : t := binary_normalize prec emax z 0 false.

Definition add : t -> t -> t := SFadd prec emax.
Definition sub : t -> t -> t := SFsub prec emax.
Definition mul : t -> t -> t := SFmul prec emax.
Definition div : t -> t -> t := SFdiv prec emax.
Definition neg : t -> t := SFopp.

(** The literal [n/d f] for a decimal fraction [n/d]: the binary32 number
    nearest to it, which is what the correctly rounded quotient of the two
    (exactly representable) integers is. *)
Definition literal (n d : Z) : t := div (of_int n) (of_int d).

(** The rational a finite binary32 number stands for. *)
Definition to_Q (x : t) : option Q :=
  match x with
  | S754_zero _ => Some 0%Q
  | S754_finite s m e =>
      let mag := (inject_Z (Z.pos m) * Qpower 2 e)%Q in
      Some (if s then Qopp mag else mag)
  | _ => None
  end.

(** [|x - q| <= eps] for a finite [x]. *)
Definition within (eps : Q) (x : t) (q : Q) : Prop :=
  match to_Q x with
  | Some v => (Qabs (v - q) <= eps)%Q
  | None => False
  end.

End F32.

(* ===================================================================== *)
(** ** Vertices and the fractal generator *)
(* ===================================================================== *)

(** [glm::vec2], [glm::vec3]. *)
Definition vec2 : Set := (F32.t * F32.t)%type.
Definition vec3 : Set := (F32.t * F32.t * F32.t)%type.

Definition zero : F32.t := F32.literal 0 1.

(** [LveModel::Vertex]: a 2D position and an RGB colour. *)
Record Vertex : Set := mkVertex {
  position : vec2;
  color : vec3
}.

(** [{{px, py}}]: the position is given, the colour is value-initialised. *)
Definition vertex_at (px py : F32.t) : Vertex :=
  {| position := (px, py); color := (zero, zero, zero) |}.

Definition two : F32.t := F32.of_int 2.
Definition four : F32.t := F32.of_int 4.

(** [FirstApp::Sierpinski].  [vertices] is the vector passed by reference:
    it comes in and goes out.  [depth] is the [int] of the source; the
    recursion goes down by one until it meets 0, so a negative [depth] never
    gets there.  [fuel] bounds the nesting of calls; [None] is a nesting
    deeper than [fuel]. *)
Fixpoint Sierpinski (fuel : nat) (depth : Z) (width height px py : F32.t)
    (vertices : list Vertex) : option (list Vertex) :=
  match fuel with
  | O => None
  | S fuel' =>
      if depth =? 0 then
        let vertices := vertices ++ [vertex_at px py] in
        let vertices :=
          vertices ++ [vertex_at (F32.add px (F32.div width two)) (F32.sub py height)] in
        let vertices := vertices ++ [vertex_at (F32.add px width) py] in
        Some vertices
      else
        match Sierpinski fuel' (depth - 1) (F32.div width two) (F32.div height two)
                px py vertices with
        | None => None
        | Some vertices =>
            match Sierpinski fuel' (depth - 1) (F32.div width two) (F32.div height two)
                    (F32.add px (F32.div width four))
                    (F32.sub py (F32.div height two)) vertices with
            | None => None
            | Some vertices =>
                Sierpinski fuel' (depth - 1) (F32.div width two) (F32.div height two)
                  (F32.add px (F32.div width two)) py vertices
            end
        end
  end.

(** What a call of depth [d] appends, as a function of its arguments alone
    (recursion on the depth as a natural number). *)
Fixpoint sierpinski_vertices (d : nat) (width height px py : F32.t) : list Vertex :=
  match d with
  | O =>
      [ vertex_at px py;
        vertex_at (F32.add px (F32.div width two)) (F32.sub py height);
        vertex_at (F32.add px width) py ]
  | S d' =>
      sierpinski_vertices d' (F32.div width two) (F32.div height two) px py
      ++ sierpinski_vertices d' (F32.div width two) (F32.div height two)
           (F32.add px (F32.div width four)) (F32.sub py (F32.div height two))
      ++ sierpinski_vertices d' (F32.div width two) (F32.div height two)
           (F32.add px (F32.div width two)) py
  end.

(* ===================================================================== *)
(** ** Push constants *)
(* ===================================================================== *)

(** [struct SimplePushConstantData { glm::vec2 offset; alignas(16) glm::vec3 color; }] *)
Record SimplePushConstantData : Set := mkPush {
  push_offset : vec2;
  push_color : vec3
}.

(** Size and alignment of a member, in bytes. *)
Record Member : Set := mkMember {
  member_size : Z;
  member_align : Z
}.

Definition align_up (offset alignment : Z) : Z :=
  ((offset + alignment - 1) / alignment) * alignment.

(** [sizeof] of a standard-layout struct: members in order, each at the next
    multiple of its alignment, the whole padded to the largest alignment. *)
Definition struct_end (members : list Member) : Z :=
  fold_left (fun off m => align_up off (member_align m) + member_size m) members 0.

Definition struct_align (members : list Member) : Z :=
  fold_left (fun a m => Z.max a (member_align m)) members 1.

Definition sizeof_struct (members : list Member) : Z :=
  align_up (struct_end members) (struct_align members).

(** [vec2] is two floats; [vec3] is three floats, here aligned to 16. *)
Definition SimplePushConstantData_members : list Member :=
  [ {| member_size := 8; member_align := 4 |};
    {| member_size := 12; member_align := 16 |} ].

Definition sizeof_SimplePushConstantData : Z :=
  sizeof_struct SimplePushConstantData_members.

(** The payload the loop of [recordCommandBuffer] builds for instance [j]:
    [push.offset = {0.f, -0.4f + j * 0.25f}],
    [push.color = {0.0f, 0.0f, 0.2f + 0.2f * j}]. *)
Definition push_for (j : Z) : SimplePushConstantData :=
  {| push_offset :=
       (F32.literal 0 1,
        F32.add (F32.neg (F32.literal 4 10)) (F32.mul (F32.of_int j) (F32.literal 25 100)));
     push_color :=
       (F32.literal 0 1, F32.literal 0 1,
        F32.add (F32.literal 2 10) (F32.mul (F32.literal 2 10) (F32.of_int j))) |}.

(* ===================================================================== *)
(** ** Vulkan values the coordinator handles *)
(* ===================================================================== *)

(** [VkResult] is a C enumeration; the three codes the source names have
    the values of [vulkan_core.h], every other integer is some other code. *)
Definition VkResult : Set := Z.
Definition VK_SUCCESS : VkResult := 0.
Definition VK_SUBOPTIMAL_KHR : VkResult := 1000001003.
Definition VK_ERROR_OUT_OF_DATE_KHR : VkResult := -1000001004.

Definition VK_SHADER_STAGE_VERTEX_BIT : Z := 1.
Definition VK_SHADER_STAGE_FRAGMENT_BIT : Z := 16.

(** [uint32_t] members. *)
Record VkExtent2D : Set := mkExtent {
  width : N;
  height : N
}.

Record VkPushConstantRange : Set := mkRange {
  stageFlags : Z;
  range_offset : Z;
  range_size : Z
}.

Record VkPipelineLayoutCreateInfo : Set := mkLayoutInfo {
  setLayoutCount : Z;
  pushConstantRangeCount : nat;
  pPushConstantRanges : list VkPushConstantRange
}.

(** A pipeline layout object, known by what it was created from. *)
Record VkPipelineLayout : Set := mkLayout {
  layout_info : VkPipelineLayoutCreateInfo
}.

(** The ranges a layout declares: the first [pushConstantRangeCount]
    elements of the array it was given. *)
Definition declared_ranges (l : VkPipelineLayout) : list VkPushConstantRange :=
  firstn (pushConstantRangeCount (layout_info l)) (pPushConstantRanges (layout_info l)).

(** A command buffer handle: null, or the [slot]-th buffer of the
    [batch]-th allocation. *)
Inductive VkCommandBuffer : Set :=
| VK_NULL_HANDLE
| CommandBuffer (batch slot : nat).

Record VkViewport : Set := mkViewport {
  viewport_x : F32.t;
  viewport_y : F32.t;
  viewport_width : F32.t;
  viewport_height : F32.t;
  minDepth : F32.t;
  maxDepth : F32.t
}.

Inductive VkClearValue : Set :=
| ClearColor (r g b a : F32.t)
| ClearDepthStencil (depth : F32.t) (stencil : Z).

(* ===================================================================== *)
(** ** The collaborators *)
(* ===================================================================== *)

(** Modelled from the spec: [LveWindow] (lve_window.cpp is not among the
    sources).  The Presentable Surface "owns the OS window and reports
    current drawable size and resize events"; the coordinator consumes its
    extent, its resized flag with the reset, and its close request. *)
Record LveWindow : Set := mkWindow {
  window_width : N;
  window_height : N;
  framebufferResized : bool;
  closeRequested : bool
}.

Inductive WindowEvent : Set :=
| FramebufferResize (w h : N)
| CloseRequest
| OtherInput.

Definition deliver (win : LveWindow) (ev : WindowEvent) : LveWindow :=
  match ev with
  | FramebufferResize w h =>
      {| window_width := w; window_height := h;
         framebufferResized := true; closeRequested := closeRequested win |}
  | CloseRequest =>
      {| window_width := window_width win; window_height := window_height win;
         framebufferResized := framebufferResized win; closeRequested := true |}
  | OtherInput => win
  end.

Definition window_extent (win : LveWindow) : VkExtent2D :=
  {| width := window_width win; height := window_height win |}.

Definition reset_flag (win : LveWindow) : LveWindow :=
  {| window_width := window_width win; window_height := window_height win;
     framebufferResized := false; closeRequested := closeRequested win |}.

(** Modelled from the spec: [LveSwapChain] (lve_swap_chain.cpp is not among
    the sources).  The Presentation Chain is "an immutable value constructed
    from (surface extent, optional previous-chain hint)" with an image count
    "chosen by the platform" and "fixed for the chain's lifetime". *)
Record LveSwapChain : Set := mkSwapChain {
  chain_serial : nat;
  windowExtent : VkExtent2D;
  chain_images : nat;
  oldSwapChain : option nat
}.

Definition imageCount (c : LveSwapChain) : nat := chain_images c.
Definition getSwapChainExtent (c : LveSwapChain) : VkExtent2D := windowExtent c.
(** Each chain has a render pass of its own, named after the chain. *)
Definition getRenderPass (c : LveSwapChain) : nat := chain_serial c.
Definition getFrameBuffer (c : LveSwapChain) (index : Z) : nat * Z := (chain_serial c, index).

Record PipelineConfigInfo : Set := mkConfig {
  config_renderPass : nat;
  config_pipelineLayout : VkPipelineLayout
}.

(** Modelled from the spec: [LvePipeline] (lve_pipeline.cpp is not among the
    sources), "built from a pipeline layout, a compatible render target
    description, and fixed-function configuration", immutable once built. *)
Record LvePipeline : Set := mkPipeline {
  pipeline_serial : nat;
  vertFilepath : string;
  fragFilepath : string;
  configInfo : PipelineConfigInfo
}.

(** Modelled from the spec: [LveModel] (lve_model.cpp is not among the
    sources), the Geometry Store: "owns uploaded vertex data". *)
Record LveModel : Set := mkModel {
  model_vertices : list Vertex
}.

Definition vertexCount (m : LveModel) : nat := length (model_vertices m).

(** What a command buffer is asked to record. *)
Inductive Command : Set :=
| CmdBeginRenderPass (renderPass : nat) (framebuffer : nat * Z)
    (area_offset : Z * Z) (area_extent : VkExtent2D) (clearValues : list VkClearValue)
| CmdSetViewport (viewport : VkViewport)
| CmdSetScissor (scissor_offset : Z * Z) (scissor_extent : VkExtent2D)
| CmdBindPipeline (pipeline : LvePipeline)
| CmdBindModel (model : LveModel)
| CmdPushConstants (layout : VkPipelineLayout) (flags offset size : Z)
    (values : SimplePushConstantData)
| CmdDraw (vertices : nat)
| CmdEndRenderPass.

(** Every call that leaves the coordinator, with what it was given and what
    it answered. *)
Inductive Event : Set :=
| EvPollEvents (delivered : list WindowEvent)
| EvWaitEvents (delivered : list WindowEvent)
| EvGetExtent (extent : VkExtent2D)
| EvResetWindowResizedFlag
| EvDeviceWaitIdle
| EvNewModel (vertices : list Vertex)
| EvCreatePipelineLayout (info : VkPipelineLayoutCreateInfo) (result : VkResult)
| EvNewSwapChain (extent : VkExtent2D) (previous : option LveSwapChain)
    (built : option LveSwapChain)
| EvNewPipeline (config : PipelineConfigInfo) (built : option LvePipeline)
| EvAllocateCommandBuffers (count : Z) (result : VkResult)
| EvFreeCommandBuffers (count : Z) (buffers : list VkCommandBuffer)
| EvAcquireNextImage (chain : LveSwapChain) (result : VkResult) (imageIndex : N)
| EvBeginCommandBuffer (buffer : VkCommandBuffer) (result : VkResult)
| EvCmd (buffer : VkCommandBuffer) (command : Command)
| EvEndCommandBuffer (buffer : VkCommandBuffer) (result : VkResult)
| EvSubmit (chain : LveSwapChain) (buffer : VkCommandBuffer) (imageIndex : N)
    (result : VkResult).

(** The entry points whose answer the coordinator cannot predict. *)
Inductive EntryPoint : Set :=
| PumpEvents
| NewSwapChain
| NewPipeline
| CreatePipelineLayout
| AllocateCommandBuffers
| AcquireNextImage
| BeginCommandBuffer
| EndCommandBuffer
| SubmitCommandBuffers.

Definition EntryPoint_eqb (a b : EntryPoint) : bool :=
  match a, b with
  | PumpEvents, PumpEvents
  | NewSwapChain, NewSwapChain
  | NewPipeline, NewPipeline
  | CreatePipelineLayout, CreatePipelineLayout
  | AllocateCommandBuffers, AllocateCommandBuffers
  | AcquireNextImage, AcquireNextImage
  | BeginCommandBuffer, BeginCommandBuffer
  | EndCommandBuffer, EndCommandBuffer
  | SubmitCommandBuffers, SubmitCommandBuffers => true
  | _, _ => false
  end.

(** The platform: what the [k]-th call of each entry point answers.  A
    constructor that throws answers [None] or [false]. *)
Record Platform : Type := mkPlatform {
  surface_events : nat -> list WindowEvent;
  swapchain_images : nat -> option nat;
  pipeline_builds : nat -> bool;
  vkCreatePipelineLayout_result : nat -> VkResult;
  vkAllocateCommandBuffers_result : nat -> VkResult;
  acquireNextImage_result : nat -> VkResult * N;
  vkBeginCommandBuffer_result : nat -> VkResult;
  vkEndCommandBuffer_result : nat -> VkResult;
  submitCommandBuffers_result : nat -> VkResult
}.

(* ===================================================================== *)
(** ** The coordinator's state *)
(* ===================================================================== *)

(** The members of [FirstApp], the number of calls made so far to each
    entry point, and the trace of those calls. *)
Record World : Type := mkWorld {
  lveWindow : LveWindow;
  lveSwapChain : option LveSwapChain;
  lvePipeline : option LvePipeline;
  pipelineLayout : option VkPipelineLayout;
  commandBuffers : list VkCommandBuffer;
  lveModel : option LveModel;
  calls : EntryPoint -> nat;
  trace : list Event
}.

Definition set_lveWindow (x : LveWindow) (w : World) : World :=
  mkWorld x (lveSwapChain w) (lvePipeline w) (pipelineLayout w)
    (commandBuffers w) (lveModel w) (calls w) (trace w).
Definition set_lveSwapChain (x : option LveSwapChain) (w : World) : World :=
  mkWorld (lveWindow w) x (lvePipeline w) (pipelineLayout w)
    (commandBuffers w) (lveModel w) (calls w) (trace w).
Definition set_lvePipeline (x : option LvePipeline) (w : World) : World :=
  mkWorld (lveWindow w) (lveSwapChain w) x (pipelineLayout w)
    (commandBuffers w) (lveModel w) (calls w) (trace w).
Definition set_pipelineLayout (x : option VkPipelineLayout) (w : World) : World :=
  mkWorld (lveWindow w) (lveSwapChain w) (lvePipeline w) x
    (commandBuffers w) (lveModel w) (calls w) (trace w).
Definition set_commandBuffers (x : list VkCommandBuffer) (w : World) : World :=
  mkWorld (lveWindow w) (lveSwapChain w) (lvePipeline w) (pipelineLayout w)
    x (lveModel w) (calls w) (trace w).
Definition set_lveModel (x : option LveModel) (w : World) : World :=
  mkWorld (lveWindow w) (lveSwapChain w) (lvePipeline w) (pipelineLayout w)
    (commandBuffers w) x (calls w) (trace w).
Definition set_calls (x : EntryPoint -> nat) (w : World) : World :=
  mkWorld (lveWindow w) (lveSwapChain w) (lvePipeline w) (pipelineLayout w)
    (commandBuffers w) (lveModel w) x (trace w).
Definition set_trace (x : list Event) (w : World) : World :=
  mkWorld (lveWindow w) (lveSwapChain w) (lvePipeline w) (pipelineLayout w)
    (commandBuffers w) (lveModel w) (calls w) x.

(** The members as they are when the constructor body starts: the window
    exists, the smart pointers are null, the vector is empty. *)
Definition boot (win : LveWindow) : World :=
  {| lveWindow := win; lveSwapChain := None; lvePipeline := None;
     pipelineLayout := None; commandBuffers := []; lveModel := None;
     calls := fun _ => O; trace := [] |}.

(* ===================================================================== *)
(** ** State, exceptions, faults and fuel *)
(* ===================================================================== *)

(** How a call can fail to return: a C++ exception, a fault (a failed
    [assert], a null or out-of-range access), or a loop that is still
    running when the fuel is spent. *)
Inductive failure : Set :=
| Exception (what : string)
| Fault (what : string)
| Diverge.

Inductive outcome (A : Type) : Type :=
| Ok (a : A)
| Fail (f : failure).

Arguments Ok {A} a.
Arguments Fail {A} f.

(** The world is kept on failure too: the trace up to it is there. *)
Definition M (A : Type) : Type := World -> outcome A * World.

Definition ret {A} (a : A) : M A := fun w => (Ok a, w).

Definition bind {A B} (m : M A) (k : A -> M B) : M B :=
  fun w =>
    match m w with
    | (Ok a, w') => k a w'
    | (Fail f, w') => (Fail f, w')
    end.

Declare Scope m_scope.
Delimit Scope m_scope with M.
Notation "x <- m ;; k" := (bind m (fun x => k))
  (at level 61, m at next level, right associativity) : m_scope.
Notation "m ;; k" := (bind m (fun _ => k))
  (at level 61, right associativity) : m_scope.
Local Open Scope m_scope.

Definition throw {A} (what : string) : M A := fun w => (Fail (Exception what), w).
Definition fault {A} (what : string) : M A := fun w => (Fail (Fault what), w).
Definition diverge {A} : M A := fun w => (Fail Diverge, w).

Definition read {A} (f : World -> A) : M A := fun w => (Ok (f w), w).
Definition write (f : World -> World) : M unit := fun w => (Ok tt, f w).

Definition emit (ev : Event) : M unit :=
  write (fun w => set_trace (trace w ++ [ev]) w).

(** The index of this call among the calls of entry point [ep]. *)
Definition tick (ep : EntryPoint) : M nat :=
  fun w =>
    (Ok (calls w ep),
     set_calls (fun e => if EntryPoint_eqb e ep then S (calls w e) else calls w e) w).

(** [*p] for a smart pointer or handle [p]. *)
Definition deref {A} (what : string) (p : option A) : M A :=
  match p with
  | Some a => ret a
  | None => fault what
  end.

(** [for (x : xs) body(x)] *)
Fixpoint for_each {A} (xs : list A) (body : A -> M unit) : M unit :=
  match xs with
  | [] => ret tt
  | x :: xs' => body x ;; for_each xs' body
  end.

(* ===================================================================== *)
(** ** [lve::FirstApp] *)
(* ===================================================================== *)

Definition uint32_max : Z := 2 ^ 32.

(** [static_cast<uint32_t>(n)] of a [size_t]. *)
Definition to_uint32 (n : nat) : Z := Z.of_nat n mod uint32_max.

(** The [int] a [uint32_t] converts to. *)
Definition to_int (i : N) : Z :=
  let z := Z.of_N i mod uint32_max in
  if z <? 2 ^ 31 then z else z - uint32_max.

(** [v.resize(n)]: the first [n] elements, null handles for the rest. *)
Definition resize (n : nat) (v : list VkCommandBuffer) : list VkCommandBuffer :=
  firstn n v ++ repeat VK_NULL_HANDLE (n - List.length v).

(** The handles the [batch]-th allocation gives out. *)
Definition fresh_buffers (batch count : nat) : list VkCommandBuffer :=
  map (CommandBuffer batch) (seq 0 count).

Definition degenerate (extent : VkExtent2D) : bool :=
  (width extent =? 0)%N || (height extent =? 0)%N.

Definition is_success (r : VkResult) : bool := r =? VK_SUCCESS.

Section Coordinator.

Variable P : Platform.

(** *** The window *)

Definition pump : M (list WindowEvent) :=
  k <- tick PumpEvents ;;
  let delivered := surface_events P k in
  write (fun w => set_lveWindow (fold_left deliver delivered (lveWindow w)) w) ;;
  ret delivered.

Definition glfwPollEvents : M unit :=
  delivered <- pump ;; emit (EvPollEvents delivered).

Definition glfwWaitEvents : M unit :=
  delivered <- pump ;; emit (EvWaitEvents delivered).

Definition getExtent : M VkExtent2D :=
  extent <- read (fun w => window_extent (lveWindow w)) ;;
  emit (EvGetExtent extent) ;;
  ret extent.

Definition shouldClose : M bool :=
  read (fun w => closeRequested (lveWindow w)).

Definition wasWindowResized : M bool :=
  read (fun w => framebufferResized (lveWindow w)).

Definition resetWindowResizedFlag : M unit :=
  write (fun w => set_lveWindow (reset_flag (lveWindow w)) w) ;;
  emit EvResetWindowResizedFlag.

(** *** The device *)

Definition vkDeviceWaitIdle : M unit := emit EvDeviceWaitIdle.

(** On success the first [count] elements of the array are fresh handles,
    on failure they are null. *)
Definition vkAllocateCommandBuffers (count : Z) : M VkResult :=
  k <- tick AllocateCommandBuffers ;;
  let result := vkAllocateCommandBuffers_result P k in
  emit (EvAllocateCommandBuffers count result) ;;
  let n := Z.to_nat count in
  write (fun w =>
           set_commandBuffers
             ((if is_success result then fresh_buffers k n
               else repeat VK_NULL_HANDLE n)
              ++ skipn n (commandBuffers w)) w) ;;
  ret result.

Definition vkFreeCommandBuffers (count : Z) (buffers : list VkCommandBuffer) : M unit :=
  emit (EvFreeCommandBuffers count buffers).

Definition vkCreatePipelineLayout (info : VkPipelineLayoutCreateInfo) : M VkResult :=
  k <- tick CreatePipelineLayout ;;
  let result := vkCreatePipelineLayout_result P k in
  emit (EvCreatePipelineLayout info result) ;;
  (if is_success result
   then write (set_pipelineLayout (Some {| layout_info := info |}))
   else ret tt) ;;
  ret result.

Definition vkBeginCommandBuffer (buffer : VkCommandBuffer) : M VkResult :=
  k <- tick BeginCommandBuffer ;;
  let result := vkBeginCommandBuffer_result P k in
  emit (EvBeginCommandBuffer buffer result) ;;
  ret result.

Definition vkEndCommandBuffer (buffer : VkCommandBuffer) : M VkResult :=
  k <- tick EndCommandBuffer ;;
  let result := vkEndCommandBuffer_result P k in
  emit (EvEndCommandBuffer buffer result) ;;
  ret result.

Definition cmd (buffer : VkCommandBuffer) (c : Command) : M unit :=
  emit (EvCmd buffer c).

(** *** Constructors of the collaborators *)

(** [std::make_unique<LveSwapChain>(lveDevice, extent)] and
    [std::make_unique<LveSwapChain>(lveDevice, extent, previous)] *)
Definition new_LveSwapChain (extent : VkExtent2D) (previous : option LveSwapChain)
    : M LveSwapChain :=
  k <- tick NewSwapChain ;;
  match swapchain_images P k with
  | Some n =>
      let chain :=
        {| chain_serial := k; windowExtent := extent; chain_images := n;
           oldSwapChain := option_map chain_serial previous |} in
      emit (EvNewSwapChain extent previous (Some chain)) ;;
      ret chain
  | None =>
      emit (EvNewSwapChain extent previous None) ;;
      throw "failed to create swap chain!"
  end.

Definition new_LvePipeline (vert frag : string) (config : PipelineConfigInfo)
    : M LvePipeline :=
  k <- tick NewPipeline ;;
  if pipeline_builds P k then
    let pipeline :=
      {| pipeline_serial := k; vertFilepath := vert; fragFilepath := frag;
         configInfo := config |} in
    emit (EvNewPipeline config (Some pipeline)) ;;
    ret pipeline
  else
    emit (EvNewPipeline config None) ;;
    throw "failed to create graphics pipeline".

Definition new_LveModel (vertices : list Vertex) : M LveModel :=
  emit (EvNewModel vertices) ;;
  ret {| model_vertices := vertices |}.

Definition acquireNextImage (chain : LveSwapChain) : M (VkResult * N) :=
  k <- tick AcquireNextImage ;;
  let '(result, index) := acquireNextImage_result P k in
  let index := (index mod 2 ^ 32)%N in
  emit (EvAcquireNextImage chain result index) ;;
  ret (result, index).

Definition submitCommandBuffers (chain : LveSwapChain) (buffer : VkCommandBuffer)
    (imageIndex : N) : M VkResult :=
  k <- tick SubmitCommandBuffers ;;
  let result := submitCommandBuffers_result P k in
  emit (EvSubmit chain buffer imageIndex result) ;;
  ret result.

(** [commandBuffers[i]]; an index past the end is a fault. *)
Definition commandBuffer_at (i : Z) : M VkCommandBuffer :=
  buffers <- read commandBuffers ;;
  if i <? 0 then fault "commandBuffers: index out of range"
  else deref "commandBuffers: index out of range" (nth_error buffers (Z.to_nat i)).

(** *** The methods *)

Definition loadModels : M unit :=
  let vertices :=
    [ {| position := (F32.literal 0 1, F32.neg (F32.literal 5 10));
         color := (F32.literal 1 1, F32.literal 0 1, F32.literal 0 1) |};
      {| position := (F32.literal 5 10, F32.literal 5 10);
         color := (F32.literal 0 1, F32.literal 1 1, F32.literal 0 1) |};
      {| position := (F32.neg (F32.literal 5 10), F32.literal 5 10);
         color := (F32.literal 0 1, F32.literal 0 1, F32.literal 1 1) |} ] in
  model <- new_LveModel vertices ;;
  write (set_lveModel (Some model)).

Definition pushConstantRange : VkPushConstantRange :=
  {| stageFlags := Z.lor VK_SHADER_STAGE_VERTEX_BIT VK_SHADER_STAGE_FRAGMENT_BIT;
     range_offset := 0;
     range_size := sizeof_SimplePushConstantData |}.

Definition createPipelineLayout : M unit :=
  let pipelineLayoutInfo :=
    {| setLayoutCount := 0;
       pushConstantRangeCount := 1;
       pPushConstantRanges := [pushConstantRange] |} in
  result <- vkCreatePipelineLayout pipelineLayoutInfo ;;
  if negb (result =? VK_SUCCESS) then throw "failed to create pipeline layout!"
  else ret tt.

Definition createPipeline : M unit :=
  chain <- (p <- read lveSwapChain ;; deref "Cannot create pipeline before swap chain" p) ;;
  layout <- (p <- read pipelineLayout ;;
             deref "Cannot create pipeline before pipeline layout" p) ;;
  let pipelineConfig :=
    {| config_renderPass := getRenderPass chain; config_pipelineLayout := layout |} in
  pipeline <- new_LvePipeline "../shaders/simple_shader.vert.spv"
                "../shaders/simple_shader.frag.spv" pipelineConfig ;;
  write (set_lvePipeline (Some pipeline)).

Definition createCommandBuffers : M unit :=
  chain <- (p <- read lveSwapChain ;; deref "lveSwapChain is null" p) ;;
  write (fun w => set_commandBuffers (resize (imageCount chain) (commandBuffers w)) w) ;;
  size <- read (fun w => List.length (commandBuffers w)) ;;
  result <- vkAllocateCommandBuffers (to_uint32 size) ;;
  if negb (result =? VK_SUCCESS) then throw "failed to allocate command buffers!"
  else ret tt.

Definition freeCommandBuffers : M unit :=
  buffers <- read commandBuffers ;;
  vkFreeCommandBuffers (to_uint32 (List.length buffers)) buffers ;;
  write (set_commandBuffers []).

(** The loop of [recreateSwapChain]:
    [while (extent.width == 0 || extent.height == 0)
       { extent = lveWindow.getExtent(); glfwWaitEvents(); }] *)
Fixpoint await_extent (fuel : nat) (extent : VkExtent2D) : M VkExtent2D :=
  if degenerate extent then
    match fuel with
    | O => diverge
    | S fuel' =>
        extent <- getExtent ;;
        glfwWaitEvents ;;
        await_extent fuel' extent
    end
  else ret extent.

Definition recreateSwapChain (fuel : nat) : M unit :=
  extent <- getExtent ;;
  extent <- await_extent fuel extent ;;
  vkDeviceWaitIdle ;;
  current <- read lveSwapChain ;;
  match current with
  | None =>
      chain <- new_LveSwapChain extent None ;;
      write (set_lveSwapChain (Some chain))
  | Some previous =>
      (* std::move(lveSwapChain): the member is null while the new chain
         is being constructed *)
      write (set_lveSwapChain None) ;;
      chain <- new_LveSwapChain extent (Some previous) ;;
      write (set_lveSwapChain (Some chain)) ;;
      chain <- (p <- read lveSwapChain ;; deref "lveSwapChain is null" p) ;;
      size <- read (fun w => List.length (commandBuffers w)) ;;
      if negb (imageCount chain =? size)%nat then
        freeCommandBuffers ;;
        createCommandBuffers
      else ret tt
  end ;;
  createPipeline.

Definition instances : list Z := [0; 1; 2; 3].

Definition recordCommandBuffer (imageIndex : Z) : M unit :=
  buffer <- commandBuffer_at imageIndex ;;
  result <- vkBeginCommandBuffer buffer ;;
  if negb (result =? VK_SUCCESS) then throw "failed to begin recording command buffer!"
  else
    chain <- (p <- read lveSwapChain ;; deref "lveSwapChain is null" p) ;;
    let clearValues :=
      [ ClearColor (F32.literal 1 10) (F32.literal 1 10) (F32.literal 1 10)
          (F32.literal 1 1);
        ClearDepthStencil (F32.literal 1 1) 0 ] in
    cmd buffer (CmdBeginRenderPass (getRenderPass chain) (getFrameBuffer chain imageIndex)
                  (0, 0) (getSwapChainExtent chain) clearValues) ;;
    let viewport :=
      {| viewport_x := F32.literal 0 1;
         viewport_y := F32.literal 0 1;
         viewport_width := F32.of_int (Z.of_N (width (getSwapChainExtent chain)));
         viewport_height := F32.of_int (Z.of_N (height (getSwapChainExtent chain)));
         minDepth := F32.literal 0 1;
         maxDepth := F32.literal 1 1 |} in
    cmd buffer (CmdSetViewport viewport) ;;
    cmd buffer (CmdSetScissor (0, 0) (getSwapChainExtent chain)) ;;
    pipeline <- (p <- read lvePipeline ;; deref "lvePipeline is null" p) ;;
    cmd buffer (CmdBindPipeline pipeline) ;;
    model <- (p <- read lveModel ;; deref "lveModel is null" p) ;;
    cmd buffer (CmdBindModel model) ;;
    for_each instances (fun j =>
      let push := push_for j in
      layout <- read pipelineLayout ;;
      layout <- deref "pipelineLayout is null" layout ;;
      cmd buffer (CmdPushConstants layout
                    (Z.lor VK_SHADER_STAGE_VERTEX_BIT VK_SHADER_STAGE_FRAGMENT_BIT)
                    0 sizeof_SimplePushConstantData push) ;;
      cmd buffer (CmdDraw (vertexCount model))) ;;
    cmd buffer CmdEndRenderPass ;;
    result <- vkEndCommandBuffer buffer ;;
    if negb (result =? VK_SUCCESS) then throw "failed to record command buffer!"
    else ret tt.

Definition drawFrame (fuel : nat) : M unit :=
  chain <- (p <- read lveSwapChain ;; deref "lveSwapChain is null" p) ;;
  acquired <- acquireNextImage chain ;;
  let '(result, imageIndex) := acquired in
  if result =? VK_ERROR_OUT_OF_DATE_KHR then
    recreateSwapChain fuel
  else if negb (result =? VK_SUCCESS) && negb (result =? VK_SUBOPTIMAL_KHR) then
    throw "failed to acquire swap chain image!"
  else
    recordCommandBuffer (to_int imageIndex) ;;
    chain <- (p <- read lveSwapChain ;; deref "lveSwapChain is null" p) ;;
    buffer <- commandBuffer_at (Z.of_N imageIndex) ;;
    result <- submitCommandBuffers chain buffer imageIndex ;;
    resized <- wasWindowResized ;;
    if (result =? VK_ERROR_OUT_OF_DATE_KHR) || (result =? VK_SUBOPTIMAL_KHR) || resized
    then
      resetWindowResizedFlag ;;
      recreateSwapChain fuel
    else if negb (result =? VK_SUCCESS) then
      throw "failed to present swap chain image!"
    else ret tt.

(** [FirstApp::FirstApp()] *)
Definition FirstApp (fuel : nat) : M unit :=
  loadModels ;;
  createPipelineLayout ;;
  recreateSwapChain fuel ;;
  createCommandBuffers.

(** [FirstApp::run()]; [frames] bounds the iterations of its loop. *)
Fixpoint run (fuel frames : nat) : M unit :=
  close <- shouldClose ;;
  if close then vkDeviceWaitIdle
  else
    match frames with
    | O => diverge
    | S frames' =>
        glfwPollEvents ;;
        drawFrame fuel ;;
        run fuel frames'
    end.

(** The application: construct, then run. *)
Definition session (fuel frames : nat) : M unit :=
  FirstApp fuel ;;
  run fuel frames.

End Coordinator.

(* ===================================================================== *)
(** ** Vocabulary of the properties *)
(* ===================================================================== *)

Arguments F32.literal : simpl never.
Arguments F32.of_int : simpl never.
Arguments F32.add : simpl never.
Arguments F32.sub : simpl never.
Arguments F32.mul : simpl never.
Arguments F32.div : simpl never.
Arguments F32.neg : simpl never.
Arguments push_for : simpl never.
Arguments to_uint32 : simpl never.
Arguments to_int : simpl never.
Arguments sizeof_SimplePushConstantData : simpl never.
Arguments Z.lor : simpl never.
Arguments N.modulo : simpl never.
Arguments N.pow : simpl never.
Arguments resetWindowResizedFlag : simpl never.
Arguments resize : simpl never.
Arguments fresh_buffers : simpl never.
Arguments new_LveSwapChain : simpl never.
Arguments new_LvePipeline : simpl never.
Arguments createPipeline : simpl never.
Arguments createCommandBuffers : simpl never.
Arguments freeCommandBuffers : simpl never.
Arguments vkAllocateCommandBuffers : simpl never.
Arguments recreateSwapChain : simpl never.
Arguments recordCommandBuffer : simpl never.
Arguments acquireNextImage : simpl never.
Arguments submitCommandBuffers : simpl never.
Arguments drawFrame : simpl never.

(** The primitives of [M] unfold as soon as they are run on a world. *)
Arguments bind {A B} m k w /.
Arguments ret {A} a w /.
Arguments throw {A} what w /.
Arguments fault {A} what w /.
Arguments diverge {A} w /.
Arguments read {A} f w /.
Arguments write f w /.
Arguments emit ev w /.
Arguments tick ep w /.

(** Events that put something into a command buffer. *)
Definition is_recording (ev : Event) : bool :=
  match ev with
  | EvBeginCommandBuffer _ _ | EvCmd _ _ | EvEndCommandBuffer _ _ => true
  | _ => false
  end.

Definition is_draw (ev : Event) : bool :=
  match ev with
  | EvCmd _ (CmdDraw _) => true
  | _ => false
  end.

Definition is_submit (ev : Event) : bool :=
  match ev with
  | EvSubmit _ _ _ _ => true
  | _ => false
  end.

Definition is_construction (ev : Event) : bool :=
  match ev with
  | EvNewSwapChain _ _ _ => true
  | _ => false
  end.

Definition is_free_or_allocate (ev : Event) : bool :=
  match ev with
  | EvAllocateCommandBuffers _ _ | EvFreeCommandBuffers _ _ => true
  | _ => false
  end.

(** The events a call of [recreateSwapChain] can leave in the trace. *)
Definition recreation_event (ev : Event) : Prop :=
  match ev with
  | EvGetExtent _ | EvWaitEvents _ | EvDeviceWaitIdle
  | EvNewPipeline _ _ | EvAllocateCommandBuffers _ _ | EvFreeCommandBuffers _ _ => True
  | EvNewSwapChain extent _ _ => degenerate extent = false
  | _ => False
  end.

(** The events one pass of the loop of [recreateSwapChain] leaves. *)
Definition wait_event (ev : Event) : Prop :=
  match ev with
  | EvGetExtent _ | EvWaitEvents _ => True
  | _ => False
  end.

(** [waiting e polls e']: with [e] in hand, the loop of [recreateSwapChain]
    leaves [polls] in the trace and goes on with [e'].  It is left only on
    a proper extent, and every pass is entered on a degenerate one, reads
    the extent and then waits for events. *)
Inductive waiting : VkExtent2D -> list Event -> VkExtent2D -> Prop :=
| waiting_over (e : VkExtent2D) :
    degenerate e = false -> waiting e [] e
| waiting_pass (e e1 e' : VkExtent2D) (delivered : list WindowEvent) (polls : list Event) :
    degenerate e = true ->
    waiting e1 polls e' ->
    waiting e (EvGetExtent e1 :: EvWaitEvents delivered :: polls) e'.

(** The last extent the window reported in a trace. *)
Fixpoint last_reported (tr : list Event) : option VkExtent2D :=
  match tr with
  | [] => None
  | ev :: tr' =>
      match last_reported tr' with
      | Some e => Some e
      | None => match ev with EvGetExtent e => Some e | _ => None end
      end
  end.

(** The events of recording one frame against the layout member [L]: each
    push-constant update goes to [L], for the vertex and fragment stages,
    at offset 0, with the size of the payload, and carries the payload of
    one of the instances. *)
Definition recording_event (L : option VkPipelineLayout) (ev : Event) : Prop :=
  match ev with
  | EvBeginCommandBuffer _ _ | EvEndCommandBuffer _ _ => True
  | EvCmd _ (CmdPushConstants layout flags offset size values) =>
      L = Some layout /\
      flags = Z.lor VK_SHADER_STAGE_VERTEX_BIT VK_SHADER_STAGE_FRAGMENT_BIT /\
      offset = 0 /\
      size = sizeof_SimplePushConstantData /\
      exists j, In j instances /\ values = push_for j
  | EvCmd _ _ => True
  | _ => False
  end.

(** What every event of a session satisfies when the layout member is
    [L]: chains are built on proper extents and push constants are pushed as
    [recording_event] says. *)
Definition well_formed (L : option VkPipelineLayout) (ev : Event) : Prop :=
  match ev with
  | EvNewSwapChain _ _ _ => recreation_event ev
  | EvCmd _ _ => recording_event L ev
  | EvCreatePipelineLayout info _ => L = Some {| layout_info := info |}
  | _ => True
  end.

(** The layout [createPipelineLayout] creates. *)
Definition created_layout : VkPipelineLayout :=
  {| layout_info :=
       {| setLayoutCount := 0;
          pushConstantRangeCount := 1;
          pPushConstantRanges := [pushConstantRange] |} |}.

(** A push-constant update lies within a range: the bytes written are
    bytes of the range and the stages updated are stages of the range. *)
Definition push_within (r : VkPushConstantRange) (flags offset size : Z) : Prop :=
  range_offset r <= offset /\
  offset + size <= range_offset r + range_size r /\
  Z.land flags (stageFlags r) = flags.

(** A push-constant update goes to a layout that declares exactly one
    range, and is made with the stage flags, the offset and the size of
    that range; nothing is asked of the other events. *)
Definition push_as_declared (ev : Event) : Prop :=
  match ev with
  | EvCmd _ (CmdPushConstants layout flags offset size _) =>
      exists r,
        declared_ranges layout = [r] /\
        flags = stageFlags r /\ offset = range_offset r /\ size = range_size r /\
        push_within r flags offset size
  | _ => True
  end.

Definition is_resize (ev : WindowEvent) : bool :=
  match ev with
  | FramebufferResize _ _ => true
  | _ => false
  end.

Section Outlook.

Variable P : Platform.

(** The window after [n] more event pumps, the next being the [k]-th. *)
Fixpoint window_after (win : LveWindow) (k n : nat) : LveWindow :=
  match n with
  | O => win
  | S n' => window_after (fold_left deliver (surface_events P k) win) (S k) n'
  end.

(** The window shows a proper extent now, or will after fewer than [fuel]
    pumps of events. *)
Definition extent_settles (fuel : nat) (w : World) : Prop :=
  degenerate (window_extent (lveWindow w)) = false \/
  exists n, (n < fuel)%nat /\
    degenerate (window_extent
                  (window_after (lveWindow w) (calls w PumpEvents) n)) = false.

(** What a recreation needs from the platform in order to return: a
    proper extent in time, and the next chain, allocation and pipeline
    built without error. *)
Definition recreation_completes (fuel : nat) (w : World) : Prop :=
  extent_settles fuel w /\
  swapchain_images P (calls w NewSwapChain) <> None /\
  vkAllocateCommandBuffers_result P (calls w AllocateCommandBuffers) = VK_SUCCESS /\
  pipeline_builds P (calls w NewPipeline) = true /\
  pipelineLayout w <> None.

(** [n] iterations of the body of the loop of [run]. *)
Fixpoint frames (fuel n : nat) : M unit :=
  match n with
  | O => ret tt
  | S n' => frames fuel n' ;; glfwPollEvents P ;; drawFrame P fuel
  end.

End Outlook.

(** A call left the members of the coordinator other than the window as
    they were. *)
Definition same_members (w w' : World) : Prop :=
  lveSwapChain w' = lveSwapChain w /\
  lvePipeline w' = lvePipeline w /\
  pipelineLayout w' = pipelineLayout w /\
  commandBuffers w' = commandBuffers w /\
  lveModel w' = lveModel w.

(** A call went to no entry point but [ep], if to any. *)
Definition calls_only (ep : EntryPoint) (w w' : World) : Prop :=
  forall other, other <> ep -> calls w' other = calls w other.

(** The coordinator between two frames: chain, pipeline, layout and model
    are there, and there is one command buffer per image. *)
Definition Ready (w : World) : Prop :=
  exists chain,
    lveSwapChain w = Some chain /\
    List.length (commandBuffers w) = imageCount chain /\
    lvePipeline w <> None /\
    pipelineLayout w <> None /\
    lveModel w <> None.

(** A computation preserves an invariant of the world, whatever its
    outcome. *)
Definition preserves {A} (I : World -> Prop) (m : M A) : Prop :=
  forall w, I w -> I (snd (m w)).

(** Every event of the trace satisfies [Q]. *)
Definition throughout (Q : Event -> Prop) (w : World) : Prop :=
  Forall Q (trace w).

(** The trace is that of [w0] followed by events that satisfy [Q]. *)
Definition since (w0 : World) (Q : Event -> Prop) (w : World) : Prop :=
  exists delta, trace w = trace w0 ++ delta /\ Forall Q delta.

(** The same, while the pipeline layout member stays [L]. *)
Definition steady_since (L : option VkPipelineLayout) (w0 : World) (Q : Event -> Prop)
    (w : World) : Prop :=
  pipelineLayout w = L /\ since w0 Q w.

(* ===================================================================== *)
(** ** Platforms and windows of the examples *)
(* ===================================================================== *)

Definition window_800x600 : LveWindow :=
  {| window_width := 800; window_height := 600;
     framebufferResized := false; closeRequested := false |}.

Definition window_minimized : LveWindow :=
  {| window_width := 0; window_height := 0;
     framebufferResized := false; closeRequested := false |}.

(** Nothing ever happens: no events, three images, every call succeeds and
    image 0 is always the one acquired. *)
Definition steady : Platform :=
  {| surface_events := fun _ => [];
     swapchain_images := fun _ => Some 3%nat;
     pipeline_builds := fun _ => true;
     vkCreatePipelineLayout_result := fun _ => VK_SUCCESS;
     vkAllocateCommandBuffers_result := fun _ => VK_SUCCESS;
     acquireNextImage_result := fun _ => (VK_SUCCESS, 0%N);
     vkBeginCommandBuffer_result := fun _ => VK_SUCCESS;
     vkEndCommandBuffer_result := fun _ => VK_SUCCESS;
     submitCommandBuffers_result := fun _ => VK_SUCCESS |}.

(** The coordinator as its constructor leaves it on [steady]. *)
Definition steady_world : World := snd (FirstApp steady 0 (boot window_800x600)).

(** As [steady], but every new chain has one image more than the one
    before: two, then three, and so on. *)
Definition growing : Platform :=
  {| surface_events := fun _ => [];
     swapchain_images := fun k => Some (2 + k)%nat;
     pipeline_builds := fun _ => true;
     vkCreatePipelineLayout_result := fun _ => VK_SUCCESS;
     vkAllocateCommandBuffers_result := fun _ => VK_SUCCESS;
     acquireNextImage_result := fun _ => (VK_SUCCESS, 0%N);
     vkBeginCommandBuffer_result := fun _ => VK_SUCCESS;
     vkEndCommandBuffer_result := fun _ => VK_SUCCESS;
     submitCommandBuffers_result := fun _ => VK_SUCCESS |}.

Definition growing_world : World := snd (FirstApp growing 0 (boot window_800x600)).

(** The chain the constructor builds on [steady] and on [growing]. *)
Definition first_chain (images : nat) : LveSwapChain :=
  {| chain_serial := 0; windowExtent := {| width := 800; height := 600 |};
     chain_images := images; oldSwapChain := None |}.

(** The part of the trace of [w'] that was added since [w]. *)
Definition added (w w' : World) : list Event :=
  skipn (List.length (trace w)) (trace w').

(** As [steady], but the first acquisition finds the chain out of date, and
    the window is resized to 400 by 300 by the events of the second poll. *)
Definition resized_after_stale : Platform :=
  {| surface_events :=
       fun k => match k with 1%nat => [FramebufferResize 400 300] | _ => [] end;
     swapchain_images := fun _ => Some 3%nat;
     pipeline_builds := fun _ => true;
     vkCreatePipelineLayout_result := fun _ => VK_SUCCESS;
     vkAllocateCommandBuffers_result := fun _ => VK_SUCCESS;
     acquireNextImage_result :=
       fun k => match k with
                | O => (VK_ERROR_OUT_OF_DATE_KHR, 0%N)
                | _ => (VK_SUCCESS, 0%N)
                end;
     vkBeginCommandBuffer_result := fun _ => VK_SUCCESS;
     vkEndCommandBuffer_result := fun _ => VK_SUCCESS;
     submitCommandBuffers_result := fun _ => VK_SUCCESS |}.

(** The coordinator about to draw its first frame on [resized_after_stale]. *)
Definition stale_world : World :=
  snd ((FirstApp resized_after_stale 0 ;; glfwPollEvents resized_after_stale)
         (boot window_800x600)).

(** The reading of "the very next completed cycle uses a chain whose extent
    matches the then-current surface extent" for a frame drawn from [w]:
    when the iteration after it submits a frame, the chain it draws with has
    the extent the window has then. *)
Definition next_cycle_on_current_extent (P : Platform) (fuel : nat) (w : World) : Prop :=
  forall w1 w2 w3 chain,
    drawFrame P fuel w = (Ok tt, w1) ->
    glfwPollEvents P w1 = (Ok tt, w2) ->
    drawFrame P fuel w2 = (Ok tt, w3) ->
    existsb is_submit (added w2 w3) = true ->
    lveSwapChain w2 = Some chain ->
    getSwapChainExtent chain = window_extent (lveWindow w2).

(** What one call of [recordCommandBuffer] puts into [buffer] between
    [vkBeginCommandBuffer] and [vkEndCommandBuffer]. *)
Definition recording (chain : LveSwapChain) (pipeline : LvePipeline) (model : LveModel)
    (layout : VkPipelineLayout) (buffer : VkCommandBuffer) (imageIndex : Z) : list Event :=
  map (EvCmd buffer)
    ([ CmdBeginRenderPass (getRenderPass chain) (getFrameBuffer chain imageIndex) (0, 0)
         (getSwapChainExtent chain)
         [ ClearColor (F32.literal 1 10) (F32.literal 1 10) (F32.literal 1 10)
             (F32.literal 1 1);
           ClearDepthStencil (F32.literal 1 1) 0 ];
       CmdSetViewport
         {| viewport_x := F32.literal 0 1;
            viewport_y := F32.literal 0 1;
            viewport_width := F32.of_int (Z.of_N (width (getSwapChainExtent chain)));
            viewport_height := F32.of_int (Z.of_N (height (getSwapChainExtent chain)));
            minDepth := F32.literal 0 1;
            maxDepth := F32.literal 1 1 |};
       CmdSetScissor (0, 0) (getSwapChainExtent chain);
       CmdBindPipeline pipeline;
       CmdBindModel model ]
     ++ flat_map
          (fun j =>
             [ CmdPushConstants layout
                 (Z.lor VK_SHADER_STAGE_VERTEX_BIT VK_SHADER_STAGE_FRAGMENT_BIT)
                 0 sizeof_SimplePushConstantData (push_for j);
               CmdDraw (vertexCount model) ])
          instances
     ++ [ CmdEndRenderPass ]).

Arguments recording : simpl never.

(** The payloads pushed in a trace, in order. *)
Definition pushed (tr : list Event) : list SimplePushConstantData :=
  flat_map
    (fun ev =>
       match ev with
       | EvCmd _ (CmdPushConstants _ _ _ _ values) => [values]
       | _ => []
       end)
    tr.

(** The payload of instance [i] in the words of the specification: the
    vertical offset is [base + i * step] with [base = -0.4] and
    [step = 0.25], the horizontal offset is constant, and the blue channel
    is [0.2 + 0.2 * i]; all of it in single precision. *)
Definition decimal_push (i : Z) : SimplePushConstantData :=
  let base := F32.literal (-4) 10 in
  let step := F32.literal 25 100 in
  {| push_offset := (F32.literal 0 1, F32.add base (F32.mul (F32.of_int i) step));
     push_color :=
       (F32.literal 0 1, F32.literal 0 1,
        F32.add (F32.literal 2 10) (F32.mul (F32.literal 2 10) (F32.of_int i))) |}.

(** The reading of "the chain is rebuilt before the next acquisition cycle
    begins" for a frame drawn from [w]: by the time the frame returns to
    the loop, a chain has been constructed. *)
Definition rebuilt_before_next_cycle (P : Platform) (fuel : nat) (w : World) : Prop :=
  forall w',
    drawFrame P fuel w = (Ok tt, w') ->
    existsb is_construction (added w w') = true.

(** As [steady], but every acquisition reports a suboptimal chain. *)
Definition suboptimal_acquire : Platform :=
  {| surface_events := fun _ => [];
     swapchain_images := fun _ => Some 3%nat;
     pipeline_builds := fun _ => true;
     vkCreatePipelineLayout_result := fun _ => VK_SUCCESS;
     vkAllocateCommandBuffers_result := fun _ => VK_SUCCESS;
     acquireNextImage_result := fun _ => (VK_SUBOPTIMAL_KHR, 0%N);
     vkBeginCommandBuffer_result := fun _ => VK_SUCCESS;
     vkEndCommandBuffer_result := fun _ => VK_SUCCESS;
     submitCommandBuffers_result := fun _ => VK_SUCCESS |}.

Definition suboptimal_world : World :=
  snd (FirstApp suboptimal_acquire 0 (boot window_800x600)).

Definition VK_ERROR_DEVICE_LOST : VkResult := -4.

(** As [steady], but the first poll delivers a resize (to the size the
    window has) and every submission reports a lost device. *)
Definition lost_while_resized : Platform :=
  {| surface_events :=
       fun k => match k with O => [FramebufferResize 800 600] | _ => [] end;
     swapchain_images := fun _ => Some 3%nat;
     pipeline_builds := fun _ => true;
     vkCreatePipelineLayout_result := fun _ => VK_SUCCESS;
     vkAllocateCommandBuffers_result := fun _ => VK_SUCCESS;
     acquireNextImage_result := fun _ => (VK_SUCCESS, 0%N);
     vkBeginCommandBuffer_result := fun _ => VK_SUCCESS;
     vkEndCommandBuffer_result := fun _ => VK_SUCCESS;
     submitCommandBuffers_result := fun _ => VK_ERROR_DEVICE_LOST |}.

(** The coordinator about to draw its first frame on [lost_while_resized],
    the events of the first poll delivered. *)
Definition lost_world : World :=
  snd ((FirstApp lost_while_resized 0 ;; glfwPollEvents lost_while_resized)
         (boot window_800x600)).

(** In exact arithmetic, the payload of instance [i] is the decimal formula
    up to the rounding of single precision: the vertical offset is within
    [2^-25] of [-0.4 + 0.25 i], the blue channel within [2^-25] of
    [0.2 + 0.2 i], and the horizontal offset, red and green are zero. *)
Definition near_decimal (i : Z) : Prop :=
  let p := decimal_push i in
  fst (push_offset p) = S754_zero false /\
  F32.within (1 # 33554432) (snd (push_offset p))
    (- (4 # 10) + inject_Z i * (25 # 100))%Q /\
  fst (fst (push_color p)) = S754_zero false /\
  snd (fst (push_color p)) = S754_zero false /\
  F32.within (1 # 33554432) (snd (push_color p))
    ((2 # 10) + (2 # 10) * inject_Z i)%Q.

(* ===================================================================== *)
(** ** The rest of [first_app.cpp] *)
(* ===================================================================== *)

(** [FirstApp::loadSierpinskiModel]: the fractal is generated into an
    empty vector, from which the model is made.  [fuel] is the fuel of
    [Sierpinski]. *)
Definition loadSierpinskiModel (fuel : nat) (depth : Z) : M unit :=
  match Sierpinski fuel depth (F32.literal 1 1) (F32.literal 1 1)
          (F32.neg (F32.literal 5 10)) (F32.literal 5 10) [] with
  | Some vertices =>
      model <- new_LveModel vertices ;;
      write (set_lveModel (Some model))
  | None => diverge
  end.

Arguments loadSierpinskiModel : simpl never.

(** As [steady], with the same given answer to every acquisition, begin,
    end and submission. *)
Definition steady_with (acquired : VkResult * N) (began ended presented : VkResult)
    : Platform :=
  {| surface_events := fun _ => [];
     swapchain_images := fun _ => Some 3%nat;
     pipeline_builds := fun _ => true;
     vkCreatePipelineLayout_result := fun _ => VK_SUCCESS;
     vkAllocateCommandBuffers_result := fun _ => VK_SUCCESS;
     acquireNextImage_result := fun _ => acquired;
     vkBeginCommandBuffer_result := fun _ => began;
     vkEndCommandBuffer_result := fun _ => ended;
     submitCommandBuffers_result := fun _ => presented |}.

(** As [steady], with given events and given answers to the creation of
    the layout and to the allocations. *)
Definition setup_with (events : nat -> list WindowEvent) (layout allocated : VkResult)
    : Platform :=
  {| surface_events := events;
     swapchain_images := fun _ => Some 3%nat;
     pipeline_builds := fun _ => true;
     vkCreatePipelineLayout_result := fun _ => layout;
     vkAllocateCommandBuffers_result := fun _ => allocated;
     acquireNextImage_result := fun _ => (VK_SUCCESS, 0%N);
     vkBeginCommandBuffer_result := fun _ => VK_SUCCESS;
     vkEndCommandBuffer_result := fun _ => VK_SUCCESS;
     submitCommandBuffers_result := fun _ => VK_SUCCESS |}.

(** The window is restored to 800 by 600 by the first events that arrive;
    nothing arrives after that. *)
Definition restoring : Platform :=
  setup_with (fun k => match k with O => [FramebufferResize 800 600] | _ => [] end)
    VK_SUCCESS VK_SUCCESS.

(** The close request arrives with the events of the second poll. *)
Definition closing : Platform :=
  setup_with (fun k => match k with 1%nat => [CloseRequest] | _ => [] end)
    VK_SUCCESS VK_SUCCESS.

(** The constructor's first two statements done, on a minimized window. *)
Definition minimized_world : World :=
  snd ((loadModels ;; createPipelineLayout restoring) (boot window_minimized)).

(** The model, the pipeline and the first command buffer of [steady_world]. *)
Definition triangle : LveModel :=
  {| model_vertices :=
       [ {| position := (F32.literal 0 1, F32.neg (F32.literal 5 10));
            color := (F32.literal 1 1, F32.literal 0 1, F32.literal 0 1) |};
         {| position := (F32.literal 5 10, F32.literal 5 10);
            color := (F32.literal 0 1, F32.literal 1 1, F32.literal 0 1) |};
         {| position := (F32.neg (F32.literal 5 10), F32.literal 5 10);
            color := (F32.literal 0 1, F32.literal 0 1, F32.literal 1 1) |} ] |}.

Definition first_pipeline : LvePipeline :=
  {| pipeline_serial := 0;
     vertFilepath := "../shaders/simple_shader.vert.spv";
     fragFilepath := "../shaders/simple_shader.frag.spv";
     configInfo := {| config_renderPass := 0; config_pipelineLayout := created_layout |} |}.

(** The acquisition, the recording and the submission of one frame, as they
    appear in the trace. *)
Definition drawn_frame (chain : LveSwapChain) (pipeline : LvePipeline) (model : LveModel)
    (layout : VkPipelineLayout) (buffer : VkCommandBuffer) (index : N)
    (acquired presented : VkResult) : list Event :=
  [ EvAcquireNextImage chain acquired index;
    EvBeginCommandBuffer buffer VK_SUCCESS ]
  ++ recording chain pipeline model layout buffer (Z.of_N index)
  ++ [ EvEndCommandBuffer buffer VK_SUCCESS;
       EvSubmit chain buffer index presented ].

Definition is_wait (ev : Event) : bool :=
  match ev with
  | EvWaitEvents _ => true
  | _ => false
  end.

(** A call ended in a fault: a failed [assert], a null pointer or an index
    past the end. *)
Definition is_fault {A} (r : outcome A) : Prop :=
  match r with
  | Fail (Fault _) => True
  | _ => False
  end.

(** The platform hands out indices of images of the chain: every chain
    has at least [m] images, and every acquired index is below [m]. *)
Definition indices_within (P : Platform) (m : nat) : Prop :=
  (forall k n, swapchain_images P k = Some n -> (m <= n)%nat) /\
  (forall k, (N.to_nat (snd (acquireNextImage_result P k)) < m)%nat) /\
  (forall k, (snd (acquireNextImage_result P k) < 2 ^ 31)%N).

(** [Ready], with a chain of at least [m] images. *)
Definition Ready_for (m : nat) (w : World) : Prop :=
  exists chain,
    lveSwapChain w = Some chain /\
    (m <= imageCount chain)%nat /\
    List.length (commandBuffers w) = imageCount chain /\
    lvePipeline w <> None /\
    pipelineLayout w <> None /\
    lveModel w <> None.

(** The chain in place after an event: the one a construction built, or
    none when the construction failed; any other event leaves it. *)
Definition step_chain (current : option LveSwapChain) (ev : Event)
    : option LveSwapChain :=
  match ev with
  | EvNewSwapChain _ _ built => built
  | _ => current
  end.

(** An event finds in place the chain it works with: acquisitions and
    submissions go to it, a construction is handed it as the old chain, a
    pipeline is built for its render pass, and a recording begins its
    render pass on one of its framebuffers, over its extent, with a
    viewport and a scissor of its extent and a pipeline built for its
    render pass. *)
Definition uses_current (current : option LveSwapChain) (ev : Event) : Prop :=
  match ev with
  | EvAcquireNextImage chain _ _ | EvSubmit chain _ _ _ => current = Some chain
  | EvNewSwapChain _ previous _ => previous = current
  | EvNewPipeline config _ =>
      exists chain, current = Some chain /\
        config_renderPass config = getRenderPass chain
  | EvCmd _ (CmdBeginRenderPass renderPass framebuffer _ extent _) =>
      exists chain, current = Some chain /\
        renderPass = getRenderPass chain /\
        (exists i, framebuffer = getFrameBuffer chain i) /\
        extent = getSwapChainExtent chain
  | EvCmd _ (CmdSetViewport viewport) =>
      exists chain, current = Some chain /\
        viewport_width viewport
        = F32.of_int (Z.of_N (width (getSwapChainExtent chain))) /\
        viewport_height viewport
        = F32.of_int (Z.of_N (height (getSwapChainExtent chain)))
  | EvCmd _ (CmdSetScissor _ extent) =>
      exists chain, current = Some chain /\ extent = getSwapChainExtent chain
  | EvCmd _ (CmdBindPipeline pipeline) =>
      exists chain, current = Some chain /\
        config_renderPass (configInfo pipeline) = getRenderPass chain
  | _ => True
  end.

(** Every event of a trace that starts with [current] in place finds in
    place the chain it works with. *)
Fixpoint current_throughout (current : option LveSwapChain) (tr : list Event) : Prop :=
  match tr with
  | [] => True
  | ev :: tr' => uses_current current ev /\ current_throughout (step_chain current ev) tr'
  end.

(** The trace and the members agree on the chain: the member is the chain
    the trace leaves in place, the pipeline member was built for its render
    pass, and every event so far found its chain in place. *)
Definition Coherent (w : World) : Prop :=
  current_throughout None (trace w) /\
  fold_left step_chain (trace w) None = lveSwapChain w /\
  forall chain pipeline,
    lveSwapChain w = Some chain -> lvePipeline w = Some pipeline ->
    config_renderPass (configInfo pipeline) = getRenderPass chain.

(* ===================================================================== *)
(** ** Whole sessions: the extents of the chains, the push constants *)
(* ===================================================================== *)

(** What an event does to the window: polls and waits deliver their
    events to it, the reset clears its resized flag. *)
Definition window_step (win : LveWindow) (ev : Event) : LveWindow :=
  match ev with
  | EvPollEvents delivered | EvWaitEvents delivered => fold_left deliver delivered win
  | EvResetWindowResizedFlag => reset_flag win
  | _ => win
  end.

(** The window after a trace, from [win]. *)
Definition window_at (win : LveWindow) (tr : list Event) : LveWindow :=
  fold_left window_step tr win.

Arguments window_at : simpl never.

(** Every extent reported in the trace is the extent the window had when
    it was asked. *)
Definition reports_window (win : LveWindow) (tr : list Event) : Prop :=
  forall pre extent post,
    tr = pre ++ EvGetExtent extent :: post ->
    extent = window_extent (window_at win pre).

(** Every construction of a chain in the trace ends a sequence that [waiting]
    describes: the extent is read, and while the extent in hand is
    degenerate it is read again and events are waited for; the loop is left
    with a proper extent, the device is waited for, and the chain is built
    on that extent, the last one the window reported, which is non-zero in
    width and in height. *)
Definition built_after_waiting (tr : list Event) : Prop :=
  forall pre extent previous built post,
    tr = pre ++ EvNewSwapChain extent previous built :: post ->
    width extent <> 0%N /\ height extent <> 0%N /\
    last_reported pre = Some extent /\
    exists before first polls,
      pre = before ++ EvGetExtent first :: polls ++ [EvDeviceWaitIdle] /\
      waiting first polls extent.

(** The trace and the window agree: the window member is what the events
    of the trace made of the window the application started with, and every
    report of the extent was true when it was made. *)
Definition Truthful (win : LveWindow) (w : World) : Prop :=
  lveWindow w = window_at win (trace w) /\ reports_window win (trace w).

Definition Built (w : World) : Prop := built_after_waiting (trace w).

(** An event that neither reports on the window nor changes it, and builds
    no chain. *)
Definition is_plain (ev : Event) : bool :=
  match ev with
  | EvPollEvents _ | EvWaitEvents _ | EvGetExtent _ | EvResetWindowResizedFlag
  | EvNewSwapChain _ _ _ => false
  | _ => true
  end.

(** The events that follow the creation of the layout [L]: no layout is
    created again, and the others are well formed for [L]. *)
Definition after_layout (L : option VkPipelineLayout) (ev : Event) : Prop :=
  match ev with
  | EvCreatePipelineLayout _ _ => False
  | _ => well_formed L ev
  end.

(** After a creation of the layout that answered [result]: no layout is
    created again, and a push-constant update is recorded only when the
    creation succeeded, goes to the layout that was created, and is made for
    the vertex and fragment stages, at offset 0, with the size of
    [SimplePushConstantData]. *)
Definition pushed_as_created (result : VkResult) (ev : Event) : Prop :=
  match ev with
  | EvCreatePipelineLayout _ _ => False
  | EvCmd _ (CmdPushConstants layout flags offset size _) =>
      result = VK_SUCCESS /\
      layout = created_layout /\
      flags = Z.lor VK_SHADER_STAGE_VERTEX_BIT VK_SHADER_STAGE_FRAGMENT_BIT /\
      offset = 0 /\
      size = sizeof_SimplePushConstantData
  | _ => True
  end.

Definition is_push (ev : Event) : bool :=
  match ev with
  | EvCmd _ (CmdPushConstants _ _ _ _ _) => true
  | _ => false
  end.

(* ===================================================================== *)
(** ** Reasoning about [M] *)
(* ===================================================================== *)

Lemma preserves_ret {A} (I : World -> Prop) (a : A) : preserves I (ret a).
Proof. intros w H. exact H. Qed.

Lemma preserves_throw {A} (I : World -> Prop) (what : string) :
  preserves I (@throw A what).
Proof. intros w H. exact H. Qed.

Lemma preserves_fault {A} (I : World -> Prop) (what : string) :
  preserves I (@fault A what).
Proof. intros w H. exact H. Qed.

Lemma preserves_diverge {A} (I : World -> Prop) : preserves I (@diverge A).
Proof. intros w H. exact H. Qed.

Lemma preserves_read {A} (I : World -> Prop) (f : World -> A) : preserves I (read f).
Proof. intros w H. exact H. Qed.

Lemma preserves_deref {A} (I : World -> Prop) (what : string) (p : option A) :
  preserves I (deref what p).
Proof. intros w H. destruct p; exact H. Qed.

Lemma preserves_bind {A B} (I : World -> Prop) (m : M A) (k : A -> M B) :
  preserves I m -> (forall a, preserves I (k a)) -> preserves I (bind m k).
Proof.
  intros Hm Hk w H. unfold bind.
  specialize (Hm w H).
  destruct (m w) as [[a | f] w1]; cbn in *.
  - apply Hk, Hm.
  - exact Hm.
Qed.

(** The same, when what [m] returns is known to satisfy [R]. *)
Lemma preserves_bind_returning {A B} (I : World -> Prop) (R : A -> Prop)
    (m : M A) (k : A -> M B) :
  (forall w a w', m w = (Ok a, w') -> R a) ->
  preserves I m -> (forall a, R a -> preserves I (k a)) -> preserves I (bind m k).
Proof.
  intros HR Hm Hk w H. unfold bind.
  specialize (Hm w H). specialize (HR w).
  destruct (m w) as [[a | f] w1]; cbn in *.
  - apply Hk; [eapply HR; reflexivity | exact Hm].
  - exact Hm.
Qed.

(** A bind that returns: so did its first part, and its second from there. *)
Lemma bind_Ok {A B} (m : M A) (k : A -> M B) (w : World) (b : B) (w' : World) :
  bind m k w = (Ok b, w') ->
  exists a w1, m w = (Ok a, w1) /\ k a w1 = (Ok b, w').
Proof.
  unfold bind. destruct (m w) as [[a | f] w1]; intros H.
  - exists a, w1. split; [reflexivity | exact H].
  - discriminate.
Qed.

(** A bind whose first part fails, fails the same way, there. *)
Lemma bind_Fail {A B} (m : M A) (k : A -> M B) (w : World) (f : failure) (w' : World) :
  m w = (Fail f, w') -> bind m k w = (Fail f, w').
Proof. unfold bind. intros H. rewrite H. reflexivity. Qed.

Lemma preserves_for_each {A} (I : World -> Prop) (xs : list A) (body : A -> M unit) :
  (forall x, preserves I (body x)) -> preserves I (for_each xs body).
Proof.
  intros Hbody. induction xs as [| x xs IH]; cbn.
  - apply preserves_ret.
  - apply preserves_bind; [apply Hbody | intros _; exact IH].
Qed.

Lemma throughout_emit (Q : Event -> Prop) (ev : Event) :
  Q ev -> preserves (throughout Q) (emit ev).
Proof.
  intros Hev w H. apply Forall_app. split; [exact H | auto].
Qed.

Lemma since_emit (w0 : World) (Q : Event -> Prop) (ev : Event) :
  Q ev -> preserves (since w0 Q) (emit ev).
Proof.
  intros Hev w (delta & Htr & Hdelta). exists (delta ++ [ev]). cbn.
  rewrite Htr, app_assoc. split; [reflexivity |].
  apply Forall_app. split; [exact Hdelta | auto].
Qed.

Lemma since_start (w0 : World) (Q : Event -> Prop) : since w0 Q w0.
Proof. exists []. rewrite app_nil_r. split; [reflexivity | constructor]. Qed.

Lemma since_weaken (w0 w : World) (Q Q' : Event -> Prop) :
  (forall ev, Q ev -> Q' ev) -> since w0 Q w -> since w0 Q' w.
Proof.
  intros HQ (delta & Htr & Hdelta). exists delta. split; [exact Htr |].
  eapply Forall_impl; eassumption.
Qed.

Lemma since_throughout (w0 w : World) (Q : Event -> Prop) :
  throughout Q w0 -> since w0 Q w -> throughout Q w.
Proof.
  intros H0 (delta & Htr & Hdelta). unfold throughout. rewrite Htr.
  apply Forall_app. split; assumption.
Qed.

(** A step that leaves the trace alone keeps what is said of the trace. *)
Lemma throughout_quiet {A} (Q : Event -> Prop) (m : M A) :
  (forall w, trace (snd (m w)) = trace w) -> preserves (throughout Q) m.
Proof. intros Hm w H. unfold throughout. rewrite Hm. exact H. Qed.

Lemma since_quiet {A} (w0 : World) (Q : Event -> Prop) (m : M A) :
  (forall w, trace (snd (m w)) = trace w) -> preserves (since w0 Q) m.
Proof. intros Hm w (delta & Htr & H). exists delta. rewrite Hm. auto. Qed.

Lemma steady_emit (L : option VkPipelineLayout) (w0 : World) (Q : Event -> Prop)
    (ev : Event) :
  Q ev -> preserves (steady_since L w0 Q) (emit ev).
Proof.
  intros Hev w [HL H]. split; [exact HL | apply since_emit; assumption].
Qed.

Lemma steady_quiet {A} (L : option VkPipelineLayout) (w0 : World) (Q : Event -> Prop)
    (m : M A) :
  (forall w, pipelineLayout (snd (m w)) = pipelineLayout w) ->
  (forall w, trace (snd (m w)) = trace w) ->
  preserves (steady_since L w0 Q) m.
Proof.
  intros Hl Ht w [HL H]. split; [rewrite Hl; exact HL | apply since_quiet; assumption].
Qed.

Lemma steady_start (w0 : World) (Q : Event -> Prop) :
  steady_since (pipelineLayout w0) w0 Q w0.
Proof. split; [reflexivity | apply since_start]. Qed.

Lemma steady_weaken (L : option VkPipelineLayout) (w0 w : World) (Q Q' : Event -> Prop) :
  (forall ev, Q ev -> Q' ev) -> steady_since L w0 Q w -> steady_since L w0 Q' w.
Proof. intros HQ [HL H]. split; [exact HL | eapply since_weaken; eassumption]. Qed.

Create HintDb preserves discriminated.

#[export] Hint Resolve preserves_ret preserves_throw preserves_fault preserves_diverge
  preserves_read preserves_deref : preserves.

(** Splits a computation along its binds, branches and loops; [leaf] is
    tried on what is left. *)
Ltac preserves_steps leaf :=
  repeat first
    [ assumption
    | solve [auto with preserves]
    | apply preserves_bind; [| intros ?]
    | apply preserves_for_each; intros ?
    | match goal with
      | |- preserves _ (match ?x with _ => _ end) => destruct x
      end
    | apply throughout_quiet; intros; reflexivity
    | apply since_quiet; intros; reflexivity
    | apply steady_quiet; intros; reflexivity
    | leaf ].

(* ===================================================================== *)
(** ** The loop that waits for a proper extent *)
(* ===================================================================== *)

Section Waiting.

Variable P : Platform.

Lemma degenerate_false (e : VkExtent2D) :
  degenerate e = false <-> width e <> 0%N /\ height e <> 0%N.
Proof.
  unfold degenerate. rewrite orb_false_iff, !N.eqb_neq. tauto.
Qed.

(** The loop leaves only reads of the extent and waits in the trace,
    touches nothing of the coordinator but the window, calls no entry
    point but the event pump, fails only by running on, and returns an
    extent as [waiting] says. *)
Lemma await_extent_spec (fuel : nat) :
  forall e w r w',
    await_extent P fuel e w = (r, w') ->
    exists polls,
      trace w' = trace w ++ polls /\
      Forall wait_event polls /\
      lveSwapChain w' = lveSwapChain w /\
      lvePipeline w' = lvePipeline w /\
      pipelineLayout w' = pipelineLayout w /\
      commandBuffers w' = commandBuffers w /\
      lveModel w' = lveModel w /\
      (forall ep, ep <> PumpEvents -> calls w' ep = calls w ep) /\
      (degenerate e = false -> lveWindow w' = lveWindow w) /\
      match r with
      | Ok e' => waiting e polls e'
      | Fail f => f = Diverge
      end.
Proof.
  induction fuel as [| fuel IH]; intros e w r w' Hrun; cbn in Hrun.
  - destruct (degenerate e) eqn:He; inversion Hrun; subst; clear Hrun;
      exists []; rewrite app_nil_r;
      repeat split; auto; try discriminate.
    constructor. exact He.
  - destruct (degenerate e) eqn:He.
    + cbn in Hrun. apply IH in Hrun.
      destruct Hrun as (polls & Htr & Hpolls & Hc & Hp & Hl & Hb & Hm & Hcalls & _ & Hr).
      cbn in *.
      eexists (EvGetExtent _ :: EvWaitEvents _ :: polls).
      rewrite Htr, <- !app_assoc. cbn.
      repeat split; auto; try discriminate.
      * repeat constructor. exact Hpolls.
      * intros ep Hep. rewrite (Hcalls ep Hep).
        destruct ep; try reflexivity. congruence.
      * destruct r as [e' | f]; [| exact Hr].
        econstructor; eassumption.
    + inversion Hrun; subst; clear Hrun.
      exists []. rewrite app_nil_r.
      repeat split; auto. constructor. exact He.
Qed.

Lemma waiting_proper (e e' : VkExtent2D) (polls : list Event) :
  waiting e polls e' -> degenerate e' = false.
Proof. induction 1; assumption. Qed.

(** With the extent it returns, the loop has the last extent the window
    reported, or the one it was given if it never asked. *)
Lemma waiting_last_reported (e e' : VkExtent2D) (polls : list Event) :
  waiting e polls e' ->
  last_reported (EvGetExtent e :: polls) = Some e'.
Proof.
  induction 1 as [e He | e e1 e' delivered polls He Hw IH].
  - reflexivity.
  - cbn in *. destruct (last_reported polls); exact IH.
Qed.

(** Enough fuel: the loop returns once the window shows a proper extent. *)
Lemma await_extent_returns (n : nat) :
  forall fuel e w,
    (n < fuel)%nat ->
    degenerate (window_extent (window_after P (lveWindow w) (calls w PumpEvents) n))
      = false ->
    exists e', fst (await_extent P fuel e w) = Ok e'.
Proof.
  induction n as [| n IH]; intros fuel e w Hfuel Hwin.
  - destruct fuel as [| fuel]; [lia |].
    cbn in Hwin. cbn.
    destruct (degenerate e) eqn:He; [| eexists; reflexivity].
    cbn.
    destruct fuel as [| fuel]; cbn; rewrite Hwin; eexists; reflexivity.
  - destruct fuel as [| fuel]; [lia |].
    cbn.
    destruct (degenerate e) eqn:He; [| eexists; reflexivity].
    cbn.
    apply IH; [lia |]. cbn. exact Hwin.
Qed.

End Waiting.

(* ===================================================================== *)
(** ** [recreateSwapChain] *)
(* ===================================================================== *)

Section Recreation.

Variable P : Platform.

Lemma allocated_length (b : bool) (k n : nat) (buffers : list VkCommandBuffer) :
  List.length buffers = n ->
  List.length
    ((if b then fresh_buffers k (Z.to_nat (to_uint32 n))
      else repeat VK_NULL_HANDLE (Z.to_nat (to_uint32 n)))
     ++ skipn (Z.to_nat (to_uint32 n)) buffers) = n.
Proof.
  intros Hlen.
  assert (Hle : (Z.to_nat (to_uint32 n) <= n)%nat).
  { unfold to_uint32, uint32_max.
    assert (0 <= Z.of_nat n mod 2 ^ 32 <= Z.of_nat n).
    { split; [apply Z.mod_pos_bound; lia | apply Z.mod_le; lia]. }
    lia. }
  rewrite length_app, length_skipn, Hlen.
  destruct b.
  - unfold fresh_buffers. rewrite length_map, length_seq. lia.
  - rewrite repeat_length. lia.
Qed.

Lemma resize_length (n : nat) (v : list VkCommandBuffer) :
  List.length (resize n v) = n.
Proof.
  unfold resize. rewrite length_app, length_firstn, repeat_length. lia.
Qed.

(** *** What each step does, whatever its outcome *)

Ltac calls_only_tac :=
  let other := fresh "other" in
  let H := fresh "H" in
  intros other H; destruct other; try reflexivity; congruence.

Lemma new_LveSwapChain_spec
    (e : VkExtent2D) (previous : option LveSwapChain) (w : World)
    (r : outcome LveSwapChain) (w' : World) :
  new_LveSwapChain P e previous w = (r, w') ->
  lveWindow w' = lveWindow w /\
  same_members w w' /\
  calls_only NewSwapChain w w' /\
  match swapchain_images P (calls w NewSwapChain) with
  | Some n =>
      let chain :=
        {| chain_serial := calls w NewSwapChain; windowExtent := e; chain_images := n;
           oldSwapChain := option_map chain_serial previous |} in
      r = Ok chain /\
      trace w' = trace w ++ [EvNewSwapChain e previous (Some chain)]
  | None =>
      r = Fail (Exception "failed to create swap chain!") /\
      trace w' = trace w ++ [EvNewSwapChain e previous None]
  end.
Proof.
  unfold new_LveSwapChain, same_members, calls_only. cbn.
  destruct (swapchain_images P _); cbn; intros H; inversion H; subst; cbn;
    repeat split; auto; calls_only_tac.
Qed.

Lemma createPipeline_spec (w : World) (r : outcome unit) (w' : World) :
  createPipeline P w = (r, w') ->
  lveWindow w' = lveWindow w /\
  lveSwapChain w' = lveSwapChain w /\
  pipelineLayout w' = pipelineLayout w /\
  commandBuffers w' = commandBuffers w /\
  lveModel w' = lveModel w /\
  calls_only NewPipeline w w' /\
  match lveSwapChain w, pipelineLayout w with
  | Some chain, Some layout =>
      let config :=
        {| config_renderPass := getRenderPass chain;
           config_pipelineLayout := layout |} in
      let pipeline :=
        {| pipeline_serial := calls w NewPipeline;
           vertFilepath := "../shaders/simple_shader.vert.spv";
           fragFilepath := "../shaders/simple_shader.frag.spv";
           configInfo := config |} in
      if pipeline_builds P (calls w NewPipeline) then
        r = Ok tt /\
        lvePipeline w' = Some pipeline /\
        trace w' = trace w ++ [EvNewPipeline config (Some pipeline)]
      else
        r = Fail (Exception "failed to create graphics pipeline") /\
        lvePipeline w' = lvePipeline w /\
        trace w' = trace w ++ [EvNewPipeline config None]
  | _, _ => (exists what, r = Fail (Fault what)) /\ w' = w
  end.
Proof.
  unfold createPipeline, new_LvePipeline, calls_only. cbn.
  destruct (lveSwapChain w) as [chain |] eqn:Hchain; cbn.
  - destruct (pipelineLayout w) as [layout |] eqn:Hlayout; cbn.
    + destruct (pipeline_builds P _); cbn; intros H; inversion H; subst; cbn;
        repeat split; auto; calls_only_tac.
    + intros H; inversion H; subst. repeat split; eauto.
  - intros H; inversion H; subst.
    destruct (pipelineLayout w'); repeat split; eauto.
Qed.

Lemma freeCommandBuffers_spec (w : World) (r : outcome unit) (w' : World) :
  freeCommandBuffers w = (r, w') ->
  r = Ok tt /\
  commandBuffers w' = [] /\
  trace w' =
    trace w ++ [EvFreeCommandBuffers (to_uint32 (List.length (commandBuffers w)))
                  (commandBuffers w)] /\
  lveWindow w' = lveWindow w /\
  lveSwapChain w' = lveSwapChain w /\
  lvePipeline w' = lvePipeline w /\
  pipelineLayout w' = pipelineLayout w /\
  lveModel w' = lveModel w /\
  calls w' = calls w.
Proof.
  unfold freeCommandBuffers, vkFreeCommandBuffers. cbn.
  intros H; inversion H; subst; cbn. repeat split; reflexivity.
Qed.

Lemma createCommandBuffers_spec (w : World) (r : outcome unit) (w' : World) :
  createCommandBuffers P w = (r, w') ->
  lveWindow w' = lveWindow w /\
  lveSwapChain w' = lveSwapChain w /\
  lvePipeline w' = lvePipeline w /\
  pipelineLayout w' = pipelineLayout w /\
  lveModel w' = lveModel w /\
  calls_only AllocateCommandBuffers w w' /\
  match lveSwapChain w with
  | Some chain =>
      let result := vkAllocateCommandBuffers_result P (calls w AllocateCommandBuffers) in
      List.length (commandBuffers w') = imageCount chain /\
      trace w' =
        trace w ++ [EvAllocateCommandBuffers (to_uint32 (imageCount chain)) result] /\
      r = if result =? VK_SUCCESS then Ok tt
          else Fail (Exception "failed to allocate command buffers!")
  | None => (exists what, r = Fail (Fault what)) /\ w' = w
  end.
Proof.
  unfold createCommandBuffers, vkAllocateCommandBuffers, calls_only. cbn.
  destruct (lveSwapChain w) as [chain |] eqn:Hchain; cbn.
  - rewrite resize_length.
    destruct (vkAllocateCommandBuffers_result P _ =? VK_SUCCESS) eqn:Hresult;
      cbn; intros H; inversion H; subst; cbn;
      (repeat split; auto; [calls_only_tac |]);
      apply allocated_length, resize_length.
  - intros H; inversion H; subst. repeat split; eauto.
Qed.

(** *** What the calls leave in the trace, whatever their outcome *)

Section Events.

Variable L : option VkPipelineLayout.
Variable w0 : World.
Variable Q : Event -> Prop.
Hypothesis recreation_in_Q : forall ev, recreation_event ev -> Q ev.


Ltac recreation_leaf :=
  apply steady_emit; apply recreation_in_Q; cbn; auto.

Lemma getExtent_steady : preserves (steady_since L w0 Q) getExtent.
Proof. unfold getExtent. preserves_steps recreation_leaf. Qed.

Lemma glfwWaitEvents_steady : preserves (steady_since L w0 Q) (glfwWaitEvents P).
Proof. unfold glfwWaitEvents, pump. preserves_steps recreation_leaf. Qed.

Lemma await_extent_steady (fuel : nat) (e : VkExtent2D) :
  preserves (steady_since L w0 Q) (await_extent P fuel e).
Proof.
  revert e. induction fuel as [| fuel IH]; intros e; cbn.
  - preserves_steps idtac.
  - pose proof getExtent_steady. pose proof glfwWaitEvents_steady.
    preserves_steps idtac.
Qed.

Lemma new_LveSwapChain_steady (e : VkExtent2D) (previous : option LveSwapChain) :
  degenerate e = false -> preserves (steady_since L w0 Q) (new_LveSwapChain P e previous).
Proof. intros He. unfold new_LveSwapChain. preserves_steps recreation_leaf. Qed.

Lemma createPipeline_steady : preserves (steady_since L w0 Q) (createPipeline P).
Proof.
  unfold createPipeline, new_LvePipeline. preserves_steps recreation_leaf.
Qed.

Lemma createCommandBuffers_steady : preserves (steady_since L w0 Q) (createCommandBuffers P).
Proof.
  unfold createCommandBuffers, vkAllocateCommandBuffers.
  preserves_steps recreation_leaf.
Qed.

Lemma freeCommandBuffers_steady : preserves (steady_since L w0 Q) freeCommandBuffers.
Proof.
  unfold freeCommandBuffers, vkFreeCommandBuffers.
  preserves_steps recreation_leaf.
Qed.

Lemma recreateSwapChain_steady (fuel : nat) :
  preserves (steady_since L w0 Q) (recreateSwapChain P fuel).
Proof.
  pose proof getExtent_steady.
  pose proof createPipeline_steady.
  pose proof createCommandBuffers_steady.
  pose proof freeCommandBuffers_steady.
  unfold recreateSwapChain, vkDeviceWaitIdle.
  apply preserves_bind; [assumption | intros e0].
  apply preserves_bind_returning with (R := fun e => degenerate e = false).
  - intros w e w' Hrun. apply await_extent_spec in Hrun.
    destruct Hrun as (polls & _ & _ & _ & _ & _ & _ & _ & _ & _ & Hw).
    eapply waiting_proper; eassumption.
  - apply await_extent_steady.
  - intros e He.
    pose proof (new_LveSwapChain_steady e None He).
    pose proof (fun p => new_LveSwapChain_steady e (Some p) He).
    preserves_steps recreation_leaf.
Qed.

End Events.

(** A recreation that replaces an existing chain and returns: what it
    leaves in the trace and in the members. *)
Lemma recreateSwapChain_Ok (fuel : nat) (w w' : World) (previous : LveSwapChain) :
  lveSwapChain w = Some previous ->
  recreateSwapChain P fuel w = (Ok tt, w') ->
  exists polls e n layout,
    let chain :=
      {| chain_serial := calls w NewSwapChain; windowExtent := e; chain_images := n;
         oldSwapChain := Some (chain_serial previous) |} in
    let config :=
      {| config_renderPass := getRenderPass chain; config_pipelineLayout := layout |} in
    let pipeline :=
      {| pipeline_serial := calls w NewPipeline;
         vertFilepath := "../shaders/simple_shader.vert.spv";
         fragFilepath := "../shaders/simple_shader.frag.spv";
         configInfo := config |} in
    let reallocation :=
      if (n =? List.length (commandBuffers w))%nat then []
      else [ EvFreeCommandBuffers (to_uint32 (List.length (commandBuffers w)))
               (commandBuffers w);
             EvAllocateCommandBuffers (to_uint32 n) VK_SUCCESS ] in
    waiting (window_extent (lveWindow w)) polls e /\
    swapchain_images P (calls w NewSwapChain) = Some n /\
    pipelineLayout w = Some layout /\
    trace w' =
      trace w ++ EvGetExtent (window_extent (lveWindow w)) :: polls
      ++ [EvDeviceWaitIdle; EvNewSwapChain e (Some previous) (Some chain)]
      ++ reallocation ++ [EvNewPipeline config (Some pipeline)] /\
    lveSwapChain w' = Some chain /\
    lvePipeline w' = Some pipeline /\
    pipelineLayout w' = pipelineLayout w /\
    lveModel w' = lveModel w /\
    List.length (commandBuffers w') = n /\
    ((n =? List.length (commandBuffers w))%nat = true ->
     commandBuffers w' = commandBuffers w) /\
    (degenerate (window_extent (lveWindow w)) = false -> lveWindow w' = lveWindow w).
Proof.
  intros Hchain Hrun.
  unfold recreateSwapChain in Hrun. cbn in Hrun.
  destruct (await_extent _ _ _ _) as [[e | f] w1] eqn:Hawait; [| discriminate].
  apply await_extent_spec in Hawait.
  destruct Hawait
    as (polls & Htr & Hpolls & Hc & Hp & Hl & Hb & Hm & Hcalls & Hwin & Hwaiting).
  cbn in Htr, Hc, Hp, Hl, Hb, Hm, Hcalls, Hwin, Hwaiting.
  rewrite Hc, Hchain in Hrun. cbn in Hrun.
  destruct (new_LveSwapChain _ _ _ _) as [[chain | f] w2] eqn:Hnew; [| discriminate].
  apply new_LveSwapChain_spec in Hnew.
  destruct Hnew as (Hwin2 & (Hc2 & Hp2 & Hl2 & Hb2 & Hm2) & Hcalls2 & Hnew).
  unfold calls_only in Hcalls2.
  cbn in Hwin2, Hc2, Hp2, Hl2, Hb2, Hm2, Hcalls2, Hnew.
  rewrite (Hcalls NewSwapChain) in Hnew by discriminate.
  destruct (swapchain_images P _) as [n |] eqn:Himages; [| destruct Hnew; discriminate].
  destruct Hnew as [Hchain2 Htr2]. inversion Hchain2; subst chain; clear Hchain2.
  cbn in Hrun. rewrite Hb2, Hb in Hrun.
  exists polls, e, n.
  destruct (n =? List.length (commandBuffers w))%nat eqn:Hsize; cbn in Hrun.
  - apply createPipeline_spec in Hrun. cbn in Hrun.
    destruct Hrun as (Hwin3 & Hc3 & Hl3 & Hb3 & Hm3 & Hcalls3 & Hrun).
    unfold calls_only in Hcalls3. cbn in Hcalls3.
    rewrite Hl2, Hl in Hl3, Hrun.
    destruct (pipelineLayout w) as [layout |]; [| destruct Hrun as [[? ?] _]; discriminate].
    rewrite (Hcalls2 NewPipeline), (Hcalls NewPipeline) in Hrun by discriminate.
    destruct (pipeline_builds P _); [| destruct Hrun; discriminate].
    destruct Hrun as (_ & Hp3 & Htr3).
    exists layout. cbn.
    apply Nat.eqb_eq in Hsize.
    rewrite Htr3, Htr2, Htr, <- !app_assoc. cbn.
    repeat split; auto; try congruence.
    intros Hproper. rewrite Hwin3, Hwin2. auto.
  - destruct (freeCommandBuffers _) as [r4 w4] eqn:Hfree.
    apply freeCommandBuffers_spec in Hfree. cbn in Hfree.
    destruct Hfree as (-> & Hb4 & Htr4 & Hwin4 & Hc4 & Hp4 & Hl4 & Hm4 & Hcalls4).
    destruct (createCommandBuffers P w4) as [r5 w5] eqn:Hcreate.
    apply createCommandBuffers_spec in Hcreate.
    destruct Hcreate as (Hwin5 & Hc5 & Hp5 & Hl5 & Hm5 & Hcalls5 & Hcreate).
    unfold calls_only in Hcalls5.
    rewrite Hc4 in Hcreate, Hc5.
    destruct Hcreate as (Hlen5 & Htr5 & Hr5).
    rewrite Hcalls4, (Hcalls2 AllocateCommandBuffers),
      (Hcalls AllocateCommandBuffers) in Htr5, Hr5 by discriminate.
    destruct (vkAllocateCommandBuffers_result P _ =? VK_SUCCESS) eqn:Halloc;
      subst r5; [| discriminate].
    apply Z.eqb_eq in Halloc. rewrite Halloc in Htr5.
    apply createPipeline_spec in Hrun.
    destruct Hrun as (Hwin6 & Hc6 & Hl6 & Hb6 & Hm6 & Hcalls6 & Hrun).
    unfold calls_only in Hcalls6.
    rewrite Hc5, Hl5, Hl4 in Hrun. cbn in Hrun.
    rewrite Hl2, Hl in Hrun.
    destruct (pipelineLayout w) as [layout |] eqn:Hlayout;
      [| destruct Hrun as [[? ?] _]; discriminate].
    rewrite (Hcalls5 NewPipeline), Hcalls4, (Hcalls2 NewPipeline),
      (Hcalls NewPipeline) in Hrun by discriminate.
    destruct (pipeline_builds P _); [| destruct Hrun; discriminate].
    destruct Hrun as (_ & Hp6 & Htr6).
    exists layout. cbn.
    rewrite Htr6, Htr5, Htr4. cbn. rewrite Htr2, Htr, Hb2, Hb, <- !app_assoc. cbn.
    repeat split; auto; try congruence.
    + rewrite Hb6. exact Hlen5.
    + intros Hproper. rewrite Hwin6, Hwin5, Hwin4, Hwin2. auto.
Qed.

Lemma await_extent_settled (fuel : nat) (e : VkExtent2D) (w : World) :
  degenerate e = false -> await_extent P fuel e w = (Ok e, w).
Proof. intros He. destruct fuel; cbn; rewrite He; reflexivity. Qed.

(** Enough fuel and a platform that builds what it is asked: the
    recreation returns. *)
Lemma recreateSwapChain_returns (fuel : nat) (w : World) (previous : LveSwapChain) :
  lveSwapChain w = Some previous ->
  recreation_completes P fuel w ->
  fst (recreateSwapChain P fuel w) = Ok tt.
Proof.
  intros Hchain (Hsettles & Himages & Halloc & Hbuilds & Hlayout).
  unfold recreateSwapChain. cbn.
  assert (Hawait : exists e,
             fst (await_extent P fuel (window_extent (lveWindow w))
                    (set_trace (trace w ++ [EvGetExtent (window_extent (lveWindow w))]) w))
             = Ok e).
  { destruct Hsettles as [He | (n & Hn & He)].
    - rewrite await_extent_settled by exact He. eexists; reflexivity.
    - eapply await_extent_returns; eassumption. }
  destruct Hawait as (e & Hawait).
  destruct (await_extent _ _ _ _) as [r w1] eqn:Hrun. cbn in Hawait. subst r.
  apply await_extent_spec in Hrun.
  destruct Hrun
    as (polls & Htr & Hpolls & Hc & Hp & Hl & Hb & Hm & Hcalls & Hwin & Hwaiting).
  cbn in *.
  rewrite Hc, Hchain.
  unfold new_LveSwapChain. cbn.
  rewrite (Hcalls NewSwapChain) by discriminate.
  destruct (swapchain_images P _) as [n |]; [| congruence]. cbn.
  destruct (n =? List.length (commandBuffers w1))%nat; cbn.
  - unfold createPipeline, new_LvePipeline. cbn.
    rewrite Hl. destruct (pipelineLayout w); [| congruence]. cbn.
    rewrite (Hcalls NewPipeline), Hbuilds by discriminate. reflexivity.
  - unfold freeCommandBuffers, createCommandBuffers, vkFreeCommandBuffers,
      vkAllocateCommandBuffers.
    cbn.
    rewrite (Hcalls AllocateCommandBuffers), Halloc by discriminate. cbn.
    unfold createPipeline, new_LvePipeline. cbn.
    rewrite Hl. destruct (pipelineLayout w); [| congruence]. cbn.
    rewrite (Hcalls NewPipeline), Hbuilds by discriminate. reflexivity.
Qed.

End Recreation.

(* ===================================================================== *)
(** ** Properties of a recreation *)
(* ===================================================================== *)

(** C1. Immediately after a recreation of the chain returns, there is one
    command buffer per image of the chain now in place.  The recreation
    records nothing, and when the new chain's image count differs from the
    size the set had, the old set has been freed and a new one allocated by
    then: before any later recording.  (That a chain is in place whenever
    [drawFrame] recreates it is [frames_Ready].) *)
Theorem recreation_sizes_command_buffers
    (P : Platform) (fuel : nat) (w w' : World) (previous : LveSwapChain) :
  lveSwapChain w = Some previous ->
  recreateSwapChain P fuel w = (Ok tt, w') ->
  exists chain delta,
    lveSwapChain w' = Some chain /\
    List.length (commandBuffers w') = imageCount chain /\
    trace w' = trace w ++ delta /\
    Forall (fun ev => is_recording ev = false) delta /\
    (imageCount chain <> List.length (commandBuffers w) ->
     exists before after,
       delta =
         before
         ++ EvFreeCommandBuffers (to_uint32 (List.length (commandBuffers w)))
              (commandBuffers w)
         :: EvAllocateCommandBuffers (to_uint32 (imageCount chain)) VK_SUCCESS
         :: after).
Proof.
  intros Hchain Hrun.
  destruct (recreateSwapChain_Ok P fuel w w' previous Hchain Hrun)
    as (polls & e & n & layout & Hwaiting & Himages & Hlayout & Htr & Hc & Hp & Hl
        & Hm & Hlen & Hsame & Hwin).
  pose proof (recreateSwapChain_steady P (pipelineLayout w) w
                recreation_event (fun ev H => H) fuel w (steady_start w _)) as Hev.
  rewrite Hrun in Hev. destruct Hev as (_ & delta & Hdelta & Hall).
  cbn in Hdelta.
  eexists. exists delta. split; [exact Hc |]. split; [exact Hlen |].
  split; [exact Hdelta |]. split.
  - eapply Forall_impl; [| exact Hall].
    intros ev Hev. destruct ev; cbn in *; tauto.
  - unfold imageCount. cbn. intros Hneq.
    apply Nat.eqb_neq in Hneq.
    rewrite Htr in Hdelta. apply app_inv_head in Hdelta. subst delta.
    rewrite Hneq.
    exists (EvGetExtent (window_extent (lveWindow w)) :: polls
            ++ [EvDeviceWaitIdle;
                EvNewSwapChain e (Some previous)
                  (Some {| chain_serial := calls w NewSwapChain; windowExtent := e;
                           chain_images := n;
                           oldSwapChain := Some (chain_serial previous) |})]).
    eexists. cbn. rewrite <- !app_assoc. cbn. reflexivity.
Qed.

Lemma recreation_sizes_command_buffers_witness :
  lveSwapChain growing_world = Some (first_chain 2) /\
  recreateSwapChain growing 0 growing_world
  = (Ok tt, snd (recreateSwapChain growing 0 growing_world)) /\
  List.length (commandBuffers growing_world) = 2%nat /\
  List.length (commandBuffers (snd (recreateSwapChain growing 0 growing_world))) = 3%nat.
Proof.
  assert (Hchain : lveSwapChain growing_world = Some (first_chain 2))
    by (vm_compute; reflexivity).
  assert (Hrun : recreateSwapChain growing 0 growing_world
                 = (Ok tt, snd (recreateSwapChain growing 0 growing_world)))
    by (vm_compute; reflexivity).
  split; [exact Hchain |]. split; [exact Hrun |].
  split; [vm_compute; reflexivity |].
  destruct (recreation_sizes_command_buffers growing 0 growing_world
              (snd (recreateSwapChain growing 0 growing_world))
              (first_chain 2) Hchain Hrun)
    as (chain & delta & Hnew & Hlen & _).
  rewrite Hlen.
  assert (Hthree : lveSwapChain (snd (recreateSwapChain growing 0 growing_world))
                   = Some {| chain_serial := 1;
                             windowExtent := {| width := 800; height := 600 |};
                             chain_images := 3; oldSwapChain := Some O |})
    by (vm_compute; reflexivity).
  rewrite Hthree in Hnew. inversion Hnew. reflexivity.
Defined.

(** C3. A recreation that replaces a chain does, in this order: read the
    surface extent; as long as the extent in hand is degenerate, read it
    again and wait for surface events; wait for the device to be idle;
    construct the new chain from the extent in hand and the old chain; free
    and reallocate the command buffers if the new image count is not the
    size of the set; build a new pipeline against the new chain's render
    pass, whether or not anything changed; return.  And it does return when
    the extent settles within the fuel and the platform builds the chain,
    the buffers and the pipeline. *)
Theorem recreation_steps_in_order
    (P : Platform) (fuel : nat) (w : World) (previous : LveSwapChain) :
  lveSwapChain w = Some previous ->
  (recreation_completes P fuel w -> fst (recreateSwapChain P fuel w) = Ok tt) /\
  (fst (recreateSwapChain P fuel w) = Ok tt ->
   exists polls chain pipeline,
     trace (snd (recreateSwapChain P fuel w)) =
       trace w
       ++ [EvGetExtent (window_extent (lveWindow w))]
       ++ polls
       ++ [EvDeviceWaitIdle]
       ++ [EvNewSwapChain (windowExtent chain) (Some previous) (Some chain)]
       ++ (if (imageCount chain =? List.length (commandBuffers w))%nat then []
           else [ EvFreeCommandBuffers (to_uint32 (List.length (commandBuffers w)))
                    (commandBuffers w);
                  EvAllocateCommandBuffers (to_uint32 (imageCount chain)) VK_SUCCESS ])
       ++ [EvNewPipeline (configInfo pipeline) (Some pipeline)] /\
     waiting (window_extent (lveWindow w)) polls (windowExtent chain) /\
     oldSwapChain chain = Some (chain_serial previous) /\
     config_renderPass (configInfo pipeline) = getRenderPass chain /\
     pipeline_serial pipeline = calls w NewPipeline /\
     lveSwapChain (snd (recreateSwapChain P fuel w)) = Some chain /\
     lvePipeline (snd (recreateSwapChain P fuel w)) = Some pipeline).
Proof.
  intros Hchain. split.
  - apply recreateSwapChain_returns with (previous := previous). exact Hchain.
  - intros Hok.
    destruct (recreateSwapChain P fuel w) as [r w'] eqn:Hrun. cbn in Hok. subst r.
    destruct (recreateSwapChain_Ok P fuel w w' previous Hchain Hrun)
      as (polls & e & n & layout & Hwaiting & Himages & Hlayout & Htr & Hc & Hp & Hl
          & Hm & Hlen & Hsame & Hwin).
    exists polls.
    exists {| chain_serial := calls w NewSwapChain; windowExtent := e; chain_images := n;
              oldSwapChain := Some (chain_serial previous) |}.
    exists {| pipeline_serial := calls w NewPipeline;
              vertFilepath := "../shaders/simple_shader.vert.spv";
              fragFilepath := "../shaders/simple_shader.frag.spv";
              configInfo :=
                {| config_renderPass := calls w NewSwapChain;
                   config_pipelineLayout := layout |} |}.
    cbn. repeat split; auto.
Qed.

Lemma recreation_steps_in_order_witness :
  lveSwapChain steady_world = Some (first_chain 3) /\
  recreation_completes steady 0 steady_world /\
  fst (recreateSwapChain steady 0 steady_world) = Ok tt.
Proof.
  assert (Hchain : lveSwapChain steady_world = Some (first_chain 3))
    by (vm_compute; reflexivity).
  assert (Hcompletes : recreation_completes steady 0 steady_world).
  { split; [left; vm_compute; reflexivity |].
    split; [discriminate |]. split; [reflexivity |]. split; [reflexivity |].
    vm_compute. discriminate. }
  split; [exact Hchain |]. split; [exact Hcompletes |].
  exact (proj1 (recreation_steps_in_order steady 0 steady_world (first_chain 3) Hchain)
           Hcompletes).
Defined.

(** C7. When the chain a recreation builds has as many images as there are
    command buffers, the recreation leaves the command buffers as they are:
    nothing is freed, nothing allocated.  A new pipeline is built all the
    same, and the other members of the coordinator, the pipeline layout and
    the model, are untouched; so is the window unless the recreation had to
    wait for events. *)
Theorem recreation_reuses_command_buffers
    (P : Platform) (fuel : nat) (w w' : World) (previous chain : LveSwapChain) :
  lveSwapChain w = Some previous ->
  recreateSwapChain P fuel w = (Ok tt, w') ->
  lveSwapChain w' = Some chain ->
  imageCount chain = List.length (commandBuffers w) ->
  commandBuffers w' = commandBuffers w /\
  (exists delta pipeline,
     trace w' = trace w ++ delta /\
     Forall (fun ev => is_free_or_allocate ev = false) delta /\
     In (EvNewPipeline (configInfo pipeline) (Some pipeline)) delta /\
     pipeline_serial pipeline = calls w NewPipeline /\
     config_renderPass (configInfo pipeline) = getRenderPass chain /\
     lvePipeline w' = Some pipeline) /\
  pipelineLayout w' = pipelineLayout w /\
  lveModel w' = lveModel w /\
  (degenerate (window_extent (lveWindow w)) = false -> lveWindow w' = lveWindow w).
Proof.
  intros Hchain Hrun Hnew Hcount.
  destruct (recreateSwapChain_Ok P fuel w w' previous Hchain Hrun)
    as (polls & e & n & layout & Hwaiting & Himages & Hlayout & Htr & Hc & Hp & Hl
        & Hm & Hlen & Hsame & Hwin).
  rewrite Hc in Hnew. inversion Hnew; subst chain; clear Hnew.
  unfold imageCount in Hcount. cbn in Hcount.
  apply Nat.eqb_eq in Hcount. rewrite Hcount in Htr.
  set (pipeline :=
         {| pipeline_serial := calls w NewPipeline;
            vertFilepath := "../shaders/simple_shader.vert.spv";
            fragFilepath := "../shaders/simple_shader.frag.spv";
            configInfo :=
              {| config_renderPass := calls w NewSwapChain;
                 config_pipelineLayout := layout |} |}) in *.
  split; [apply Hsame; exact Hcount |].
  split; [| repeat split; auto].
  eexists. exists pipeline.
  split; [exact Htr |].
  split; [| split; [| repeat split; auto]].
  - constructor; [reflexivity |].
    apply Forall_app. split.
    + assert (Hpolls : Forall wait_event polls).
      { clear - Hwaiting. induction Hwaiting; repeat constructor; assumption. }
      eapply Forall_impl; [| exact Hpolls].
      intros ev Hev. destruct ev; cbn in *; tauto.
    + repeat constructor.
  - right. apply in_or_app. right. cbn. auto.
Qed.

Lemma recreation_reuses_command_buffers_witness :
  lveSwapChain steady_world = Some (first_chain 3) /\
  recreateSwapChain steady 0 steady_world
  = (Ok tt, snd (recreateSwapChain steady 0 steady_world)) /\
  imageCount (first_chain 3) = List.length (commandBuffers steady_world) /\
  commandBuffers (snd (recreateSwapChain steady 0 steady_world))
  = commandBuffers steady_world.
Proof.
  assert (Hchain : lveSwapChain steady_world = Some (first_chain 3))
    by (vm_compute; reflexivity).
  assert (Hrun : recreateSwapChain steady 0 steady_world
                 = (Ok tt, snd (recreateSwapChain steady 0 steady_world)))
    by (vm_compute; reflexivity).
  assert (Hnew : lveSwapChain (snd (recreateSwapChain steady 0 steady_world))
                 = Some {| chain_serial := 1;
                           windowExtent := {| width := 800; height := 600 |};
                           chain_images := 3; oldSwapChain := Some O |})
    by (vm_compute; reflexivity).
  assert (Hcount : 3%nat = List.length (commandBuffers steady_world))
    by (vm_compute; reflexivity).
  split; [exact Hchain |]. split; [exact Hrun |]. split; [exact Hcount |].
  exact (proj1 (recreation_reuses_command_buffers steady 0 steady_world
                  (snd (recreateSwapChain steady 0 steady_world))
                  (first_chain 3) _ Hchain Hrun Hnew Hcount)).
Defined.

(* ===================================================================== *)
(** ** What a session leaves in the trace *)
(* ===================================================================== *)

Lemma preserves_for_each_in {A} (I : World -> Prop) (xs : list A) (body : A -> M unit) :
  (forall x, In x xs -> preserves I (body x)) -> preserves I (for_each xs body).
Proof.
  induction xs as [| x xs IH]; intros Hbody; cbn.
  - apply preserves_ret.
  - apply preserves_bind.
    + apply Hbody. left. reflexivity.
    + intros _. apply IH. intros y Hy. apply Hbody. right. exact Hy.
Qed.

Lemma recreation_after_layout (L : option VkPipelineLayout) (ev : Event) :
  recreation_event ev -> after_layout L ev.
Proof. destruct ev; cbn; tauto. Qed.

Section Frames.

Variable P : Platform.
Variable L : option VkPipelineLayout.
Variable w0 : World.
Variable Q : Event -> Prop.
Hypothesis after_layout_in_Q : forall ev, after_layout L ev -> Q ev.


Ltac frame_leaf :=
  apply steady_emit; apply after_layout_in_Q; cbn; auto.

Lemma recreateSwapChain_well_formed (fuel : nat) :
  preserves (steady_since L w0 Q) (recreateSwapChain P fuel).
Proof.
  apply recreateSwapChain_steady.
  intros ev Hev. apply after_layout_in_Q, recreation_after_layout, Hev.
Qed.

Lemma createCommandBuffers_well_formed : preserves (steady_since L w0 Q) (createCommandBuffers P).
Proof.
  apply createCommandBuffers_steady.
  intros ev Hev. apply after_layout_in_Q, recreation_after_layout, Hev.
Qed.

(** One pass of the loop over the instances. *)
Lemma push_and_draw_well_formed
    (buffer : VkCommandBuffer) (model : LveModel) (j : Z) :
  In j instances ->
  preserves (steady_since L w0 Q)
    (layout <- read pipelineLayout ;;
     layout <- deref "pipelineLayout is null" layout ;;
     cmd buffer (CmdPushConstants layout
                   (Z.lor VK_SHADER_STAGE_VERTEX_BIT VK_SHADER_STAGE_FRAGMENT_BIT)
                   0 sizeof_SimplePushConstantData (push_for j)) ;;
     cmd buffer (CmdDraw (vertexCount model))).
Proof.
  intros Hj w [HL Hsince]. cbn.
  destruct (pipelineLayout w) as [layout |] eqn:Hlayout; cbn.
  - split; [cbn; congruence |].
    apply since_emit; [apply after_layout_in_Q; exact Logic.I |].
    apply since_emit; [| exact Hsince].
    apply after_layout_in_Q. cbn [after_layout well_formed recording_event].
    split; [congruence |]. do 3 (split; [reflexivity |]).
    exists j. split; [exact Hj | reflexivity].
  - split; [cbn; congruence | exact Hsince].
Qed.

Lemma recordCommandBuffer_well_formed (imageIndex : Z) :
  preserves (steady_since L w0 Q) (recordCommandBuffer P imageIndex).
Proof.
  unfold recordCommandBuffer, commandBuffer_at, vkBeginCommandBuffer,
    vkEndCommandBuffer, cmd.
  apply preserves_bind; [preserves_steps frame_leaf | intros buffer].
  apply preserves_bind; [preserves_steps frame_leaf | intros result].
  destruct (negb (result =? VK_SUCCESS)); [preserves_steps frame_leaf |].
  apply preserves_bind; [preserves_steps frame_leaf | intros chain].
  apply preserves_bind; [preserves_steps frame_leaf | intros _].
  apply preserves_bind; [preserves_steps frame_leaf | intros _].
  apply preserves_bind; [preserves_steps frame_leaf | intros _].
  apply preserves_bind; [preserves_steps frame_leaf | intros pipeline].
  apply preserves_bind; [preserves_steps frame_leaf | intros _].
  apply preserves_bind; [preserves_steps frame_leaf | intros model].
  apply preserves_bind; [preserves_steps frame_leaf | intros _].
  apply preserves_bind.
  - apply preserves_for_each_in. intros j Hj.
    apply (push_and_draw_well_formed buffer model j Hj).
  - intros _. preserves_steps frame_leaf.
Qed.

Lemma drawFrame_well_formed (fuel : nat) : preserves (steady_since L w0 Q) (drawFrame P fuel).
Proof.
  pose proof (recreateSwapChain_well_formed fuel).
  pose proof recordCommandBuffer_well_formed.
  unfold drawFrame, acquireNextImage, submitCommandBuffers, commandBuffer_at,
    wasWindowResized, resetWindowResizedFlag.
  preserves_steps frame_leaf.
Qed.

Lemma glfwPollEvents_well_formed : preserves (steady_since L w0 Q) (glfwPollEvents P).
Proof. unfold glfwPollEvents, pump. preserves_steps frame_leaf. Qed.

Lemma run_well_formed (fuel frames : nat) : preserves (steady_since L w0 Q) (run P fuel frames).
Proof.
  pose proof (drawFrame_well_formed fuel).
  pose proof glfwPollEvents_well_formed.
  induction frames as [| frames IH]; cbn; unfold shouldClose, vkDeviceWaitIdle;
    preserves_steps frame_leaf.
Qed.

Lemma frames_well_formed (fuel n : nat) : preserves (steady_since L w0 Q) (frames P fuel n).
Proof.
  pose proof (drawFrame_well_formed fuel).
  pose proof glfwPollEvents_well_formed.
  induction n as [| n IH]; cbn; preserves_steps frame_leaf.
Qed.

End Frames.

(** Every session starts by making the model and creating the layout; when
    the creation fails nothing follows, and whatever follows is well formed
    for the layout that was created, and creates no layout. *)
Lemma session_after_layout
    (P : Platform) (fuel frames : nat) (win : LveWindow) :
  exists result rest,
    trace (snd (session P fuel frames (boot win))) =
      EvNewModel (model_vertices triangle)
      :: EvCreatePipelineLayout (layout_info created_layout) result :: rest /\
    Forall (after_layout (Some created_layout)) rest /\
    (result <> VK_SUCCESS -> rest = []).
Proof.
  assert (Hrest : forall L w0,
             preserves (steady_since (Some L) w0 (after_layout (Some L)))
               (recreateSwapChain P fuel ;; createCommandBuffers P ;;
                run P fuel frames)).
  { intros L w0.
    apply preserves_bind;
      [apply recreateSwapChain_well_formed; auto | intros _].
    apply preserves_bind;
      [apply createCommandBuffers_well_formed; auto | intros _].
    apply run_well_formed; auto. }
  exists (vkCreatePipelineLayout_result P 0).
  unfold session, FirstApp, loadModels, createPipelineLayout, new_LveModel,
    vkCreatePipelineLayout.
  cbn.
  destruct (vkCreatePipelineLayout_result P 0) as [| code | code] eqn:Hresult; cbn;
    [| exists []; repeat split; constructor
     | exists []; repeat split; constructor].
  match goal with
  | |- context [recreateSwapChain P fuel ?w] => set (w2 := w)
  end.
  specialize (Hrest created_layout w2 w2 (steady_start w2 _)).
  cbn in Hrest.
  destruct (recreateSwapChain P fuel w2) as [[[] | f] w3]; cbn in *.
  - destruct (createCommandBuffers P w3) as [[[] | f] w4]; cbn in *;
      destruct Hrest as (_ & delta & Htr & Hdelta);
      exists delta; (split; [exact Htr |]);
      (split; [exact Hdelta | intros Hne; destruct (Hne eq_refl)]).
  - destruct Hrest as (_ & delta & Htr & Hdelta).
    exists delta. split; [exact Htr |].
    split; [exact Hdelta | intros Hne; destruct (Hne eq_refl)].
Qed.

(* ===================================================================== *)
(** ** Properties of every session *)
(* ===================================================================== *)

(** C10. The layout [createPipelineLayout] creates declares exactly one
    push-constant range, of offset 0, of the size of
    [SimplePushConstantData], for the vertex and fragment stages.  Every
    session, however it ends, creates that layout as its second call and
    creates no other; a push-constant update is recorded only when that
    creation succeeded, goes to that layout, and is made with the stage
    flags, the offset and the size of that one range, hence within it. *)
Theorem pushes_within_declared_range
    (P : Platform) (fuel frames : nat) (win : LveWindow) :
  declared_ranges created_layout =
    [ {| stageFlags := Z.lor VK_SHADER_STAGE_VERTEX_BIT VK_SHADER_STAGE_FRAGMENT_BIT;
         range_offset := 0;
         range_size := sizeof_SimplePushConstantData |} ] /\
  exists vertices result rest,
    trace (snd (session P fuel frames (boot win))) =
      EvNewModel vertices
      :: EvCreatePipelineLayout (layout_info created_layout) result :: rest /\
    Forall (pushed_as_created result) rest /\
    Forall push_as_declared rest.
Proof.
  split; [reflexivity |].
  destruct (session_after_layout P fuel frames win)
    as (result & rest & Htrace & Hrest & Hfailed).
  exists (model_vertices triangle), result, rest.
  split; [exact Htrace |].
  assert (Hcreated : rest <> [] -> result = VK_SUCCESS).
  { intros Hsome. destruct (Z.eq_dec result VK_SUCCESS) as [Heq | Hneq];
      [exact Heq | destruct (Hsome (Hfailed Hneq))]. }
  assert (Hpush : Forall (fun ev => pushed_as_created result ev /\ push_as_declared ev)
                    rest).
  { apply Forall_forall. intros ev Hin.
    assert (Hsuccess : result = VK_SUCCESS).
    { apply Hcreated. intros Hnil. rewrite Hnil in Hin. exact Hin. }
    pose proof (proj1 (Forall_forall _ _) Hrest ev Hin) as Hev.
    destruct ev; cbn in *; auto.
    destruct command; auto.
    destruct Hev as (Hlayout & Hflags & Hoffset & Hsize & _).
    inversion Hlayout; subst.
    split; [repeat split; reflexivity |].
    exists pushConstantRange.
    split; [reflexivity |]. do 3 (split; [reflexivity |]).
    unfold push_within. cbn [range_offset range_size stageFlags pushConstantRange].
    split; [lia |]. split; [lia | apply Z.land_diag]. }
  split; eapply Forall_impl; try exact Hpush; intros ev Hev; apply Hev.
Qed.

Lemma pushes_within_declared_range_witness :
  exists vertices rest,
    trace (snd (session steady 0 2 (boot window_800x600))) =
      EvNewModel vertices
      :: EvCreatePipelineLayout (layout_info created_layout) VK_SUCCESS :: rest /\
    List.length (filter is_push rest) = 8%nat /\
    Forall (pushed_as_created VK_SUCCESS) rest.
Proof.
  destruct (pushes_within_declared_range steady 0 2 window_800x600)
    as (_ & vertices & result & rest & Htrace & Hpushed & _).
  assert (Hrun : exists tail,
             trace (snd (session steady 0 2 (boot window_800x600))) =
               EvNewModel (model_vertices triangle)
               :: EvCreatePipelineLayout (layout_info created_layout) VK_SUCCESS :: tail /\
             List.length (filter is_push tail) = 8%nat).
  { eexists. split; vm_compute; reflexivity. }
  destruct Hrun as (tail & Htail & Hcount).
  rewrite Htail in Htrace |- *. inversion Htrace; subst.
  eexists. eexists. split; [reflexivity |]. split; assumption.
Defined.

(* ===================================================================== *)
(** ** Properties of a frame *)
(* ===================================================================== *)

Lemma last_reported_app (a b : list Event) :
  last_reported (a ++ b) =
  match last_reported b with
  | Some e => Some e
  | None => last_reported a
  end.
Proof.
  induction a as [| ev a IH]; cbn.
  - destruct (last_reported b); reflexivity.
  - rewrite IH. destruct (last_reported b); reflexivity.
Qed.

Lemma added_app (w w' : World) (delta : list Event) :
  trace w' = trace w ++ delta -> added w w' = delta.
Proof.
  intros H. unfold added. rewrite H.
  rewrite skipn_app, Nat.sub_diag, skipn_all. reflexivity.
Qed.

Section Frame.

Variable P : Platform.

(** A frame that finds the chain out of date is a recreation and nothing
    else. *)
Lemma drawFrame_stale (fuel : nat) (w : World) (chain : LveSwapChain) :
  lveSwapChain w = Some chain ->
  fst (acquireNextImage_result P (calls w AcquireNextImage))
    = VK_ERROR_OUT_OF_DATE_KHR ->
  drawFrame P fuel w = recreateSwapChain P fuel (snd (acquireNextImage P chain w)).
Proof.
  intros Hchain Hstale.
  unfold drawFrame, acquireNextImage. cbn. rewrite Hchain. cbn.
  destruct (acquireNextImage_result P _) as [result index]. cbn in *.
  subst result. reflexivity.
Qed.

End Frame.

(** C4, as the code has it.  A frame whose acquisition finds the chain out
    of date records nothing and submits nothing, whatever its outcome; it
    returns to the loop when the recreation can complete; and it returns
    with a new chain, built from the old one on the last extent the window
    reported, which is a proper one.  That extent is the window's own when
    the recreation did not have to wait, and still is when the next
    iteration starts drawing, provided the events of its poll resize
    nothing. *)
Theorem stale_frame_is_skipped
    (P : Platform) (fuel : nat) (w : World) (chain : LveSwapChain) :
  lveSwapChain w = Some chain ->
  fst (acquireNextImage_result P (calls w AcquireNextImage)) = VK_ERROR_OUT_OF_DATE_KHR ->
  Forall (fun ev => is_recording ev = false /\ is_submit ev = false)
    (added w (snd (drawFrame P fuel w))) /\
  (recreation_completes P fuel w -> fst (drawFrame P fuel w) = Ok tt) /\
  (fst (drawFrame P fuel w) = Ok tt ->
   exists rebuilt,
     lveSwapChain (snd (drawFrame P fuel w)) = Some rebuilt /\
     oldSwapChain rebuilt = Some (chain_serial chain) /\
     degenerate (getSwapChainExtent rebuilt) = false /\
     last_reported (trace (snd (drawFrame P fuel w))) = Some (getSwapChainExtent rebuilt) /\
     (degenerate (window_extent (lveWindow w)) = false ->
      getSwapChainExtent rebuilt = window_extent (lveWindow (snd (drawFrame P fuel w))) /\
      (Forall (fun e => is_resize e = false)
         (surface_events P (calls (snd (drawFrame P fuel w)) PumpEvents)) ->
       lveSwapChain (snd (glfwPollEvents P (snd (drawFrame P fuel w)))) = Some rebuilt /\
       getSwapChainExtent rebuilt =
         window_extent (lveWindow (snd (glfwPollEvents P (snd (drawFrame P fuel w)))))))).
Proof.
  intros Hchain Hstale.
  rewrite (drawFrame_stale P fuel w chain Hchain Hstale).
  set (w1 := snd (acquireNextImage P chain w)).
  assert (Htrace1 : trace w1 =
                    trace w ++ [EvAcquireNextImage chain VK_ERROR_OUT_OF_DATE_KHR
                                  (snd (acquireNextImage_result P (calls w AcquireNextImage))
                                   mod 2 ^ 32)%N]).
  { unfold w1, acquireNextImage. cbn.
    destruct (acquireNextImage_result P _) as [result index]. cbn in *.
    subst result. reflexivity. }
  assert (Hmembers : lveSwapChain w1 = Some chain /\
                     lveWindow w1 = lveWindow w /\
                     pipelineLayout w1 = pipelineLayout w /\
                     forall ep, ep <> AcquireNextImage -> calls w1 ep = calls w ep).
  { unfold w1, acquireNextImage. cbn.
    destruct (acquireNextImage_result P _) as [result index]. cbn.
    repeat split; auto.
    intros ep Hep. destruct ep; try reflexivity. congruence. }
  destruct Hmembers as (Hchain1 & Hwin1 & Hlayout1 & Hcalls1).
  split; [| split].
  - pose proof (recreateSwapChain_steady P (pipelineLayout w1) w1
                  recreation_event (fun ev H => H) fuel w1 (steady_start w1 _)) as Hev.
    destruct Hev as (_ & delta & Hdelta & Hall).
    cbn in Hdelta.
    rewrite (added_app w _ ([EvAcquireNextImage chain VK_ERROR_OUT_OF_DATE_KHR
                               (snd (acquireNextImage_result P (calls w AcquireNextImage))
                                mod 2 ^ 32)%N] ++ delta))
      by (rewrite Hdelta, Htrace1, <- app_assoc; reflexivity).
    constructor; [split; reflexivity |].
    eapply Forall_impl; [| exact Hall].
    intros ev Hev. destruct ev; cbn in *; tauto.
  - intros (Hsettles & Himages & Halloc & Hbuilds & Hlayout).
    apply recreateSwapChain_returns with (previous := chain); [exact Hchain1 |].
    unfold recreation_completes, extent_settles.
    rewrite Hwin1, Hlayout1, !Hcalls1 by discriminate.
    repeat split; assumption.
  - intros Hok.
    destruct (recreateSwapChain P fuel w1) as [r w'] eqn:Hrun. cbn in Hok. subst r.
    destruct (recreateSwapChain_Ok P fuel w1 w' chain Hchain1 Hrun)
      as (polls & e & n & layout & Hwaiting & Himages & Hlayout & Htr & Hc & Hp & Hl
          & Hm & Hlen & Hsame & Hwin).
    cbn [snd].
    eexists. split; [exact Hc |]. cbn.
    split; [reflexivity |].
    split; [eapply waiting_proper; exact Hwaiting |].
    split.
    + rewrite Htr, last_reported_app, app_comm_cons, last_reported_app.
      rewrite (waiting_last_reported _ _ _ Hwaiting).
      destruct (n =? List.length (commandBuffers w1))%nat; reflexivity.
    + intros Hproper.
      rewrite Hwin1 in Hwin, Hwaiting.
      specialize (Hwin Hproper).
      inversion Hwaiting as [e0 He0 | e0 e1 e2 d ps He0 Hrest]; subst;
        [| congruence].
      rewrite Hwin. split; [reflexivity |].
      intros Hquiet.
      unfold glfwPollEvents, pump. cbn.
      split; [exact Hc |].
      clear - Hquiet.
      generalize (lveWindow w).
      induction Hquiet as [| ev evs Hev _ IH]; intros win; cbn; [reflexivity |].
      rewrite <- IH. destruct ev; cbn in *; try reflexivity. discriminate.
Qed.

(* ===================================================================== *)
(** ** What one frame does *)
(* ===================================================================== *)

Section Drawing.

Variable P : Platform.

Ltac calls_two :=
  let ep := fresh "ep" in
  let A := fresh "A" in
  let B := fresh "B" in
  intros ep A B; destruct ep; try reflexivity; congruence.

(** [recordCommandBuffer], whatever its outcome: it leaves the members
    alone; an index past the end is a fault; a failed begin throws before
    anything is recorded; otherwise the buffer receives [recording], and
    a failed end throws. *)
Lemma recordCommandBuffer_spec (i : Z) (w : World) (r : outcome unit) (w' : World) :
  recordCommandBuffer P i w = (r, w') ->
  lveWindow w' = lveWindow w /\
  same_members w w' /\
  (forall ep, ep <> BeginCommandBuffer -> ep <> EndCommandBuffer ->
              calls w' ep = calls w ep) /\
  match (if i <? 0 then None else nth_error (commandBuffers w) (Z.to_nat i)) with
  | None => (exists what, r = Fail (Fault what)) /\ w' = w
  | Some buffer =>
      let began := vkBeginCommandBuffer_result P (calls w BeginCommandBuffer) in
      let ended := vkEndCommandBuffer_result P (calls w EndCommandBuffer) in
      if negb (began =? VK_SUCCESS) then
        r = Fail (Exception "failed to begin recording command buffer!") /\
        trace w' = trace w ++ [EvBeginCommandBuffer buffer began]
      else
        match lveSwapChain w, lvePipeline w, lveModel w, pipelineLayout w with
        | Some chain, Some pipeline, Some model, Some layout =>
            trace w' =
              trace w ++ EvBeginCommandBuffer buffer began
              :: recording chain pipeline model layout buffer i
              ++ [EvEndCommandBuffer buffer ended] /\
            r = if negb (ended =? VK_SUCCESS)
                then Fail (Exception "failed to record command buffer!")
                else Ok tt
        | _, _, _, _ => exists what, r = Fail (Fault what)
        end
  end.
Proof.
  unfold recordCommandBuffer, commandBuffer_at, vkBeginCommandBuffer,
    vkEndCommandBuffer, cmd, same_members.
  cbn.
  destruct (i <? 0).
  { cbn. intros H; inversion H; subst. repeat split; eauto. }
  destruct (nth_error (commandBuffers w) (Z.to_nat i)) as [buffer |]; cbn.
  2:{ intros H; inversion H; subst. repeat split; eauto. }
  destruct (negb (vkBeginCommandBuffer_result P _ =? VK_SUCCESS)); cbn.
  { intros H; inversion H; subst; cbn. repeat split; auto.
    calls_two. }
  destruct (lveSwapChain w) as [chain |] eqn:Hc; cbn.
  2:{ intros H; inversion H; subst; cbn. repeat split; eauto.
      calls_two. }
  destruct (lvePipeline w) as [pipeline |] eqn:Hp; cbn.
  2:{ intros H; inversion H; subst; cbn. repeat split; eauto.
      calls_two. }
  destruct (lveModel w) as [model |] eqn:Hm; cbn.
  2:{ intros H; inversion H; subst; cbn. repeat split; eauto.
      calls_two. }
  destruct (pipelineLayout w) as [layout |] eqn:Hl; cbn.
  2:{ intros H; inversion H; subst; cbn. repeat split; eauto.
      calls_two. }
  repeat (rewrite Hl; cbn).
  destruct (negb (vkEndCommandBuffer_result P _ =? VK_SUCCESS));
    cbn; intros H; inversion H; subst; cbn;
    repeat split; auto; try calls_two;
    try (rewrite <- !app_assoc; reflexivity).
Qed.

Lemma to_int_nonnegative (i : N) :
  (i < 2 ^ 32)%N -> 0 <= to_int i -> to_int i = Z.of_N i /\ (i < 2 ^ 31)%N.
Proof.
  unfold to_int, uint32_max. intros Hi.
  assert (Hz : 0 <= Z.of_N i < 2 ^ 32).
  { split; [lia |]. change (2 ^ 32) with (Z.of_N (2 ^ 32)). lia. }
  rewrite Z.mod_small by exact Hz.
  destruct (Z.of_N i <? 2 ^ 31) eqn:Hlt.
  - intros _. split; [reflexivity |].
    apply Z.ltb_lt in Hlt. change (2 ^ 31) with (Z.of_N (2 ^ 31)) in Hlt. lia.
  - lia.
Qed.

Lemma to_nat_of_N (i : N) : Z.to_nat (Z.of_N i) = N.to_nat i.
Proof. rewrite <- Z_N_nat, N2Z.id. reflexivity. Qed.

(** What [acquireNextImage] leaves behind. *)
Lemma acquireNextImage_spec (chain : LveSwapChain) (w : World) :
  let acquired := acquireNextImage_result P (calls w AcquireNextImage) in
  let index := (snd acquired mod 2 ^ 32)%N in
  fst (acquireNextImage P chain w) = Ok (fst acquired, index) /\
  trace (snd (acquireNextImage P chain w)) =
    trace w ++ [EvAcquireNextImage chain (fst acquired) index] /\
  lveWindow (snd (acquireNextImage P chain w)) = lveWindow w /\
  same_members w (snd (acquireNextImage P chain w)) /\
  calls_only AcquireNextImage w (snd (acquireNextImage P chain w)).
Proof.
  unfold acquireNextImage, same_members, calls_only. cbn.
  destruct (acquireNextImage_result P _) as [result index]. cbn.
  repeat split; auto.
  intros other H. destruct other; try reflexivity; congruence.
Qed.

(** A frame whose acquisition is neither out of date nor usable throws;
    nothing is recorded. *)
Lemma drawFrame_acquire_error (fuel : nat) (w : World) (chain : LveSwapChain) :
  lveSwapChain w = Some chain ->
  let result := fst (acquireNextImage_result P (calls w AcquireNextImage)) in
  result <> VK_ERROR_OUT_OF_DATE_KHR ->
  result <> VK_SUCCESS ->
  result <> VK_SUBOPTIMAL_KHR ->
  drawFrame P fuel w =
    (Fail (Exception "failed to acquire swap chain image!"),
     snd (acquireNextImage P chain w)).
Proof.
  intros Hchain result H1 H2 H3. subst result.
  unfold drawFrame, acquireNextImage. cbn. rewrite Hchain. cbn.
  destruct (acquireNextImage_result P _) as [result index]. cbn in *.
  apply Z.eqb_neq in H1, H2, H3. rewrite H1, H2, H3. reflexivity.
Qed.

(** A frame whose acquisition is usable and whose recording succeeds:
    the buffer of the acquired image is submitted, and what follows
    depends on the answer of the submission and on the resized flag. *)
Lemma drawFrame_drawn (fuel : nat) (w w2 : World) (chain : LveSwapChain)
    (result : VkResult) (index : N) :
  lveSwapChain w = Some chain ->
  acquireNextImage_result P (calls w AcquireNextImage) = (result, index) ->
  result = VK_SUCCESS \/ result = VK_SUBOPTIMAL_KHR ->
  recordCommandBuffer P (to_int (index mod 2 ^ 32)) (snd (acquireNextImage P chain w))
  = (Ok tt, w2) ->
  exists buffer,
    nth_error (commandBuffers w) (N.to_nat (index mod 2 ^ 32)) = Some buffer /\
    (index mod 2 ^ 32 < 2 ^ 31)%N /\
    let presented := submitCommandBuffers_result P (calls w SubmitCommandBuffers) in
    let w3 := snd (submitCommandBuffers P chain buffer (index mod 2 ^ 32)%N w2) in
    trace w3 = trace w2 ++ [EvSubmit chain buffer (index mod 2 ^ 32)%N presented] /\
    lveWindow w3 = lveWindow w /\
    same_members w w3 /\
    (forall ep, ep = PumpEvents \/ ep = NewSwapChain \/ ep = NewPipeline \/
                ep = AllocateCommandBuffers -> calls w3 ep = calls w ep) /\
    drawFrame P fuel w =
      if (presented =? VK_ERROR_OUT_OF_DATE_KHR) || (presented =? VK_SUBOPTIMAL_KHR)
         || framebufferResized (lveWindow w)
      then recreateSwapChain P fuel (snd (resetWindowResizedFlag w3))
      else if negb (presented =? VK_SUCCESS)
           then (Fail (Exception "failed to present swap chain image!"), w3)
           else (Ok tt, w3).
Proof.
  intros Hchain Hacquired Hresult Hrecord.
  pose proof (acquireNextImage_spec chain w) as Hspec.
  rewrite Hacquired in Hspec. cbn in Hspec.
  destruct Hspec as (Hfst & Htr1 & Hwin1 & (Hc1 & Hp1 & Hl1 & Hb1 & Hm1) & Hcalls1).
  unfold calls_only in Hcalls1.
  set (i := (index mod 2 ^ 32)%N) in *.
  assert (Hi : (i < 2 ^ 32)%N) by (apply N.mod_lt; discriminate).
  pose proof (recordCommandBuffer_spec _ _ _ _ Hrecord) as Hrec.
  destruct Hrec as (Hwin2 & (Hc2 & Hp2 & Hl2 & Hb2 & Hm2) & Hcalls2 & Hrec).
  destruct (to_int i <? 0) eqn:Hneg;
    [destruct Hrec as [[what Hwhat] _]; discriminate |].
  apply Z.ltb_ge in Hneg.
  destruct (to_int_nonnegative i Hi Hneg) as [Hto Hsmall].
  rewrite Hto, to_nat_of_N, Hb1 in Hrec.
  destruct (nth_error (commandBuffers w) (N.to_nat i)) as [buffer |] eqn:Hbuffer;
    [| destruct Hrec as [[what Hwhat] _]; discriminate].
  clear Hrec.
  exists buffer. split; [reflexivity |]. split; [exact Hsmall |].
  unfold submitCommandBuffers, same_members. cbn.
  rewrite Hwin2, Hwin1, Hc2, Hc1, Hp2, Hp1, Hl2, Hl1, Hb2, Hb1, Hm2, Hm1.
  rewrite (Hcalls2 SubmitCommandBuffers), (Hcalls1 SubmitCommandBuffers)
    by discriminate.
  split; [reflexivity |]. split; [reflexivity |].
  split; [repeat split; reflexivity |].
  split.
  { intros ep Hep.
    destruct Hep as [-> | [-> | [-> | ->]]];
      rewrite Hcalls2, Hcalls1 by discriminate; reflexivity. }
  unfold drawFrame. cbn. rewrite Hchain. cbn.
  rewrite (surjective_pairing (acquireNextImage P chain w)), Hfst. cbn.
  fold i.
  assert (Hstale : (result =? VK_ERROR_OUT_OF_DATE_KHR) = false)
    by (destruct Hresult; subst; reflexivity).
  assert (Husable : negb (result =? VK_SUCCESS) && negb (result =? VK_SUBOPTIMAL_KHR)
                    = false)
    by (destruct Hresult; subst; reflexivity).
  rewrite Hstale, Husable. cbn. fold i. rewrite Hrecord. cbn.
  rewrite Hc2, Hc1, Hchain. cbn.
  unfold commandBuffer_at. cbn.
  assert (Hpos : (Z.of_N i <? 0) = false) by (apply Z.ltb_ge; lia).
  rewrite Hpos, to_nat_of_N, Hb2, Hb1, Hbuffer. cbn.
  unfold submitCommandBuffers, wasWindowResized, resetWindowResizedFlag. cbn.
  rewrite Hwin2, Hwin1.
  rewrite (Hcalls2 SubmitCommandBuffers), (Hcalls1 SubmitCommandBuffers)
    by discriminate.
  destruct ((submitCommandBuffers_result P (calls w SubmitCommandBuffers)
             =? VK_ERROR_OUT_OF_DATE_KHR)
            || (submitCommandBuffers_result P (calls w SubmitCommandBuffers)
                =? VK_SUBOPTIMAL_KHR)
            || framebufferResized (lveWindow w)); cbn;
    [rewrite Hwin2, Hwin1; reflexivity |].
  destruct (negb (submitCommandBuffers_result P (calls w SubmitCommandBuffers)
                  =? VK_SUCCESS)); reflexivity.
Qed.

End Drawing.

Section Presenting.

Variable P : Platform.

Lemma to_int_small (i : N) : (i < 2 ^ 31)%N -> to_int (i mod 2 ^ 32) = Z.of_N i.
Proof.
  intros Hi.
  assert (Hlt : (2 ^ 31 < 2 ^ 32)%N) by reflexivity.
  rewrite N.mod_small by lia.
  unfold to_int, uint32_max.
  assert (Hz : 0 <= Z.of_N i < 2 ^ 31).
  { split; [lia |]. change (2 ^ 31) with (Z.of_N (2 ^ 31)). lia. }
  rewrite Z.mod_small by lia.
  destruct (Z.of_N i <? 2 ^ 31) eqn:Hcmp; [reflexivity |].
  apply Z.ltb_ge in Hcmp. lia.
Qed.

(** With its buffer, the members and a platform that begins and ends the
    recording without error, [recordCommandBuffer] returns, and the
    buffer has received [recording]. *)
Lemma recordCommandBuffer_returns (i : Z) (w : World) (buffer : VkCommandBuffer)
    (chain : LveSwapChain) (pipeline : LvePipeline) (model : LveModel)
    (layout : VkPipelineLayout) :
  0 <= i ->
  nth_error (commandBuffers w) (Z.to_nat i) = Some buffer ->
  lveSwapChain w = Some chain ->
  lvePipeline w = Some pipeline ->
  lveModel w = Some model ->
  pipelineLayout w = Some layout ->
  vkBeginCommandBuffer_result P (calls w BeginCommandBuffer) = VK_SUCCESS ->
  vkEndCommandBuffer_result P (calls w EndCommandBuffer) = VK_SUCCESS ->
  fst (recordCommandBuffer P i w) = Ok tt /\
  trace (snd (recordCommandBuffer P i w)) =
    trace w ++ EvBeginCommandBuffer buffer VK_SUCCESS
    :: recording chain pipeline model layout buffer i
    ++ [EvEndCommandBuffer buffer VK_SUCCESS].
Proof.
  intros Hi Hbuffer Hc Hp Hm Hl Hbegin Hend.
  destruct (recordCommandBuffer P i w) as [r w'] eqn:Hrun.
  apply recordCommandBuffer_spec in Hrun.
  destruct Hrun as (_ & _ & _ & Hrun).
  assert (Hpos : (i <? 0) = false) by (apply Z.ltb_ge; exact Hi).
  rewrite Hpos, Hbuffer, Hbegin, Hend, Hc, Hp, Hm, Hl in Hrun. cbn in Hrun.
  destruct Hrun as [Htr Hr]. cbn. split; assumption.
Qed.

Lemma deliver_extent (win win' : LveWindow) (evs : list WindowEvent) :
  window_extent win = window_extent win' ->
  window_extent (fold_left deliver evs win)
  = window_extent (fold_left deliver evs win').
Proof.
  revert win win'. induction evs as [| ev evs IH]; intros win win' H; cbn.
  - exact H.
  - apply IH. destruct ev; cbn; [reflexivity | | exact H].
    unfold window_extent in *. cbn. exact H.
Qed.

Lemma window_after_extent (win win' : LveWindow) (k n : nat) :
  window_extent win = window_extent win' ->
  window_extent (window_after P win k n) = window_extent (window_after P win' k n).
Proof.
  revert win win' k. induction n as [| n IH]; intros win win' k H; cbn.
  - exact H.
  - apply IH. apply deliver_extent. exact H.
Qed.

(** Whether a recreation can complete depends on the window's extent, on
    the layout and on how often four entry points have been called. *)
Lemma recreation_completes_transfer (fuel : nat) (w w' : World) :
  window_extent (lveWindow w') = window_extent (lveWindow w) ->
  pipelineLayout w' = pipelineLayout w ->
  (forall ep, ep = PumpEvents \/ ep = NewSwapChain \/ ep = NewPipeline \/
              ep = AllocateCommandBuffers -> calls w' ep = calls w ep) ->
  recreation_completes P fuel w -> recreation_completes P fuel w'.
Proof.
  intros Hwin Hl Hcalls (Hsettles & Himages & Halloc & Hbuilds & Hlayout).
  unfold recreation_completes, extent_settles.
  rewrite Hl, !Hcalls by tauto.
  repeat split; try assumption.
  destruct Hsettles as [He | (n & Hn & He)].
  - left. rewrite Hwin. exact He.
  - right. exists n. split; [exact Hn |].
    rewrite (window_after_extent _ _ _ _ Hwin). exact He.
Qed.

End Presenting.

(** C4, as stated: a frame finds the chain out of date and rebuilds it at
    800 by 600; the next poll delivers a resize to 400 by 300; the next
    frame is drawn and submitted with the chain of 800 by 600. *)
Lemma stale_then_resized_counterexample :
  fst (acquireNextImage_result resized_after_stale (calls stale_world AcquireNextImage))
  = VK_ERROR_OUT_OF_DATE_KHR /\
  ~ next_cycle_on_current_extent resized_after_stale 0 stale_world.
Proof.
  split; [vm_compute; reflexivity |].
  intros Hclaim.
  pose (w1 := snd (drawFrame resized_after_stale 0 stale_world)).
  pose (w2 := snd (glfwPollEvents resized_after_stale w1)).
  pose (w3 := snd (drawFrame resized_after_stale 0 w2)).
  pose (chain := {| chain_serial := 1;
                    windowExtent := {| width := 800; height := 600 |};
                    chain_images := 3; oldSwapChain := Some O |}).
  assert (H1 : drawFrame resized_after_stale 0 stale_world = (Ok tt, w1))
    by (vm_compute; reflexivity).
  assert (H2 : glfwPollEvents resized_after_stale w1 = (Ok tt, w2))
    by (vm_compute; reflexivity).
  assert (H3 : drawFrame resized_after_stale 0 w2 = (Ok tt, w3))
    by (vm_compute; reflexivity).
  assert (H4 : existsb is_submit (added w2 w3) = true) by (vm_compute; reflexivity).
  assert (H5 : lveSwapChain w2 = Some chain) by (vm_compute; reflexivity).
  assert (H6 : window_extent (lveWindow w2) = {| width := 400; height := 300 |})
    by (vm_compute; reflexivity).
  specialize (Hclaim w1 w2 w3 chain H1 H2 H3 H4 H5).
  rewrite H6 in Hclaim. unfold chain, getSwapChainExtent in Hclaim.
  cbn [windowExtent] in Hclaim. discriminate Hclaim.
Qed.

Lemma stale_frame_is_skipped_witness :
  lveSwapChain stale_world = Some (first_chain 3) /\
  fst (acquireNextImage_result resized_after_stale (calls stale_world AcquireNextImage))
  = VK_ERROR_OUT_OF_DATE_KHR /\
  fst (drawFrame resized_after_stale 0 stale_world) = Ok tt.
Proof.
  assert (Hchain : lveSwapChain stale_world = Some (first_chain 3))
    by (vm_compute; reflexivity).
  assert (Hstale : fst (acquireNextImage_result resized_after_stale
                          (calls stale_world AcquireNextImage))
                   = VK_ERROR_OUT_OF_DATE_KHR)
    by (vm_compute; reflexivity).
  split; [exact Hchain |]. split; [exact Hstale |].
  apply (stale_frame_is_skipped resized_after_stale 0 stale_world (first_chain 3)
           Hchain Hstale).
  split; [left; vm_compute; reflexivity |].
  split; [vm_compute; discriminate |].
  split; [vm_compute; reflexivity |].
  split; [vm_compute; reflexivity |].
  vm_compute. discriminate.
Defined.

(** C5, where the code departs from it: the window was resized, the
    submission answers [VK_ERROR_DEVICE_LOST], and the frame returns to the
    loop through a recreation of the chain instead of throwing. *)
Theorem submission_error_dropped_when_resized :
  framebufferResized (lveWindow lost_world) = true /\
  submitCommandBuffers_result lost_while_resized (calls lost_world SubmitCommandBuffers)
  = VK_ERROR_DEVICE_LOST /\
  fst (drawFrame lost_while_resized 0 lost_world) = Ok tt /\
  existsb is_submit (added lost_world (snd (drawFrame lost_while_resized 0 lost_world)))
  = true /\
  existsb is_construction
    (added lost_world (snd (drawFrame lost_while_resized 0 lost_world))) = true.
Proof. repeat split; vm_compute; reflexivity. Qed.

(** C8, as stated: the acquisition reports a suboptimal chain, the
    submission succeeds, nothing was resized, and the frame returns to the
    loop without a chain having been constructed. *)
Lemma suboptimal_acquire_counterexample :
  fst (acquireNextImage_result suboptimal_acquire
         (calls suboptimal_world AcquireNextImage)) = VK_SUBOPTIMAL_KHR /\
  ~ rebuilt_before_next_cycle suboptimal_acquire 0 suboptimal_world.
Proof.
  split; [vm_compute; reflexivity |].
  intros Hclaim.
  assert (Hrun : drawFrame suboptimal_acquire 0 suboptimal_world
                 = (Ok tt, snd (drawFrame suboptimal_acquire 0 suboptimal_world)))
    by (vm_compute; reflexivity).
  specialize (Hclaim _ Hrun).
  assert (Hnone : existsb is_construction
                    (added suboptimal_world
                       (snd (drawFrame suboptimal_acquire 0 suboptimal_world))) = false)
    by (vm_compute; reflexivity).
  rewrite Hnone in Hclaim. discriminate Hclaim.
Qed.

(** C8, as the code has it.  A frame whose acquisition reports a suboptimal
    chain is drawn like any other: its buffer is recorded and submitted with
    the acquired image.  Whether the chain is rebuilt before the next
    acquisition is then decided by the submission and the window alone: it
    is rebuilt when the submission reports the chain out of date or
    suboptimal or the window was resized, and it is kept when the
    submission succeeds and nothing was resized. *)
Theorem suboptimal_acquisition_is_drawn
    (P : Platform) (fuel : nat) (w : World) (chain : LveSwapChain)
    (pipeline : LvePipeline) (model : LveModel) (layout : VkPipelineLayout)
    (buffer : VkCommandBuffer) (index : N) :
  lveSwapChain w = Some chain ->
  lvePipeline w = Some pipeline ->
  lveModel w = Some model ->
  pipelineLayout w = Some layout ->
  acquireNextImage_result P (calls w AcquireNextImage) = (VK_SUBOPTIMAL_KHR, index) ->
  (index < 2 ^ 31)%N ->
  nth_error (commandBuffers w) (N.to_nat index) = Some buffer ->
  vkBeginCommandBuffer_result P (calls w BeginCommandBuffer) = VK_SUCCESS ->
  vkEndCommandBuffer_result P (calls w EndCommandBuffer) = VK_SUCCESS ->
  let presented := submitCommandBuffers_result P (calls w SubmitCommandBuffers) in
  let drawn :=
    [ EvAcquireNextImage chain VK_SUBOPTIMAL_KHR index;
      EvBeginCommandBuffer buffer VK_SUCCESS ]
    ++ recording chain pipeline model layout buffer (Z.of_N index)
    ++ [ EvEndCommandBuffer buffer VK_SUCCESS;
         EvSubmit chain buffer index presented ] in
  exists rest,
    added w (snd (drawFrame P fuel w)) = drawn ++ rest /\
    if (presented =? VK_ERROR_OUT_OF_DATE_KHR) || (presented =? VK_SUBOPTIMAL_KHR)
       || framebufferResized (lveWindow w)
    then
      exists recreation,
        rest = EvResetWindowResizedFlag :: recreation /\
        Forall recreation_event recreation /\
        (recreation_completes P fuel w -> fst (drawFrame P fuel w) = Ok tt) /\
        (fst (drawFrame P fuel w) = Ok tt ->
         existsb is_construction recreation = true)
    else
      rest = [] /\
      lveSwapChain (snd (drawFrame P fuel w)) = Some chain /\
      fst (drawFrame P fuel w) =
        if presented =? VK_SUCCESS then Ok tt
        else Fail (Exception "failed to present swap chain image!").
Proof.
  intros Hc Hp Hm Hl Hacquired Hindex Hbuffer Hbegin Hend presented drawn.
  assert (Hmod : (index mod 2 ^ 32)%N = index).
  { apply N.mod_small. assert ((2 ^ 31 < 2 ^ 32)%N) by reflexivity. lia. }
  pose proof (acquireNextImage_spec P chain w) as Hspec.
  rewrite Hacquired in Hspec. cbn in Hspec. rewrite Hmod in Hspec.
  destruct Hspec as (Hfst & Htr1 & Hwin1 & (Hc1 & Hp1 & Hl1 & Hb1 & Hm1) & Hcalls1).
  unfold calls_only in Hcalls1.
  set (w1 := snd (acquireNextImage P chain w)) in *.
  assert (Hrec : fst (recordCommandBuffer P (Z.of_N index) w1) = Ok tt /\
                 trace (snd (recordCommandBuffer P (Z.of_N index) w1)) =
                   trace w1 ++ EvBeginCommandBuffer buffer VK_SUCCESS
                   :: recording chain pipeline model layout buffer (Z.of_N index)
                   ++ [EvEndCommandBuffer buffer VK_SUCCESS]).
  { apply recordCommandBuffer_returns; try congruence.
    - lia.
    - rewrite to_nat_of_N, Hb1. exact Hbuffer.
    - rewrite Hcalls1 by discriminate. exact Hbegin.
    - rewrite Hcalls1 by discriminate. exact Hend. }
  destruct (recordCommandBuffer P (Z.of_N index) w1) as [r2 w2] eqn:Hrecord.
  cbn in Hrec. destruct Hrec as [-> Htr2].
  assert (Hrecord' : recordCommandBuffer P (to_int (index mod 2 ^ 32))
                       (snd (acquireNextImage P chain w)) = (Ok tt, w2)).
  { rewrite to_int_small by exact Hindex. exact Hrecord. }
  destruct (drawFrame_drawn P fuel w w2 chain VK_SUBOPTIMAL_KHR index
              Hc Hacquired (or_intror eq_refl) Hrecord')
    as (buffer' & Hbuffer' & _ & Htr3 & Hwin3 & (Hc3 & Hp3 & Hl3 & Hb3 & Hm3)
        & Hcalls3 & Hdraw).
  rewrite Hmod in Hbuffer', Htr3, Hwin3, Hc3, Hl3, Hcalls3, Hdraw.
  rewrite Hbuffer in Hbuffer'. inversion Hbuffer'; subst buffer'; clear Hbuffer'.
  cbn zeta in Htr3, Hwin3, Hc3, Hl3, Hcalls3, Hdraw.
  fold presented in Htr3, Hdraw.
  set (w3 := snd (submitCommandBuffers P chain buffer index w2)) in *.
  assert (Htrace3 : trace w3 = trace w ++ drawn).
  { rewrite Htr3, Htr2, Htr1. unfold drawn. rewrite <- !app_assoc. reflexivity. }
  rewrite Hdraw.
  destruct ((presented =? VK_ERROR_OUT_OF_DATE_KHR) || (presented =? VK_SUBOPTIMAL_KHR)
            || framebufferResized (lveWindow w)).
  - set (w4 := snd (resetWindowResizedFlag w3)).
    assert (H4 : trace w4 = trace w3 ++ [EvResetWindowResizedFlag] /\
                 lveSwapChain w4 = Some chain /\
                 window_extent (lveWindow w4) = window_extent (lveWindow w) /\
                 pipelineLayout w4 = pipelineLayout w /\
                 forall ep, calls w4 ep = calls w3 ep).
    { unfold w4, resetWindowResizedFlag. cbn. rewrite Hc3, Hwin3, Hl3.
      repeat split; auto. }
    destruct H4 as (Htr4 & Hc4 & Hwin4 & Hl4 & Hcalls4).
    pose proof (recreateSwapChain_steady P (pipelineLayout w4) w4
                  recreation_event (fun ev H => H) fuel w4 (steady_start w4 _)) as Hev.
    destruct Hev as (_ & recreation & Hdelta & Hall).
    exists (EvResetWindowResizedFlag :: recreation).
    split.
    { apply added_app. rewrite Hdelta, Htr4, Htrace3, <- !app_assoc. reflexivity. }
    exists recreation. split; [reflexivity |]. split; [exact Hall |]. split.
    + intros Hcompletes.
      apply recreateSwapChain_returns with (previous := chain); [exact Hc4 |].
      apply (recreation_completes_transfer P fuel w w4); auto.
      all: intros ep Hep; rewrite Hcalls4; apply Hcalls3; exact Hep.
    + intros Hok.
      destruct (recreateSwapChain P fuel w4) as [r5 w5] eqn:Hrun.
      cbn in Hok, Hdelta. subst r5.
      destruct (recreateSwapChain_Ok P fuel w4 w5 chain Hc4 Hrun)
        as (polls & e & n & layout' & _ & _ & _ & Htr5 & _).
      rewrite Htr5 in Hdelta. apply app_inv_head in Hdelta. subst recreation.
      cbn [existsb is_construction orb]. rewrite existsb_app. cbn.
      apply orb_true_r.
  - exists []. split.
    { apply added_app. rewrite app_nil_r.
      destruct (negb (presented =? VK_SUCCESS)); exact Htrace3. }
    split; [reflexivity |]. split.
    + destruct (negb (presented =? VK_SUCCESS)); cbn [snd]; congruence.
    + destruct (presented =? VK_SUCCESS); reflexivity.
Qed.

Lemma suboptimal_acquisition_is_drawn_witness :
  lveSwapChain suboptimal_world = Some (first_chain 3) /\
  acquireNextImage_result suboptimal_acquire (calls suboptimal_world AcquireNextImage)
  = (VK_SUBOPTIMAL_KHR, 0%N) /\
  nth_error (commandBuffers suboptimal_world) (N.to_nat 0) = Some (CommandBuffer 0 0) /\
  lveSwapChain (snd (drawFrame suboptimal_acquire 0 suboptimal_world))
  = Some (first_chain 3).
Proof.
  assert (Hc : lveSwapChain suboptimal_world = Some (first_chain 3))
    by (vm_compute; reflexivity).
  assert (Hacquired : acquireNextImage_result suboptimal_acquire
                        (calls suboptimal_world AcquireNextImage)
                      = (VK_SUBOPTIMAL_KHR, 0%N))
    by (vm_compute; reflexivity).
  assert (Hbuffer : nth_error (commandBuffers suboptimal_world) (N.to_nat 0)
                    = Some (CommandBuffer 0 0))
    by (vm_compute; reflexivity).
  split; [exact Hc |]. split; [exact Hacquired |]. split; [exact Hbuffer |].
  destruct (suboptimal_acquisition_is_drawn suboptimal_acquire 0 suboptimal_world
              (first_chain 3)
              {| pipeline_serial := 0;
                 vertFilepath := "../shaders/simple_shader.vert.spv";
                 fragFilepath := "../shaders/simple_shader.frag.spv";
                 configInfo := {| config_renderPass := 0;
                                  config_pipelineLayout := created_layout |} |}
              {| model_vertices :=
                   [ {| position := (F32.literal 0 1, F32.neg (F32.literal 5 10));
                        color := (F32.literal 1 1, F32.literal 0 1, F32.literal 0 1) |};
                     {| position := (F32.literal 5 10, F32.literal 5 10);
                        color := (F32.literal 0 1, F32.literal 1 1, F32.literal 0 1) |};
                     {| position := (F32.neg (F32.literal 5 10), F32.literal 5 10);
                        color := (F32.literal 0 1, F32.literal 0 1, F32.literal 1 1) |} ]
              |}
              created_layout (CommandBuffer 0 0) 0%N
              Hc
              ltac:(vm_compute; reflexivity)
              ltac:(vm_compute; reflexivity)
              ltac:(vm_compute; reflexivity)
              Hacquired
              ltac:(reflexivity)
              Hbuffer
              ltac:(vm_compute; reflexivity)
              ltac:(vm_compute; reflexivity))
    as (rest & _ & Hkept).
  change (submitCommandBuffers_result suboptimal_acquire
            (calls suboptimal_world SubmitCommandBuffers))
    with VK_SUCCESS in Hkept.
  assert (Hflag : framebufferResized (lveWindow suboptimal_world) = false)
    by (vm_compute; reflexivity).
  rewrite Hflag in Hkept. cbn [Z.eqb VK_SUCCESS VK_ERROR_OUT_OF_DATE_KHR
                                 VK_SUBOPTIMAL_KHR orb] in Hkept.
  destruct Hkept as (_ & Hchain & _). exact Hchain.
Defined.

(* ===================================================================== *)
(** ** Push constants and the fractal *)
(* ===================================================================== *)

Lemma push_for_decimal (j : Z) : In j instances -> push_for j = decimal_push j.
Proof.
  intros Hj. cbn in Hj.
  destruct Hj as [<- | [<- | [<- | [<- | []]]]]; vm_compute; reflexivity.
Qed.

Lemma instances_near_decimal (j : Z) : In j instances -> near_decimal j.
Proof.
  intros Hj. cbn in Hj.
  destruct Hj as [<- | [<- | [<- | [<- | []]]]];
    vm_compute; repeat split; discriminate.
Qed.

(** C6. Whenever a frame is recorded, four payloads are pushed, and the
    payload of instance [i] is the one the decimal formulas give in single
    precision: vertical offset [-0.4 + i * 0.25], constant horizontal
    offset, blue [0.2 + 0.2 * i].  Nothing of the world or the platform
    enters it.  As rationals these values are within [2^-25] of the decimal
    ones. *)
Theorem push_constants_by_instance
    (P : Platform) (imageIndex : Z) (w w' : World) :
  recordCommandBuffer P imageIndex w = (Ok tt, w') ->
  pushed (added w w') = map decimal_push [0; 1; 2; 3] /\
  Forall near_decimal [0; 1; 2; 3].
Proof.
  intros Hrun. split.
  - apply recordCommandBuffer_spec in Hrun.
    destruct Hrun as (_ & _ & _ & Hrun).
    destruct (if imageIndex <? 0 then None
              else nth_error (commandBuffers w) (Z.to_nat imageIndex))
      as [buffer |]; [| destruct Hrun as [[what Hwhat] _]; discriminate].
    cbn zeta in Hrun.
    destruct (negb (vkBeginCommandBuffer_result P _ =? VK_SUCCESS));
      [destruct Hrun; discriminate |].
    destruct (lveSwapChain w) as [chain |]; [| destruct Hrun; discriminate].
    destruct (lvePipeline w) as [pipeline |]; [| destruct Hrun; discriminate].
    destruct (lveModel w) as [model |]; [| destruct Hrun; discriminate].
    destruct (pipelineLayout w) as [layout |]; [| destruct Hrun; discriminate].
    destruct Hrun as [Htr _].
    rewrite (added_app w w' _ Htr).
    unfold recording, pushed. cbn.
    rewrite !push_for_decimal by (cbn; tauto).
    reflexivity.
  - apply Forall_forall. intros j Hj. apply instances_near_decimal. exact Hj.
Qed.

Lemma push_constants_by_instance_witness :
  recordCommandBuffer steady 0 steady_world
  = (Ok tt, snd (recordCommandBuffer steady 0 steady_world)) /\
  pushed (added steady_world (snd (recordCommandBuffer steady 0 steady_world)))
  = map decimal_push [0; 1; 2; 3].
Proof.
  assert (Hrun : recordCommandBuffer steady 0 steady_world
                 = (Ok tt, snd (recordCommandBuffer steady 0 steady_world)))
    by (vm_compute; reflexivity).
  split; [exact Hrun |].
  exact (proj1 (push_constants_by_instance steady 0 steady_world _ Hrun)).
Defined.

Lemma sierpinski_vertices_length (d : nat) (width height px py : F32.t) :
  List.length (sierpinski_vertices d width height px py) = (3 * 3 ^ d)%nat.
Proof.
  revert width height px py.
  induction d as [| d IH]; intros width height px py; cbn [sierpinski_vertices].
  - reflexivity.
  - rewrite !length_app, !IH. cbn [Nat.pow]. lia.
Qed.

Lemma Sierpinski_of_nat (d : nat) :
  forall fuel width height px py vertices,
    (d < fuel)%nat ->
    Sierpinski fuel (Z.of_nat d) width height px py vertices
    = Some (vertices ++ sierpinski_vertices d width height px py).
Proof.
  induction d as [| d IH]; intros fuel width height px py vertices Hfuel;
    (destruct fuel as [| fuel]; [lia |]).
  - cbn. rewrite <- !app_assoc. reflexivity.
  - cbn [Sierpinski].
    assert (Hnonzero : (Z.of_nat (S d) =? 0) = false) by (apply Z.eqb_neq; lia).
    rewrite Hnonzero.
    replace (Z.of_nat (S d) - 1) with (Z.of_nat d) by lia.
    rewrite !IH by lia.
    cbn [sierpinski_vertices]. rewrite <- !app_assoc. reflexivity.
Qed.

(** C9. For a depth that is not negative, and fuel for its nesting,
    [Sierpinski] returns; the list it returns is the list it was given
    followed by vertices that depend on the depth and the geometry alone,
    and there are [3 * 3^depth] of them. *)
Theorem Sierpinski_appends
    (fuel : nat) (depth : Z) (width height px py : F32.t) (vertices : list Vertex) :
  0 <= depth ->
  (Z.to_nat depth < fuel)%nat ->
  Sierpinski fuel depth width height px py vertices
  = Some (vertices ++ sierpinski_vertices (Z.to_nat depth) width height px py) /\
  Z.of_nat (List.length (sierpinski_vertices (Z.to_nat depth) width height px py))
  = 3 * 3 ^ depth.
Proof.
  intros Hdepth Hfuel. split.
  - rewrite <- (Z2Nat.id depth Hdepth) at 1.
    apply Sierpinski_of_nat. exact Hfuel.
  - rewrite sierpinski_vertices_length.
    rewrite Nat2Z.inj_mul, Nat2Z.inj_pow, Z2Nat.id by exact Hdepth.
    reflexivity.
Qed.

Lemma Sierpinski_appends_witness :
  0 <= 2 /\ (Z.to_nat 2 < 3)%nat /\
  option_map (@List.length Vertex)
    (Sierpinski 3 2 (F32.literal 1 1) (F32.literal 1 1)
       (F32.neg (F32.literal 5 10)) (F32.literal 5 10) [])
  = Some 27%nat.
Proof.
  split; [lia |]. split; [cbn; lia |].
  destruct (Sierpinski_appends 3 2 (F32.literal 1 1) (F32.literal 1 1)
              (F32.neg (F32.literal 5 10)) (F32.literal 5 10) []
              ltac:(lia) ltac:(cbn; lia)) as [Hrun Hlen].
  rewrite Hrun. cbn [option_map app]. apply f_equal.
  apply Nat2Z.inj. rewrite Hlen. reflexivity.
Defined.

(* ===================================================================== *)
(** ** The coordinator between frames *)
(* ===================================================================== *)

Section Readiness.

Variable P : Platform.

(** The first construction, with no chain in place: the chain is built
    without a predecessor, the command buffers are not touched, and a
    pipeline is built. *)
Lemma recreateSwapChain_first (fuel : nat) (w w' : World) :
  lveSwapChain w = None ->
  recreateSwapChain P fuel w = (Ok tt, w') ->
  exists chain pipeline delta,
    lveSwapChain w' = Some chain /\
    oldSwapChain chain = None /\
    chain_serial chain = calls w NewSwapChain /\
    degenerate (windowExtent chain) = false /\
    lvePipeline w' = Some pipeline /\
    config_renderPass (configInfo pipeline) = getRenderPass chain /\
    commandBuffers w' = commandBuffers w /\
    pipelineLayout w' = pipelineLayout w /\
    pipelineLayout w <> None /\
    lveModel w' = lveModel w /\
    trace w' = trace w ++ delta /\
    Forall (fun ev => is_free_or_allocate ev = false) delta.
Proof.
  intros Hnone Hrun.
  pose proof (recreateSwapChain_steady P (pipelineLayout w) w
                recreation_event (fun ev H => H) fuel w (steady_start w _)) as Hev.
  rewrite Hrun in Hev. destruct Hev as (_ & delta & Hdelta & Hall). cbn in Hdelta.
  unfold recreateSwapChain in Hrun. cbn in Hrun.
  destruct (await_extent _ _ _ _) as [[e | f] w1] eqn:Hawait; [| discriminate].
  apply await_extent_spec in Hawait.
  destruct Hawait
    as (polls & Htr & Hpolls & Hc & Hp & Hl & Hb & Hm & Hcalls & Hwin & Hwaiting).
  cbn in Htr, Hc, Hp, Hl, Hb, Hm, Hcalls, Hwin, Hwaiting.
  rewrite Hc, Hnone in Hrun. cbn in Hrun.
  destruct (new_LveSwapChain _ _ _ _) as [[chain | f] w2] eqn:Hnew; [| discriminate].
  apply new_LveSwapChain_spec in Hnew.
  destruct Hnew as (Hwin2 & (Hc2 & Hp2 & Hl2 & Hb2 & Hm2) & Hcalls2 & Hnew).
  unfold calls_only in Hcalls2.
  cbn in Hwin2, Hc2, Hp2, Hl2, Hb2, Hm2, Hcalls2, Hnew.
  rewrite (Hcalls NewSwapChain) in Hnew by discriminate.
  destruct (swapchain_images P _) as [n |]; [| destruct Hnew; discriminate].
  destruct Hnew as [Hchain2 Htr2]. inversion Hchain2; subst chain; clear Hchain2.
  cbn in Hrun.
  apply createPipeline_spec in Hrun. cbn in Hrun.
  destruct Hrun as (Hwin3 & Hc3 & Hl3 & Hb3 & Hm3 & Hcalls3 & Hrun).
  rewrite Hl2, Hl in Hl3, Hrun.
  destruct (pipelineLayout w) as [layout |] eqn:Hlayout;
    [| destruct Hrun as [[? ?] _]; discriminate].
  destruct (pipeline_builds P _); [| destruct Hrun; discriminate].
  destruct Hrun as (_ & Hp3 & Htr3).
  eexists. eexists. exists delta.
  split; [exact Hc3 |]. cbn.
  split; [reflexivity |]. split; [reflexivity |].
  split; [eapply waiting_proper; exact Hwaiting |].
  split; [exact Hp3 |]. split; [reflexivity |].
  split; [congruence |]. split; [congruence |]. split; [discriminate |].
  split; [congruence |]. split; [exact Hdelta |].
  rewrite Htr3, Htr2, Htr, <- !app_assoc in Hdelta. apply app_inv_head in Hdelta.
  subst delta. cbn.
  constructor; [reflexivity |].
  apply Forall_app. split; [| repeat constructor].
  eapply Forall_impl; [| exact Hpolls].
  intros ev Hev. destruct ev; cbn in *; tauto.
Qed.

(** The constructor leaves the coordinator ready. *)
Lemma FirstApp_Ready (fuel : nat) (win : LveWindow) (w : World) :
  FirstApp P fuel (boot win) = (Ok tt, w) -> Ready w.
Proof.
  unfold FirstApp. intros Hrun.
  apply bind_Ok in Hrun. destruct Hrun as ([] & w1 & Hload & Hrun).
  apply bind_Ok in Hrun. destruct Hrun as ([] & w2 & Hlayout & Hrun).
  apply bind_Ok in Hrun. destruct Hrun as ([] & w3 & Hrecreate & Hcreate).
  unfold loadModels, new_LveModel in Hload. cbn in Hload.
  inversion Hload; subst w1; clear Hload.
  unfold createPipelineLayout, vkCreatePipelineLayout in Hlayout. cbn in Hlayout.
  destruct (vkCreatePipelineLayout_result P 0) as [| code | code];
    cbn in Hlayout; [| discriminate | discriminate].
  inversion Hlayout; subst w2; clear Hlayout.
  apply recreateSwapChain_first in Hrecreate; [| reflexivity].
  destruct Hrecreate
    as (chain & pipeline & delta & Hc & _ & _ & _ & Hp & _ & Hb & Hl & _ & Hm & _).
  cbn in Hb, Hl, Hm.
  apply createCommandBuffers_spec in Hcreate.
  destruct Hcreate as (_ & Hc4 & Hp4 & Hl4 & Hm4 & _ & Hcreate).
  rewrite Hc in Hcreate, Hc4. destruct Hcreate as (Hlen & _ & _).
  exists chain. split; [exact Hc4 |]. split; [exact Hlen |].
  rewrite Hp4, Hl4, Hm4, Hp, Hl, Hm. repeat split; discriminate.
Qed.

(** A recreation that returns leaves the coordinator ready, whatever the
    number of command buffers was. *)
Lemma recreateSwapChain_Ready (fuel : nat) (w w' : World) (previous : LveSwapChain) :
  lveSwapChain w = Some previous ->
  lveModel w <> None ->
  recreateSwapChain P fuel w = (Ok tt, w') ->
  Ready w'.
Proof.
  intros Hchain Hmodel Hrun.
  destruct (recreateSwapChain_Ok P fuel w w' previous Hchain Hrun)
    as (polls & e & n & layout & _ & _ & Hlayout & _ & Hc & Hp & Hl & Hm & Hlen & _).
  eexists. split; [exact Hc |]. split; [exact Hlen |].
  rewrite Hp, Hl, Hm, Hlayout. repeat split; try discriminate. exact Hmodel.
Qed.

(** A frame whose recording fails, fails the same way. *)
Lemma drawFrame_record_fails (fuel : nat) (w w2 : World) (chain : LveSwapChain)
    (result : VkResult) (index : N) (f : failure) :
  lveSwapChain w = Some chain ->
  acquireNextImage_result P (calls w AcquireNextImage) = (result, index) ->
  result = VK_SUCCESS \/ result = VK_SUBOPTIMAL_KHR ->
  recordCommandBuffer P (to_int (index mod 2 ^ 32)) (snd (acquireNextImage P chain w))
  = (Fail f, w2) ->
  drawFrame P fuel w = (Fail f, w2).
Proof.
  intros Hchain Hacquired Hresult Hrecord.
  pose proof (acquireNextImage_spec P chain w) as Hspec.
  rewrite Hacquired in Hspec. cbn in Hspec. destruct Hspec as (Hfst & _).
  unfold drawFrame. cbn. rewrite Hchain. cbn.
  rewrite (surjective_pairing (acquireNextImage P chain w)), Hfst. cbn.
  assert (Hstale : (result =? VK_ERROR_OUT_OF_DATE_KHR) = false)
    by (destruct Hresult; subst; reflexivity).
  assert (Husable : negb (result =? VK_SUCCESS) && negb (result =? VK_SUBOPTIMAL_KHR)
                    = false)
    by (destruct Hresult; subst; reflexivity).
  rewrite Hstale, Husable. cbn. rewrite Hrecord. reflexivity.
Qed.

(** A frame that returns leaves a ready coordinator ready. *)
Lemma drawFrame_Ready (fuel : nat) (w w' : World) :
  Ready w -> drawFrame P fuel w = (Ok tt, w') -> Ready w'.
Proof.
  intros (chain & Hc & Hlen & Hp & Hl & Hm) Hrun.
  destruct (acquireNextImage_result P (calls w AcquireNextImage))
    as [result index] eqn:Hacquired.
  pose proof (acquireNextImage_spec P chain w) as Hspec.
  rewrite Hacquired in Hspec. cbn in Hspec.
  destruct Hspec as (_ & _ & _ & (Hc1 & Hp1 & Hl1 & Hb1 & Hm1) & _).
  destruct (Z.eq_dec result VK_ERROR_OUT_OF_DATE_KHR) as [Hstale | Hfresh].
  { rewrite (drawFrame_stale P fuel w chain Hc) in Hrun
      by (rewrite Hacquired; exact Hstale).
    apply (recreateSwapChain_Ready fuel _ w' chain) in Hrun; [exact Hrun | |].
    - rewrite Hc1. exact Hc.
    - rewrite Hm1. exact Hm. }
  assert (Husable : result = VK_SUCCESS \/ result = VK_SUBOPTIMAL_KHR).
  { destruct (Z.eq_dec result VK_SUCCESS) as [Hsuccess | Hnot]; [left; assumption |].
    destruct (Z.eq_dec result VK_SUBOPTIMAL_KHR) as [Hsub | Hnot'];
      [right; assumption |].
    rewrite (drawFrame_acquire_error P fuel w chain Hc) in Hrun;
      [discriminate | | |]; rewrite Hacquired; assumption. }
  destruct (recordCommandBuffer P (to_int (index mod 2 ^ 32))
              (snd (acquireNextImage P chain w))) as [[[] | f] w2] eqn:Hrecord.
  2:{ rewrite (drawFrame_record_fails fuel w w2 chain result index f
                 Hc Hacquired Husable Hrecord) in Hrun. discriminate. }
  destruct (drawFrame_drawn P fuel w w2 chain result index
              Hc Hacquired Husable Hrecord)
    as (buffer & _ & _ & _ & Hwin3 & (Hc3 & Hp3 & Hl3 & Hb3 & Hm3) & _ & Hdraw).
  cbn zeta in Hwin3, Hc3, Hp3, Hl3, Hb3, Hm3, Hdraw.
  set (w3 := snd (submitCommandBuffers P chain buffer (index mod 2 ^ 32) w2)) in *.
  rewrite Hdraw in Hrun. clear Hdraw.
  destruct (_ || _ || _).
  - apply (recreateSwapChain_Ready fuel _ w' chain) in Hrun; [exact Hrun | |].
    + unfold resetWindowResizedFlag. cbn. congruence.
    + unfold resetWindowResizedFlag. cbn. congruence.
  - destruct (negb _); [discriminate |].
    inversion Hrun; subst w'.
    exists chain. rewrite Hc3, Hb3, Hp3, Hl3, Hm3. repeat split; assumption.
Qed.

Lemma glfwPollEvents_Ready (w : World) :
  Ready w -> Ready (snd (glfwPollEvents P w)).
Proof.
  intros (chain & H). exists chain. unfold glfwPollEvents, pump. cbn. exact H.
Qed.

(** X4.  Every frame of every session starts and ends with a ready
    coordinator: a chain in place and one command buffer per image. *)
Lemma frames_Ready (fuel n : nat) (win : LveWindow) (w : World) :
  (FirstApp P fuel ;; frames P fuel n) (boot win) = (Ok tt, w) -> Ready w.
Proof.
  intros Hrun.
  apply bind_Ok in Hrun. destruct Hrun as ([] & w0 & Hfirst & Hframes).
  apply FirstApp_Ready in Hfirst.
  revert w Hframes. induction n as [| n IH]; intros w Hframes.
  - cbn in Hframes. inversion Hframes; subst. exact Hfirst.
  - cbn [frames] in Hframes.
    apply bind_Ok in Hframes. destruct Hframes as ([] & w1 & Hn & Hframe).
    apply bind_Ok in Hframe. destruct Hframe as ([] & w2 & Hpoll & Hdraw).
    apply IH in Hn.
    apply (glfwPollEvents_Ready w1) in Hn. rewrite Hpoll in Hn. cbn in Hn.
    exact (drawFrame_Ready fuel w2 w Hn Hdraw).
Qed.

End Readiness.

(* ===================================================================== *)
(** ** Frames that are drawn *)
(* ===================================================================== *)

Section Drawn.

Variable P : Platform.

(** A frame whose acquisition is usable and whose recording begins and
    ends without error: up to the submission it leaves [drawn_frame] in
    the trace and the coordinator as it was; what follows depends on the
    answer of the submission and on the resized flag. *)
Lemma drawFrame_usable (fuel : nat) (w : World) (chain : LveSwapChain)
    (pipeline : LvePipeline) (model : LveModel) (layout : VkPipelineLayout)
    (buffer : VkCommandBuffer) (result : VkResult) (index : N) :
  lveSwapChain w = Some chain ->
  lvePipeline w = Some pipeline ->
  lveModel w = Some model ->
  pipelineLayout w = Some layout ->
  acquireNextImage_result P (calls w AcquireNextImage) = (result, index) ->
  result = VK_SUCCESS \/ result = VK_SUBOPTIMAL_KHR ->
  (index < 2 ^ 31)%N ->
  nth_error (commandBuffers w) (N.to_nat index) = Some buffer ->
  vkBeginCommandBuffer_result P (calls w BeginCommandBuffer) = VK_SUCCESS ->
  vkEndCommandBuffer_result P (calls w EndCommandBuffer) = VK_SUCCESS ->
  let presented := submitCommandBuffers_result P (calls w SubmitCommandBuffers) in
  exists w3,
    trace w3 =
      trace w ++ drawn_frame chain pipeline model layout buffer index result presented /\
    lveWindow w3 = lveWindow w /\
    same_members w w3 /\
    (forall ep, ep = PumpEvents \/ ep = NewSwapChain \/ ep = NewPipeline \/
                ep = AllocateCommandBuffers -> calls w3 ep = calls w ep) /\
    drawFrame P fuel w =
      if (presented =? VK_ERROR_OUT_OF_DATE_KHR) || (presented =? VK_SUBOPTIMAL_KHR)
         || framebufferResized (lveWindow w)
      then recreateSwapChain P fuel (snd (resetWindowResizedFlag w3))
      else if negb (presented =? VK_SUCCESS)
           then (Fail (Exception "failed to present swap chain image!"), w3)
           else (Ok tt, w3).
Proof.
  intros Hc Hp Hm Hl Hacquired Hresult Hindex Hbuffer Hbegin Hend presented.
  assert (Hmod : (index mod 2 ^ 32)%N = index).
  { apply N.mod_small. assert ((2 ^ 31 < 2 ^ 32)%N) by reflexivity. lia. }
  pose proof (acquireNextImage_spec P chain w) as Hspec.
  rewrite Hacquired in Hspec. cbn in Hspec. rewrite Hmod in Hspec.
  destruct Hspec as (Hfst & Htr1 & Hwin1 & (Hc1 & Hp1 & Hl1 & Hb1 & Hm1) & Hcalls1).
  unfold calls_only in Hcalls1.
  set (w1 := snd (acquireNextImage P chain w)) in *.
  assert (Hrec : fst (recordCommandBuffer P (Z.of_N index) w1) = Ok tt /\
                 trace (snd (recordCommandBuffer P (Z.of_N index) w1)) =
                   trace w1 ++ EvBeginCommandBuffer buffer VK_SUCCESS
                   :: recording chain pipeline model layout buffer (Z.of_N index)
                   ++ [EvEndCommandBuffer buffer VK_SUCCESS]).
  { apply recordCommandBuffer_returns; try congruence.
    - lia.
    - rewrite to_nat_of_N, Hb1. exact Hbuffer.
    - rewrite Hcalls1 by discriminate. exact Hbegin.
    - rewrite Hcalls1 by discriminate. exact Hend. }
  destruct (recordCommandBuffer P (Z.of_N index) w1) as [r2 w2] eqn:Hrecord.
  cbn in Hrec. destruct Hrec as [-> Htr2].
  assert (Hrecord' : recordCommandBuffer P (to_int (index mod 2 ^ 32))
                       (snd (acquireNextImage P chain w)) = (Ok tt, w2)).
  { rewrite to_int_small by exact Hindex. exact Hrecord. }
  destruct (drawFrame_drawn P fuel w w2 chain result index
              Hc Hacquired Hresult Hrecord')
    as (buffer' & Hbuffer' & _ & Htr3 & Hwin3 & Hsame3 & Hcalls3 & Hdraw).
  rewrite Hmod in Hbuffer', Htr3, Hwin3, Hsame3, Hcalls3, Hdraw.
  rewrite Hbuffer in Hbuffer'. inversion Hbuffer'; subst buffer'; clear Hbuffer'.
  cbn zeta in Htr3, Hwin3, Hsame3, Hcalls3, Hdraw.
  fold presented in Htr3, Hdraw.
  exists (snd (submitCommandBuffers P chain buffer index w2)).
  split.
  { rewrite Htr3, Htr2, Htr1. unfold drawn_frame. rewrite <- !app_assoc. reflexivity. }
  split; [exact Hwin3 |]. split; [exact Hsame3 |]. split; [exact Hcalls3 |].
  exact Hdraw.
Qed.

End Drawn.

(** X7.  [drawFrame], the steady state.  When the acquisition is usable, the
    recording begins and ends without error, the submission succeeds and
    the window was not resized, the frame returns, the trace has gained
    the acquisition, the recording into the buffer of the acquired image
    and the submission of that buffer with that image, in this order, and
    the window, the chain, the pipeline, the layout, the command buffers
    and the model are what they were: nothing is rebuilt, freed or
    allocated. *)
Theorem steady_frame_changes_nothing
    (P : Platform) (fuel : nat) (w : World) (chain : LveSwapChain)
    (pipeline : LvePipeline) (model : LveModel) (layout : VkPipelineLayout)
    (buffer : VkCommandBuffer) (result : VkResult) (index : N) :
  lveSwapChain w = Some chain ->
  lvePipeline w = Some pipeline ->
  lveModel w = Some model ->
  pipelineLayout w = Some layout ->
  acquireNextImage_result P (calls w AcquireNextImage) = (result, index) ->
  result = VK_SUCCESS \/ result = VK_SUBOPTIMAL_KHR ->
  (index < 2 ^ 31)%N ->
  nth_error (commandBuffers w) (N.to_nat index) = Some buffer ->
  vkBeginCommandBuffer_result P (calls w BeginCommandBuffer) = VK_SUCCESS ->
  vkEndCommandBuffer_result P (calls w EndCommandBuffer) = VK_SUCCESS ->
  submitCommandBuffers_result P (calls w SubmitCommandBuffers) = VK_SUCCESS ->
  framebufferResized (lveWindow w) = false ->
  fst (drawFrame P fuel w) = Ok tt /\
  added w (snd (drawFrame P fuel w)) =
    drawn_frame chain pipeline model layout buffer index result VK_SUCCESS /\
  lveWindow (snd (drawFrame P fuel w)) = lveWindow w /\
  same_members w (snd (drawFrame P fuel w)).
Proof.
  intros Hc Hp Hm Hl Hacquired Hresult Hindex Hbuffer Hbegin Hend Hpresented Hflag.
  destruct (drawFrame_usable P fuel w chain pipeline model layout buffer result index
              Hc Hp Hm Hl Hacquired Hresult Hindex Hbuffer Hbegin Hend)
    as (w3 & Htr & Hwin & Hsame & _ & Hdraw).
  rewrite Hpresented, Hflag in Hdraw. cbn in Hdraw.
  rewrite Hpresented in Htr.
  rewrite Hdraw. cbn [fst snd].
  split; [reflexivity |]. split; [apply added_app; exact Htr |].
  split; assumption.
Qed.

Lemma steady_frame_changes_nothing_witness :
  fst (drawFrame steady 0 steady_world) = Ok tt /\
  commandBuffers (snd (drawFrame steady 0 steady_world)) = commandBuffers steady_world.
Proof.
  destruct (steady_frame_changes_nothing steady 0 steady_world (first_chain 3)
              first_pipeline triangle created_layout (CommandBuffer 0 0) VK_SUCCESS 0%N
              ltac:(vm_compute; reflexivity)
              ltac:(vm_compute; reflexivity)
              ltac:(vm_compute; reflexivity)
              ltac:(vm_compute; reflexivity)
              ltac:(vm_compute; reflexivity)
              ltac:(left; reflexivity)
              ltac:(reflexivity)
              ltac:(vm_compute; reflexivity)
              ltac:(vm_compute; reflexivity)
              ltac:(vm_compute; reflexivity)
              ltac:(vm_compute; reflexivity)
              ltac:(vm_compute; reflexivity))
    as (Hok & _ & _ & (_ & _ & _ & Hb & _)).
  split; [exact Hok | exact Hb].
Defined.

(** X10.  [drawFrame], a submission that fails.  When the frame was drawn, the
    window was not resized and the submission answers anything but
    success, out of date or suboptimal, the frame throws "failed to present
    swap chain image!"; the trace ends with that submission and the
    coordinator is as it was: no chain is built. *)
Theorem presentation_error_is_fatal
    (P : Platform) (fuel : nat) (w : World) (chain : LveSwapChain)
    (pipeline : LvePipeline) (model : LveModel) (layout : VkPipelineLayout)
    (buffer : VkCommandBuffer) (result : VkResult) (index : N) :
  lveSwapChain w = Some chain ->
  lvePipeline w = Some pipeline ->
  lveModel w = Some model ->
  pipelineLayout w = Some layout ->
  acquireNextImage_result P (calls w AcquireNextImage) = (result, index) ->
  result = VK_SUCCESS \/ result = VK_SUBOPTIMAL_KHR ->
  (index < 2 ^ 31)%N ->
  nth_error (commandBuffers w) (N.to_nat index) = Some buffer ->
  vkBeginCommandBuffer_result P (calls w BeginCommandBuffer) = VK_SUCCESS ->
  vkEndCommandBuffer_result P (calls w EndCommandBuffer) = VK_SUCCESS ->
  let presented := submitCommandBuffers_result P (calls w SubmitCommandBuffers) in
  presented <> VK_SUCCESS ->
  presented <> VK_ERROR_OUT_OF_DATE_KHR ->
  presented <> VK_SUBOPTIMAL_KHR ->
  framebufferResized (lveWindow w) = false ->
  fst (drawFrame P fuel w) = Fail (Exception "failed to present swap chain image!") /\
  added w (snd (drawFrame P fuel w)) =
    drawn_frame chain pipeline model layout buffer index result presented /\
  same_members w (snd (drawFrame P fuel w)).
Proof.
  intros Hc Hp Hm Hl Hacquired Hresult Hindex Hbuffer Hbegin Hend presented
    Hfailed Hfresh Hoptimal Hflag.
  destruct (drawFrame_usable P fuel w chain pipeline model layout buffer result index
              Hc Hp Hm Hl Hacquired Hresult Hindex Hbuffer Hbegin Hend)
    as (w3 & Htr & Hwin & Hsame & _ & Hdraw).
  cbn zeta in Htr, Hdraw. fold presented in Htr, Hdraw.
  apply Z.eqb_neq in Hfailed, Hfresh, Hoptimal.
  rewrite Hfailed, Hfresh, Hoptimal, Hflag in Hdraw. cbn in Hdraw.
  rewrite Hdraw. cbn [fst snd].
  split; [reflexivity |]. split; [apply added_app; exact Htr | exact Hsame].
Qed.

Lemma presentation_error_is_fatal_witness :
  fst (drawFrame (steady_with (VK_SUCCESS, 0%N) VK_SUCCESS VK_SUCCESS VK_ERROR_DEVICE_LOST)
         0 steady_world)
  = Fail (Exception "failed to present swap chain image!").
Proof.
  apply (presentation_error_is_fatal
           (steady_with (VK_SUCCESS, 0%N) VK_SUCCESS VK_SUCCESS VK_ERROR_DEVICE_LOST)
           0 steady_world (first_chain 3)
           first_pipeline triangle created_layout (CommandBuffer 0 0) VK_SUCCESS 0%N
           ltac:(vm_compute; reflexivity)
           ltac:(vm_compute; reflexivity)
           ltac:(vm_compute; reflexivity)
           ltac:(vm_compute; reflexivity)
           ltac:(vm_compute; reflexivity)
           ltac:(left; reflexivity)
           ltac:(reflexivity)
           ltac:(vm_compute; reflexivity)
           ltac:(vm_compute; reflexivity)
           ltac:(vm_compute; reflexivity)
           ltac:(vm_compute; discriminate)
           ltac:(vm_compute; discriminate)
           ltac:(vm_compute; discriminate)
           ltac:(vm_compute; reflexivity)).
Defined.

(** X11.  [drawFrame], after a submission that asks for a new chain.  When the
    frame was drawn and the submission reports the chain out of date or
    suboptimal, or the window was resized, and the window is not
    minimized, a frame that returns has first reset the resized flag and
    then rebuilt the chain, from the one it drew with, on the extent of
    the window; the window is otherwise untouched, and the trace shows the
    submission, the reset, the read of the extent, the wait for the device
    and the construction, in this order. *)
Theorem resized_frame_rebuilds_chain
    (P : Platform) (fuel : nat) (w w' : World) (chain : LveSwapChain)
    (pipeline : LvePipeline) (model : LveModel) (layout : VkPipelineLayout)
    (buffer : VkCommandBuffer) (result : VkResult) (index : N) :
  lveSwapChain w = Some chain ->
  lvePipeline w = Some pipeline ->
  lveModel w = Some model ->
  pipelineLayout w = Some layout ->
  acquireNextImage_result P (calls w AcquireNextImage) = (result, index) ->
  result = VK_SUCCESS \/ result = VK_SUBOPTIMAL_KHR ->
  (index < 2 ^ 31)%N ->
  nth_error (commandBuffers w) (N.to_nat index) = Some buffer ->
  vkBeginCommandBuffer_result P (calls w BeginCommandBuffer) = VK_SUCCESS ->
  vkEndCommandBuffer_result P (calls w EndCommandBuffer) = VK_SUCCESS ->
  let presented := submitCommandBuffers_result P (calls w SubmitCommandBuffers) in
  presented = VK_ERROR_OUT_OF_DATE_KHR \/ presented = VK_SUBOPTIMAL_KHR \/
  framebufferResized (lveWindow w) = true ->
  degenerate (window_extent (lveWindow w)) = false ->
  drawFrame P fuel w = (Ok tt, w') ->
  exists rebuilt rest,
    lveSwapChain w' = Some rebuilt /\
    oldSwapChain rebuilt = Some (chain_serial chain) /\
    getSwapChainExtent rebuilt = window_extent (lveWindow w) /\
    lveWindow w' = reset_flag (lveWindow w) /\
    added w w' =
      drawn_frame chain pipeline model layout buffer index result presented
      ++ [ EvResetWindowResizedFlag;
           EvGetExtent (window_extent (lveWindow w));
           EvDeviceWaitIdle;
           EvNewSwapChain (window_extent (lveWindow w)) (Some chain) (Some rebuilt) ]
      ++ rest /\
    Forall (fun ev => is_free_or_allocate ev = true \/
                      exists config built, ev = EvNewPipeline config built) rest.
Proof.
  intros Hc Hp Hm Hl Hacquired Hresult Hindex Hbuffer Hbegin Hend presented
    Hasked Hproper Hrun.
  destruct (drawFrame_usable P fuel w chain pipeline model layout buffer result index
              Hc Hp Hm Hl Hacquired Hresult Hindex Hbuffer Hbegin Hend)
    as (w3 & Htr & Hwin & (Hc3 & Hp3 & Hl3 & Hb3 & Hm3) & _ & Hdraw).
  cbn zeta in Htr, Hdraw. fold presented in Htr, Hdraw.
  assert (Hbranch : (presented =? VK_ERROR_OUT_OF_DATE_KHR)
                    || (presented =? VK_SUBOPTIMAL_KHR)
                    || framebufferResized (lveWindow w) = true).
  { destruct Hasked as [H | [H | H]]; rewrite H.
    - reflexivity.
    - apply orb_true_iff. left. apply orb_true_r.
    - apply orb_true_r. }
  rewrite Hbranch in Hdraw. rewrite Hdraw in Hrun. clear Hdraw Hbranch.
  set (w4 := snd (resetWindowResizedFlag w3)) in *.
  assert (H4 : trace w4 = trace w3 ++ [EvResetWindowResizedFlag] /\
               lveSwapChain w4 = Some chain /\
               lveWindow w4 = reset_flag (lveWindow w)).
  { unfold w4, resetWindowResizedFlag. cbn. rewrite Hc3, Hwin. auto. }
  destruct H4 as (Htr4 & Hc4 & Hwin4).
  destruct (recreateSwapChain_Ok P fuel w4 w' chain Hc4 Hrun)
    as (polls & e & n & layout' & Hwaiting & _ & _ & Htr5 & Hc5 & _ & _ & _ & _ & _
        & Hwin5).
  assert (Hextent : window_extent (lveWindow w4) = window_extent (lveWindow w))
    by (rewrite Hwin4; reflexivity).
  rewrite Hextent in Hwaiting, Htr5, Hwin5.
  inversion Hwaiting as [e0 He0 | e0 e1 e2 d ps He0 Hrest]; subst; [| congruence].
  eexists. eexists.
  split; [exact Hc5 |]. split; [reflexivity |]. split; [reflexivity |].
  split; [rewrite (Hwin5 Hproper); exact Hwin4 |].
  split.
  { apply added_app. rewrite Htr5, Htr4, Htr, <- !app_assoc. cbn. reflexivity. }
  destruct (n =? List.length (commandBuffers w4))%nat; cbn.
  - constructor; [right; eauto | constructor].
  - constructor; [left; reflexivity |].
    constructor; [left; reflexivity |].
    constructor; [right; eauto | constructor].
Qed.

Lemma resized_frame_rebuilds_chain_witness :
  framebufferResized (lveWindow lost_world) = true /\
  exists rebuilt,
    lveSwapChain (snd (drawFrame steady 0 lost_world)) = Some rebuilt /\
    oldSwapChain rebuilt = Some O /\
    framebufferResized (lveWindow (snd (drawFrame steady 0 lost_world))) = false.
Proof.
  assert (Hflag : framebufferResized (lveWindow lost_world) = true)
    by (vm_compute; reflexivity).
  split; [exact Hflag |].
  destruct (resized_frame_rebuilds_chain steady 0 lost_world
              (snd (drawFrame steady 0 lost_world)) (first_chain 3)
              first_pipeline triangle created_layout (CommandBuffer 0 0) VK_SUCCESS 0%N
              ltac:(vm_compute; reflexivity)
              ltac:(vm_compute; reflexivity)
              ltac:(vm_compute; reflexivity)
              ltac:(vm_compute; reflexivity)
              ltac:(vm_compute; reflexivity)
              ltac:(left; reflexivity)
              ltac:(reflexivity)
              ltac:(vm_compute; reflexivity)
              ltac:(vm_compute; reflexivity)
              ltac:(vm_compute; reflexivity)
              ltac:(right; right; exact Hflag)
              ltac:(vm_compute; reflexivity)
              ltac:(vm_compute; reflexivity))
    as (rebuilt & rest & Hc & Hold & _ & Hwin & _).
  exists rebuilt. split; [exact Hc |]. split; [exact Hold |].
  rewrite Hwin. reflexivity.
Defined.

(** X8.  [drawFrame], an acquisition that fails.  When the acquisition answers
    anything but success, suboptimal or out of date, the frame throws
    "failed to acquire swap chain image!"; the acquisition is all the trace
    has gained, so nothing was recorded, submitted or rebuilt, and the
    window and the coordinator are as they were. *)
Theorem acquisition_error_is_fatal
    (P : Platform) (fuel : nat) (w : World) (chain : LveSwapChain) :
  lveSwapChain w = Some chain ->
  let acquired := acquireNextImage_result P (calls w AcquireNextImage) in
  fst acquired <> VK_ERROR_OUT_OF_DATE_KHR ->
  fst acquired <> VK_SUCCESS ->
  fst acquired <> VK_SUBOPTIMAL_KHR ->
  fst (drawFrame P fuel w) = Fail (Exception "failed to acquire swap chain image!") /\
  added w (snd (drawFrame P fuel w)) =
    [EvAcquireNextImage chain (fst acquired) (snd acquired mod 2 ^ 32)%N] /\
  lveWindow (snd (drawFrame P fuel w)) = lveWindow w /\
  same_members w (snd (drawFrame P fuel w)).
Proof.
  intros Hc acquired H1 H2 H3.
  rewrite (drawFrame_acquire_error P fuel w chain Hc H1 H2 H3). cbn [fst snd].
  destruct (acquireNextImage_spec P chain w) as (_ & Htr & Hwin & Hsame & _).
  split; [reflexivity |]. split; [apply added_app; exact Htr |].
  split; assumption.
Qed.

Lemma acquisition_error_is_fatal_witness :
  fst (drawFrame (steady_with (VK_ERROR_DEVICE_LOST, 0%N) VK_SUCCESS VK_SUCCESS VK_SUCCESS)
         0 steady_world)
  = Fail (Exception "failed to acquire swap chain image!").
Proof.
  apply (acquisition_error_is_fatal
           (steady_with (VK_ERROR_DEVICE_LOST, 0%N) VK_SUCCESS VK_SUCCESS VK_SUCCESS)
           0 steady_world (first_chain 3)
           ltac:(vm_compute; reflexivity)
           ltac:(vm_compute; discriminate)
           ltac:(vm_compute; discriminate)
           ltac:(vm_compute; discriminate)).
Defined.

(** X9.  [drawFrame] and [recordCommandBuffer], a recording that fails.  When
    the acquisition is usable and the buffer cannot be begun, the frame
    throws "failed to begin recording command buffer!" and no command has
    been recorded; when it is begun and cannot be ended, the frame throws
    "failed to record command buffer!" after the whole recording.  Either
    way the failed call is the last thing in the trace: nothing is
    submitted, and the coordinator is as it was. *)
Theorem recording_failure_is_fatal
    (P : Platform) (fuel : nat) (w : World) (chain : LveSwapChain)
    (pipeline : LvePipeline) (model : LveModel) (layout : VkPipelineLayout)
    (buffer : VkCommandBuffer) (result : VkResult) (index : N) :
  lveSwapChain w = Some chain ->
  lvePipeline w = Some pipeline ->
  lveModel w = Some model ->
  pipelineLayout w = Some layout ->
  acquireNextImage_result P (calls w AcquireNextImage) = (result, index) ->
  result = VK_SUCCESS \/ result = VK_SUBOPTIMAL_KHR ->
  (index < 2 ^ 31)%N ->
  nth_error (commandBuffers w) (N.to_nat index) = Some buffer ->
  let began := vkBeginCommandBuffer_result P (calls w BeginCommandBuffer) in
  let ended := vkEndCommandBuffer_result P (calls w EndCommandBuffer) in
  (began <> VK_SUCCESS ->
   fst (drawFrame P fuel w)
   = Fail (Exception "failed to begin recording command buffer!") /\
   added w (snd (drawFrame P fuel w)) =
     [ EvAcquireNextImage chain result index; EvBeginCommandBuffer buffer began ] /\
   same_members w (snd (drawFrame P fuel w))) /\
  (began = VK_SUCCESS -> ended <> VK_SUCCESS ->
   fst (drawFrame P fuel w) = Fail (Exception "failed to record command buffer!") /\
   added w (snd (drawFrame P fuel w)) =
     [ EvAcquireNextImage chain result index; EvBeginCommandBuffer buffer VK_SUCCESS ]
     ++ recording chain pipeline model layout buffer (Z.of_N index)
     ++ [ EvEndCommandBuffer buffer ended ] /\
   same_members w (snd (drawFrame P fuel w))).
Proof.
  intros Hc Hp Hm Hl Hacquired Hresult Hindex Hbuffer began ended.
  assert (Hmod : (index mod 2 ^ 32)%N = index).
  { apply N.mod_small. assert ((2 ^ 31 < 2 ^ 32)%N) by reflexivity. lia. }
  pose proof (acquireNextImage_spec P chain w) as Hspec.
  rewrite Hacquired in Hspec. cbn in Hspec. rewrite Hmod in Hspec.
  destruct Hspec as (_ & Htr1 & _ & (Hc1 & Hp1 & Hl1 & Hb1 & Hm1) & Hcalls1).
  unfold calls_only in Hcalls1.
  set (w1 := snd (acquireNextImage P chain w)) in *.
  destruct (recordCommandBuffer P (Z.of_N index) w1) as [r w2] eqn:Hrecord.
  pose proof (recordCommandBuffer_spec P _ _ _ _ Hrecord) as Hrec.
  destruct Hrec as (_ & (Hc2 & Hp2 & Hl2 & Hb2 & Hm2) & _ & Hrec).
  assert (Hpos : (Z.of_N index <? 0) = false) by (apply Z.ltb_ge; lia).
  rewrite Hpos, to_nat_of_N, Hb1, Hbuffer in Hrec.
  rewrite !Hcalls1 in Hrec by discriminate.
  rewrite Hc1, Hp1, Hm1, Hl1, Hc, Hp, Hm, Hl in Hrec.
  cbn zeta in Hrec. fold began ended in Hrec.
  assert (Hrecord' : recordCommandBuffer P (to_int (index mod 2 ^ 32))
                       (snd (acquireNextImage P chain w)) = (r, w2)).
  { rewrite to_int_small by exact Hindex. exact Hrecord. }
  assert (Hsame : same_members w w2).
  { unfold same_members. rewrite Hc2, Hp2, Hl2, Hb2, Hm2. repeat split; assumption. }
  split.
  - intros Hbegan. apply Z.eqb_neq in Hbegan. rewrite Hbegan in Hrec. cbn in Hrec.
    destruct Hrec as [-> Htr2].
    rewrite (drawFrame_record_fails P fuel w w2 chain result index _
               Hc Hacquired Hresult Hrecord').
    cbn [fst snd]. split; [reflexivity |]. split; [| exact Hsame].
    apply added_app. rewrite Htr2, Htr1, <- app_assoc. reflexivity.
  - intros Hbegan Hended. rewrite Hbegan in Hrec. cbn in Hrec.
    apply Z.eqb_neq in Hended. rewrite Hended in Hrec. cbn in Hrec.
    destruct Hrec as [Htr2 ->].
    rewrite (drawFrame_record_fails P fuel w w2 chain result index _
               Hc Hacquired Hresult Hrecord').
    cbn [fst snd]. split; [reflexivity |]. split; [| exact Hsame].
    apply added_app. rewrite Htr2, Htr1, <- app_assoc. reflexivity.
Qed.

Lemma recording_failure_is_fatal_witness :
  fst (drawFrame (steady_with (VK_SUCCESS, 0%N) VK_SUCCESS VK_ERROR_DEVICE_LOST VK_SUCCESS)
         0 steady_world)
  = Fail (Exception "failed to record command buffer!").
Proof.
  apply (recording_failure_is_fatal
           (steady_with (VK_SUCCESS, 0%N) VK_SUCCESS VK_ERROR_DEVICE_LOST VK_SUCCESS)
           0 steady_world (first_chain 3)
           first_pipeline triangle created_layout (CommandBuffer 0 0) VK_SUCCESS 0%N
           ltac:(vm_compute; reflexivity)
           ltac:(vm_compute; reflexivity)
           ltac:(vm_compute; reflexivity)
           ltac:(vm_compute; reflexivity)
           ltac:(vm_compute; reflexivity)
           ltac:(left; reflexivity)
           ltac:(reflexivity)
           ltac:(vm_compute; reflexivity)).
  - vm_compute; reflexivity.
  - vm_compute; discriminate.
Defined.

(** X12.  [drawFrame], the resized flag on the stale path.  A frame that finds
    the chain out of date rebuilds it without resetting the resized flag
    (the reset is on the path after the submission only): when the window
    is not minimized, the window is after the frame what it was before it,
    flag included, so that a resize that was pending is still pending and
    the next frame that is drawn rebuilds the chain once more. *)
Theorem stale_frame_keeps_resized_flag
    (P : Platform) (fuel : nat) (w w' : World) (chain : LveSwapChain) :
  lveSwapChain w = Some chain ->
  fst (acquireNextImage_result P (calls w AcquireNextImage)) = VK_ERROR_OUT_OF_DATE_KHR ->
  degenerate (window_extent (lveWindow w)) = false ->
  drawFrame P fuel w = (Ok tt, w') ->
  lveWindow w' = lveWindow w /\
  Forall (fun ev => ev <> EvResetWindowResizedFlag) (added w w').
Proof.
  intros Hc Hstale Hproper Hrun.
  rewrite (drawFrame_stale P fuel w chain Hc Hstale) in Hrun.
  destruct (acquireNextImage_spec P chain w) as (_ & Htr1 & Hwin1 & (Hc1 & _) & _).
  set (w1 := snd (acquireNextImage P chain w)) in *.
  rewrite Hc in Hc1.
  destruct (recreateSwapChain_Ok P fuel w1 w' chain Hc1 Hrun)
    as (polls & e & n & layout & Hwaiting & _ & _ & Htr & _ & _ & _ & _ & _ & _ & Hwin).
  rewrite Hwin1 in Hwin, Hwaiting.
  split; [exact (Hwin Hproper) |].
  inversion Hwaiting as [e0 He0 | e0 e1 e2 d ps He0 Hrest]; subst; [| congruence].
  rewrite Htr1, <- app_assoc in Htr.
  rewrite (added_app w w' _ Htr).
  cbn.
  destruct (n =? List.length (commandBuffers w1))%nat; cbn;
    repeat (constructor; [discriminate |]); constructor.
Qed.

Lemma stale_frame_keeps_resized_flag_witness :
  framebufferResized (lveWindow lost_world) = true /\
  fst (drawFrame (steady_with (VK_ERROR_OUT_OF_DATE_KHR, 0%N)
                    VK_SUCCESS VK_SUCCESS VK_SUCCESS) 0 lost_world) = Ok tt /\
  framebufferResized
    (lveWindow (snd (drawFrame (steady_with (VK_ERROR_OUT_OF_DATE_KHR, 0%N)
                                  VK_SUCCESS VK_SUCCESS VK_SUCCESS) 0 lost_world)))
  = true.
Proof.
  assert (Hflag : framebufferResized (lveWindow lost_world) = true)
    by (vm_compute; reflexivity).
  assert (Hok : fst (drawFrame (steady_with (VK_ERROR_OUT_OF_DATE_KHR, 0%N)
                                  VK_SUCCESS VK_SUCCESS VK_SUCCESS) 0 lost_world) = Ok tt)
    by (vm_compute; reflexivity).
  split; [exact Hflag |]. split; [exact Hok |].
  destruct (stale_frame_keeps_resized_flag
              (steady_with (VK_ERROR_OUT_OF_DATE_KHR, 0%N) VK_SUCCESS VK_SUCCESS VK_SUCCESS)
              0 lost_world
              (snd (drawFrame (steady_with (VK_ERROR_OUT_OF_DATE_KHR, 0%N)
                                 VK_SUCCESS VK_SUCCESS VK_SUCCESS) 0 lost_world))
              (first_chain 3)
              ltac:(vm_compute; reflexivity)
              ltac:(vm_compute; reflexivity)
              ltac:(vm_compute; reflexivity)
              ltac:(vm_compute; reflexivity))
    as [Hwin _].
  rewrite Hwin. exact Hflag.
Defined.

(* ===================================================================== *)
(** ** Command buffers, the constructor and the loop *)
(* ===================================================================== *)

Section Construction.

Variable P : Platform.

Lemma to_uint32_small (n : nat) : Z.of_nat n < 2 ^ 32 -> Z.to_nat (to_uint32 n) = n.
Proof.
  intros Hn. unfold to_uint32, uint32_max.
  rewrite Z.mod_small by lia. apply Nat2Z.id.
Qed.

(** The handles [createCommandBuffers] leaves in the vector. *)
Lemma createCommandBuffers_handles (w : World) (chain : LveSwapChain) :
  lveSwapChain w = Some chain ->
  Z.of_nat (imageCount chain) < 2 ^ 32 ->
  commandBuffers (snd (createCommandBuffers P w)) =
    if vkAllocateCommandBuffers_result P (calls w AllocateCommandBuffers) =? VK_SUCCESS
    then fresh_buffers (calls w AllocateCommandBuffers) (imageCount chain)
    else repeat VK_NULL_HANDLE (imageCount chain).
Proof.
  intros Hc Hn.
  unfold createCommandBuffers, vkAllocateCommandBuffers, is_success. cbn.
  rewrite Hc. cbn. rewrite resize_length, (to_uint32_small _ Hn).
  rewrite skipn_all2 by (rewrite resize_length; lia).
  rewrite app_nil_r.
  destruct (vkAllocateCommandBuffers_result P _ =? VK_SUCCESS); reflexivity.
Qed.

(** The first construction, with no chain in place, when it returns: what
    it leaves in the trace and in the members. *)
Lemma recreateSwapChain_first_trace (fuel : nat) (w w' : World) :
  lveSwapChain w = None ->
  recreateSwapChain P fuel w = (Ok tt, w') ->
  exists polls e n layout,
    let chain :=
      {| chain_serial := calls w NewSwapChain; windowExtent := e; chain_images := n;
         oldSwapChain := None |} in
    let config :=
      {| config_renderPass := getRenderPass chain; config_pipelineLayout := layout |} in
    let pipeline :=
      {| pipeline_serial := calls w NewPipeline;
         vertFilepath := "../shaders/simple_shader.vert.spv";
         fragFilepath := "../shaders/simple_shader.frag.spv";
         configInfo := config |} in
    waiting (window_extent (lveWindow w)) polls e /\
    swapchain_images P (calls w NewSwapChain) = Some n /\
    pipelineLayout w = Some layout /\
    trace w' =
      trace w ++ EvGetExtent (window_extent (lveWindow w)) :: polls
      ++ [ EvDeviceWaitIdle; EvNewSwapChain e None (Some chain);
           EvNewPipeline config (Some pipeline) ] /\
    lveSwapChain w' = Some chain /\
    lvePipeline w' = Some pipeline /\
    pipelineLayout w' = pipelineLayout w /\
    lveModel w' = lveModel w /\
    commandBuffers w' = commandBuffers w /\
    calls w' AllocateCommandBuffers = calls w AllocateCommandBuffers.
Proof.
  intros Hnone Hrun.
  unfold recreateSwapChain in Hrun. cbn in Hrun.
  destruct (await_extent _ _ _ _) as [[e | f] w1] eqn:Hawait; [| discriminate].
  apply await_extent_spec in Hawait.
  destruct Hawait
    as (polls & Htr & Hpolls & Hc & Hp & Hl & Hb & Hm & Hcalls & Hwin & Hwaiting).
  cbn in Htr, Hc, Hp, Hl, Hb, Hm, Hcalls, Hwin, Hwaiting.
  rewrite Hc, Hnone in Hrun. cbn in Hrun.
  destruct (new_LveSwapChain _ _ _ _) as [[chain | f] w2] eqn:Hnew; [| discriminate].
  apply new_LveSwapChain_spec in Hnew.
  destruct Hnew as (Hwin2 & (Hc2 & Hp2 & Hl2 & Hb2 & Hm2) & Hcalls2 & Hnew).
  unfold calls_only in Hcalls2.
  cbn in Hwin2, Hc2, Hp2, Hl2, Hb2, Hm2, Hcalls2, Hnew.
  rewrite (Hcalls NewSwapChain) in Hnew by discriminate.
  destruct (swapchain_images P _) as [n |] eqn:Himages; [| destruct Hnew; discriminate].
  destruct Hnew as [Hchain2 Htr2]. inversion Hchain2; subst chain; clear Hchain2.
  cbn in Hrun.
  apply createPipeline_spec in Hrun. cbn in Hrun.
  destruct Hrun as (Hwin3 & Hc3 & Hl3 & Hb3 & Hm3 & Hcalls3 & Hrun).
  unfold calls_only in Hcalls3. cbn in Hcalls3.
  rewrite Hl2, Hl in Hl3, Hrun.
  destruct (pipelineLayout w) as [layout |] eqn:Hlayout;
    [| destruct Hrun as [[? ?] _]; discriminate].
  rewrite (Hcalls2 NewPipeline), (Hcalls NewPipeline) in Hrun by discriminate.
  destruct (pipeline_builds P _); [| destruct Hrun; discriminate].
  destruct Hrun as (_ & Hp3 & Htr3).
  exists polls, e, n, layout. cbn.
  rewrite Htr3, Htr2, Htr, <- !app_assoc. cbn.
  repeat split; auto; try congruence.
  rewrite (Hcalls3 AllocateCommandBuffers), (Hcalls2 AllocateCommandBuffers),
    (Hcalls AllocateCommandBuffers) by discriminate.
  reflexivity.
Qed.

(** The loop of [recreateSwapChain], entered on the degenerate extent the
    window shows: the first pass reads that extent again before it waits,
    so a second pass follows, whatever the first wait delivered. *)
Lemma await_extent_minimized (fuel : nat) (w : World) (e' : VkExtent2D) (w' : World) :
  degenerate (window_extent (lveWindow w)) = true ->
  await_extent P fuel (window_extent (lveWindow w)) w = (Ok e', w') ->
  exists polls,
    trace w' =
      trace w ++
      EvGetExtent (window_extent (lveWindow w))
      :: EvWaitEvents (surface_events P (calls w PumpEvents))
      :: EvGetExtent
           (window_extent
              (fold_left deliver (surface_events P (calls w PumpEvents)) (lveWindow w)))
      :: EvWaitEvents (surface_events P (S (calls w PumpEvents)))
      :: polls.
Proof.
  intros He Hrun.
  destruct fuel as [| fuel]; cbn in Hrun; rewrite He in Hrun; [discriminate |].
  cbn in Hrun.
  destruct fuel as [| fuel]; cbn in Hrun; rewrite He in Hrun; [discriminate |].
  cbn in Hrun.
  apply await_extent_spec in Hrun.
  destruct Hrun as (polls & Htr & _). cbn in Htr.
  exists polls. rewrite Htr, <- !app_assoc. reflexivity.
Qed.

End Construction.

(** X14.  [createCommandBuffers].  With a chain in place, whatever the vector
    held before, a successful call leaves in it exactly one handle per
    image of the chain, all of them given out by this one allocation: no
    handle of an earlier allocation remains.  When the allocation fails
    the call throws "failed to allocate command buffers!", the vector
    already resized to the number of images. *)
Theorem createCommandBuffers_allocates_per_image
    (P : Platform) (w : World) (chain : LveSwapChain) :
  lveSwapChain w = Some chain ->
  Z.of_nat (imageCount chain) < 2 ^ 32 ->
  let result := vkAllocateCommandBuffers_result P (calls w AllocateCommandBuffers) in
  added w (snd (createCommandBuffers P w)) =
    [EvAllocateCommandBuffers (Z.of_nat (imageCount chain)) result] /\
  List.length (commandBuffers (snd (createCommandBuffers P w))) = imageCount chain /\
  (result = VK_SUCCESS ->
   fst (createCommandBuffers P w) = Ok tt /\
   commandBuffers (snd (createCommandBuffers P w)) =
     fresh_buffers (calls w AllocateCommandBuffers) (imageCount chain)) /\
  (result <> VK_SUCCESS ->
   fst (createCommandBuffers P w)
   = Fail (Exception "failed to allocate command buffers!")).
Proof.
  intros Hc Hn result.
  pose proof (createCommandBuffers_handles P w chain Hc Hn) as Hhandles.
  destruct (createCommandBuffers P w) as [r w'] eqn:Hrun.
  apply createCommandBuffers_spec in Hrun.
  destruct Hrun as (_ & _ & _ & _ & _ & _ & Hrun).
  rewrite Hc in Hrun. cbn zeta in Hrun. fold result in Hrun, Hhandles.
  destruct Hrun as (Hlen & Htr & Hr). cbn [fst snd] in *.
  split.
  { apply added_app. rewrite Htr. unfold to_uint32, uint32_max.
    rewrite Z.mod_small by lia. reflexivity. }
  split; [exact Hlen |]. split.
  - intros Hresult. rewrite Hresult in Hr, Hhandles. cbn in Hr, Hhandles.
    split; assumption.
  - intros Hresult. apply Z.eqb_neq in Hresult. rewrite Hresult in Hr. exact Hr.
Qed.

Lemma createCommandBuffers_allocates_per_image_witness :
  commandBuffers (snd (createCommandBuffers growing growing_world))
  = [CommandBuffer 1 0; CommandBuffer 1 1].
Proof.
  destruct (createCommandBuffers_allocates_per_image growing growing_world (first_chain 2)
              ltac:(vm_compute; reflexivity)
              ltac:(vm_compute; reflexivity))
    as (_ & _ & Hfresh & _).
  destruct (Hfresh ltac:(vm_compute; reflexivity)) as [_ Hb].
  rewrite Hb. vm_compute. reflexivity.
Defined.

(** X1.  [FirstApp::FirstApp].  A constructor that returns has made the model,
    created the pipeline layout, read the extent of the window (and waited
    while it was degenerate), waited for the device, built the first chain
    without a predecessor, built the pipeline for the render pass of that
    chain with the created layout, and allocated the command buffers, in
    this order and nothing else; it leaves the triangle as the model and
    one fresh command buffer per image of the chain. *)
Theorem constructor_builds_in_order
    (P : Platform) (fuel : nat) (win : LveWindow) (w : World) :
  FirstApp P fuel (boot win) = (Ok tt, w) ->
  exists polls e n,
    let chain :=
      {| chain_serial := 0; windowExtent := e; chain_images := n;
         oldSwapChain := None |} in
    let config :=
      {| config_renderPass := getRenderPass chain;
         config_pipelineLayout := created_layout |} in
    let pipeline :=
      {| pipeline_serial := 0;
         vertFilepath := "../shaders/simple_shader.vert.spv";
         fragFilepath := "../shaders/simple_shader.frag.spv";
         configInfo := config |} in
    waiting (window_extent win) polls e /\
    swapchain_images P 0 = Some n /\
    trace w =
      [ EvNewModel (model_vertices triangle);
        EvCreatePipelineLayout (layout_info created_layout) VK_SUCCESS;
        EvGetExtent (window_extent win) ]
      ++ polls
      ++ [ EvDeviceWaitIdle;
           EvNewSwapChain e None (Some chain);
           EvNewPipeline config (Some pipeline);
           EvAllocateCommandBuffers (to_uint32 n) VK_SUCCESS ] /\
    lveModel w = Some triangle /\
    pipelineLayout w = Some created_layout /\
    lveSwapChain w = Some chain /\
    lvePipeline w = Some pipeline /\
    List.length (commandBuffers w) = n /\
    (Z.of_nat n < 2 ^ 32 -> commandBuffers w = fresh_buffers 0 n).
Proof.
  unfold FirstApp. intros Hrun.
  apply bind_Ok in Hrun. destruct Hrun as ([] & w1 & Hload & Hrun).
  apply bind_Ok in Hrun. destruct Hrun as ([] & w2 & Hlayout & Hrun).
  apply bind_Ok in Hrun. destruct Hrun as ([] & w3 & Hrecreate & Hcreate).
  unfold loadModels, new_LveModel in Hload. cbn in Hload.
  inversion Hload; subst w1; clear Hload.
  unfold createPipelineLayout, vkCreatePipelineLayout in Hlayout. cbn in Hlayout.
  destruct (vkCreatePipelineLayout_result P 0) as [| code | code];
    cbn in Hlayout; [| discriminate | discriminate].
  inversion Hlayout; subst w2; clear Hlayout.
  apply recreateSwapChain_first_trace in Hrecreate; [| reflexivity].
  destruct Hrecreate
    as (polls & e & n & layout & Hwaiting & Himages & Hlayout & Htr & Hc & Hp & Hl & Hm
        & Hb & Hcalls).
  cbn in Hwaiting, Himages, Hlayout, Htr, Hc, Hp, Hl, Hm, Hb, Hcalls.
  inversion Hlayout; subst layout; clear Hlayout.
  pose proof (createCommandBuffers_handles P w3 _ Hc) as Hhandles.
  rewrite Hcreate in Hhandles. cbn [snd imageCount chain_images] in Hhandles.
  apply createCommandBuffers_spec in Hcreate.
  destruct Hcreate as (_ & Hc4 & Hp4 & Hl4 & Hm4 & _ & Hcreate).
  rewrite Hc in Hcreate, Hc4. destruct Hcreate as (Hlen & Htr4 & Hr).
  cbn [imageCount chain_images] in Hlen, Htr4.
  rewrite Hcalls in Hr, Htr4, Hhandles.
  destruct (vkAllocateCommandBuffers_result P 0 =? VK_SUCCESS) eqn:Halloc;
    [| discriminate].
  apply Z.eqb_eq in Halloc. rewrite Halloc in Htr4.
  exists polls, e, n. cbn zeta.
  split; [exact Hwaiting |]. split; [exact Himages |].
  split.
  { rewrite Htr4, Htr. cbn. rewrite <- !app_assoc. reflexivity. }
  split; [rewrite Hm4, Hm; reflexivity |].
  split; [rewrite Hl4, Hl; reflexivity |].
  split; [exact Hc4 |]. split; [rewrite Hp4; exact Hp |].
  split; [exact Hlen |]. exact Hhandles.
Qed.

Lemma constructor_builds_in_order_witness :
  fst (FirstApp restoring 2 (boot window_minimized)) = Ok tt /\
  lveSwapChain (snd (FirstApp restoring 2 (boot window_minimized)))
  = Some (first_chain 3).
Proof.
  assert (Hrun : FirstApp restoring 2 (boot window_minimized)
                 = (Ok tt, snd (FirstApp restoring 2 (boot window_minimized))))
    by (vm_compute; reflexivity).
  split; [rewrite Hrun; reflexivity |].
  destruct (constructor_builds_in_order restoring 2 window_minimized _ Hrun)
    as (polls & e & n & _ & _ & _ & _ & _ & _ & _ & _ & _).
  vm_compute. reflexivity.
Defined.

(** X2.  [FirstApp::FirstApp] and [createPipelineLayout], a layout that cannot
    be created.  The constructor throws "failed to create pipeline
    layout!" right after the model was made: the window was not asked for
    its extent, no chain, pipeline or command buffer exists, and the
    layout member is still null. *)
Theorem layout_failure_stops_constructor
    (P : Platform) (fuel : nat) (win : LveWindow) :
  vkCreatePipelineLayout_result P 0 <> VK_SUCCESS ->
  fst (FirstApp P fuel (boot win)) = Fail (Exception "failed to create pipeline layout!") /\
  trace (snd (FirstApp P fuel (boot win))) =
    [ EvNewModel (model_vertices triangle);
      EvCreatePipelineLayout (layout_info created_layout)
        (vkCreatePipelineLayout_result P 0) ] /\
  pipelineLayout (snd (FirstApp P fuel (boot win))) = None /\
  lveSwapChain (snd (FirstApp P fuel (boot win))) = None /\
  lvePipeline (snd (FirstApp P fuel (boot win))) = None /\
  commandBuffers (snd (FirstApp P fuel (boot win))) = [].
Proof.
  intros Hfailed. apply Z.eqb_neq in Hfailed.
  unfold FirstApp, loadModels, new_LveModel, createPipelineLayout,
    vkCreatePipelineLayout, is_success.
  cbn. repeat (rewrite Hfailed; cbn). repeat split; reflexivity.
Qed.

Lemma layout_failure_stops_constructor_witness :
  fst (FirstApp (setup_with (fun _ => []) VK_ERROR_DEVICE_LOST VK_SUCCESS) 0
         (boot window_800x600))
  = Fail (Exception "failed to create pipeline layout!").
Proof.
  apply (layout_failure_stops_constructor
           (setup_with (fun _ => []) VK_ERROR_DEVICE_LOST VK_SUCCESS) 0 window_800x600).
  vm_compute. discriminate.
Defined.

(** X3.  [FirstApp::run].  The loop is left only on a request to close the
    window: a call that returns finds the request standing and has waited
    for the device to be idle as its last action.  When the request stands
    on entry, that wait is all the call does: nothing is polled and no
    frame is drawn. *)
Theorem run_returns_after_close
    (P : Platform) (fuel n : nat) (w w' : World) :
  run P fuel n w = (Ok tt, w') ->
  closeRequested (lveWindow w') = true /\
  (exists before, trace w' = before ++ [EvDeviceWaitIdle]) /\
  (closeRequested (lveWindow w) = true ->
   added w w' = [EvDeviceWaitIdle] /\
   lveWindow w' = lveWindow w /\
   same_members w w').
Proof.
  revert w. induction n as [| n IH]; intros w Hrun.
  - cbn in Hrun. unfold vkDeviceWaitIdle in Hrun.
    destruct (closeRequested (lveWindow w)) eqn:Hclose; cbn in Hrun; [| discriminate].
    inversion Hrun; subst w'; clear Hrun. cbn.
    split; [exact Hclose |]. split; [eexists; reflexivity |].
    intros _. split; [apply added_app; reflexivity |].
    unfold same_members. cbn. repeat split; reflexivity.
  - cbn [run] in Hrun.
    apply bind_Ok in Hrun. destruct Hrun as (close & w0 & Hclose & Hrun).
    unfold shouldClose in Hclose. cbn in Hclose.
    inversion Hclose; subst close w0; clear Hclose.
    destruct (closeRequested (lveWindow w)) eqn:Hclose.
    + unfold vkDeviceWaitIdle in Hrun. cbn in Hrun.
      inversion Hrun; subst w'; clear Hrun. cbn.
      split; [exact Hclose |]. split; [eexists; reflexivity |].
      intros _. split; [apply added_app; reflexivity |].
      unfold same_members. cbn. repeat split; reflexivity.
    + apply bind_Ok in Hrun. destruct Hrun as ([] & w1 & _ & Hrun).
      apply bind_Ok in Hrun. destruct Hrun as ([] & w2 & _ & Hrun).
      destruct (IH w2 Hrun) as (Hclosed & Hlast & _).
      split; [exact Hclosed |]. split; [exact Hlast |].
      intros Habsurd. discriminate Habsurd.
Qed.

Lemma run_returns_after_close_witness :
  fst (run closing 0 3 steady_world) = Ok tt /\
  closeRequested (lveWindow (snd (run closing 0 3 steady_world))) = true.
Proof.
  assert (Hrun : run closing 0 3 steady_world
                 = (Ok tt, snd (run closing 0 3 steady_world)))
    by (vm_compute; reflexivity).
  split; [rewrite Hrun; reflexivity |].
  exact (proj1 (run_returns_after_close closing 0 3 steady_world _ Hrun)).
Defined.

(** X13.  [recreateSwapChain], entered on a minimized window.  The loop assigns
    the extent before it waits, so its first pass reads the degenerate
    extent that was read on entry once more, and a second pass always
    follows: a recreation that returns has waited for events at least
    twice, the second time whatever the first wait delivered, even a
    resize that restored the window. *)
Theorem minimized_recreation_waits_twice
    (P : Platform) (fuel : nat) (w w' : World) :
  degenerate (window_extent (lveWindow w)) = true ->
  recreateSwapChain P fuel w = (Ok tt, w') ->
  let first := surface_events P (calls w PumpEvents) in
  let second := surface_events P (S (calls w PumpEvents)) in
  exists rest,
    added w w' =
      EvGetExtent (window_extent (lveWindow w))
      :: EvGetExtent (window_extent (lveWindow w))
      :: EvWaitEvents first
      :: EvGetExtent (window_extent (fold_left deliver first (lveWindow w)))
      :: EvWaitEvents second
      :: rest.
Proof.
  intros He Hrun first second.
  pose proof (recreateSwapChain_steady P (pipelineLayout w) w
                recreation_event (fun ev H => H) fuel w (steady_start w _)) as Hev.
  rewrite Hrun in Hev. destruct Hev as (_ & delta & Hdelta & _). cbn in Hdelta.
  unfold recreateSwapChain in Hrun.
  apply bind_Ok in Hrun. destruct Hrun as (e0 & w0 & Hget & Hrun).
  unfold getExtent in Hget. cbn in Hget.
  inversion Hget; subst e0 w0; clear Hget.
  apply bind_Ok in Hrun. destruct Hrun as (e & w1 & Hawait & Hrun).
  apply (await_extent_minimized P fuel
           (set_trace (trace w ++ [EvGetExtent (window_extent (lveWindow w))]) w)
           e w1 He) in Hawait.
  destruct Hawait as (polls & Htr1). cbn in Htr1.
  assert (Hgrows : exists more, trace w' = trace w1 ++ more).
  { match type of Hrun with
    | ?m w1 = _ =>
        assert (Hpres : preserves (since w1 (fun _ => True)) m)
    end.
    { unfold vkDeviceWaitIdle, new_LveSwapChain, freeCommandBuffers,
        createCommandBuffers, vkFreeCommandBuffers, vkAllocateCommandBuffers,
        createPipeline, new_LvePipeline.
      preserves_steps ltac:(apply since_emit; exact I). }
    specialize (Hpres w1 (since_start w1 _)). rewrite Hrun in Hpres.
    destruct Hpres as (more & Hmore & _). exists more. exact Hmore. }
  destruct Hgrows as (more & Hmore).
  exists (polls ++ more).
  apply added_app. rewrite Hmore, Htr1, <- !app_assoc. reflexivity.
Qed.

Lemma minimized_recreation_waits_twice_witness :
  degenerate (window_extent (lveWindow minimized_world)) = true /\
  fst (recreateSwapChain restoring 2 minimized_world) = Ok tt /\
  List.length
    (filter is_wait
       (added minimized_world (snd (recreateSwapChain restoring 2 minimized_world))))
  = 2%nat.
Proof.
  assert (He : degenerate (window_extent (lveWindow minimized_world)) = true)
    by (vm_compute; reflexivity).
  assert (Hrun : recreateSwapChain restoring 2 minimized_world
                 = (Ok tt, snd (recreateSwapChain restoring 2 minimized_world)))
    by (vm_compute; reflexivity).
  split; [exact He |]. split; [rewrite Hrun; reflexivity |].
  destruct (minimized_recreation_waits_twice restoring 2 minimized_world _ He Hrun)
    as (rest & Hadded).
  vm_compute. reflexivity.
Defined.

(** X16.  [Sierpinski] and [loadSierpinskiModel], a negative depth.  The
    recursion counts the depth down by one and stops at zero only, so from
    a negative depth it never stops: no nesting of calls that keeps the
    depth within the range of [int] returns, and [loadSierpinskiModel]
    does not get to make a model. *)
Theorem Sierpinski_negative_depth_never_returns
    (fuel : nat) (depth : Z) (width height px py : F32.t) (vertices : list Vertex)
    (w : World) :
  depth < 0 ->
  - 2 ^ 31 <= depth - Z.of_nat fuel ->
  Sierpinski fuel depth width height px py vertices = None /\
  loadSierpinskiModel fuel depth w = (Fail Diverge, w).
Proof.
  intros Hdepth _.
  assert (Hnone : forall f d wd h x y vs, d < 0 -> Sierpinski f d wd h x y vs = None).
  { induction f as [| f IH]; intros d wd h x y vs Hd; cbn [Sierpinski];
      [reflexivity |].
    assert (Hnonzero : (d =? 0) = false) by (apply Z.eqb_neq; lia).
    rewrite Hnonzero, IH by lia. reflexivity. }
  split; [apply Hnone; exact Hdepth |].
  unfold loadSierpinskiModel. rewrite Hnone by exact Hdepth. reflexivity.
Qed.

Lemma Sierpinski_negative_depth_never_returns_witness :
  fst (loadSierpinskiModel 50 (-1) (boot window_800x600)) = Fail Diverge.
Proof.
  destruct (Sierpinski_negative_depth_never_returns 50 (-1)
              (F32.literal 1 1) (F32.literal 1 1) (F32.literal 0 1) (F32.literal 0 1)
              [] (boot window_800x600) ltac:(lia) ltac:(vm_compute; discriminate))
    as [_ Hload].
  rewrite Hload. reflexivity.
Defined.

(** X15.  [loadSierpinskiModel].  For a depth that is not negative, the model
    that is loaded is made of the vertices of the fractal alone, generated
    into an empty vector from a base of width 1 and height 1 whose lower
    left corner is (-0.5, 0.5): there are [3 * 3^depth] of them, whole
    triangles, and they replace whatever model was loaded before.  Nothing
    else of the coordinator changes. *)
Theorem loadSierpinskiModel_loads_fractal
    (fuel : nat) (depth : Z) (w : World) :
  0 <= depth ->
  (Z.to_nat depth < fuel)%nat ->
  let vertices :=
    sierpinski_vertices (Z.to_nat depth) (F32.literal 1 1) (F32.literal 1 1)
      (F32.neg (F32.literal 5 10)) (F32.literal 5 10) in
  fst (loadSierpinskiModel fuel depth w) = Ok tt /\
  lveModel (snd (loadSierpinskiModel fuel depth w))
  = Some {| model_vertices := vertices |} /\
  Z.of_nat (vertexCount {| model_vertices := vertices |}) = 3 * 3 ^ depth /\
  added w (snd (loadSierpinskiModel fuel depth w)) = [EvNewModel vertices] /\
  lveSwapChain (snd (loadSierpinskiModel fuel depth w)) = lveSwapChain w /\
  lvePipeline (snd (loadSierpinskiModel fuel depth w)) = lvePipeline w /\
  pipelineLayout (snd (loadSierpinskiModel fuel depth w)) = pipelineLayout w /\
  commandBuffers (snd (loadSierpinskiModel fuel depth w)) = commandBuffers w.
Proof.
  intros Hdepth Hfuel vertices.
  assert (Hfractal : Sierpinski fuel depth (F32.literal 1 1) (F32.literal 1 1)
                       (F32.neg (F32.literal 5 10)) (F32.literal 5 10) []
                     = Some vertices).
  { rewrite <- (Z2Nat.id depth Hdepth) at 1.
    rewrite Sierpinski_of_nat by exact Hfuel. reflexivity. }
  unfold loadSierpinskiModel. rewrite Hfractal.
  unfold new_LveModel. cbn.
  split; [reflexivity |]. split; [reflexivity |].
  split.
  { unfold vertexCount, vertices. cbn [model_vertices].
    rewrite sierpinski_vertices_length.
    rewrite Nat2Z.inj_mul, Nat2Z.inj_pow, Z2Nat.id by exact Hdepth.
    reflexivity. }
  split; [apply added_app; reflexivity |].
  repeat split; reflexivity.
Qed.

Lemma loadSierpinskiModel_loads_fractal_witness :
  option_map (fun model => Z.of_nat (vertexCount model))
    (lveModel (snd (loadSierpinskiModel 8 7 steady_world)))
  = Some 6561.
Proof.
  destruct (loadSierpinskiModel_loads_fractal 8 7 steady_world
              ltac:(lia) ltac:(cbn; lia))
    as (_ & Hmodel & Hcount & _).
  rewrite Hmodel. cbn [option_map]. rewrite Hcount. reflexivity.
Defined.

(* ===================================================================== *)
(** ** No session ends in a fault *)
(* ===================================================================== *)

Section Soundness.

Variable P : Platform.

(** With a pipeline layout, a recreation fails only by an exception of a
    collaborator or by waiting on: the asserts of [createPipeline] hold
    and no null member is dereferenced. *)
Lemma recreateSwapChain_never_faults (fuel : nat) (w : World) (r : outcome unit)
    (w' : World) :
  pipelineLayout w <> None ->
  recreateSwapChain P fuel w = (r, w') ->
  ~ is_fault r.
Proof.
  intros Hlayout Hrun.
  unfold recreateSwapChain in Hrun. cbn in Hrun.
  destruct (await_extent _ _ _ _) as [[e | f] w1] eqn:Hawait.
  2:{ apply await_extent_spec in Hawait.
      destruct Hawait as (polls & _ & _ & _ & _ & _ & _ & _ & _ & _ & ->).
      inversion Hrun; subst. cbn. tauto. }
  apply await_extent_spec in Hawait.
  destruct Hawait
    as (polls & Htr & Hpolls & Hc & Hp & Hl & Hb & Hm & Hcalls & Hwin & Hwaiting).
  cbn in Htr, Hc, Hp, Hl, Hb, Hm, Hcalls, Hwin, Hwaiting.
  rewrite Hc in Hrun.
  assert (Hpipeline : forall w5 r5 w6 chain,
             lveSwapChain w5 = Some chain ->
             pipelineLayout w5 = pipelineLayout w ->
             createPipeline P w5 = (r5, w6) -> ~ is_fault r5).
  { intros w5 r5 w6 chain Hc5 Hl5 Hrun5.
    apply createPipeline_spec in Hrun5.
    destruct Hrun5 as (_ & _ & _ & _ & _ & _ & Hrun5).
    rewrite Hc5, Hl5 in Hrun5.
    destruct (pipelineLayout w) as [layout |]; [| congruence].
    destruct (pipeline_builds P _); destruct Hrun5 as (-> & _); cbn; tauto. }
  destruct (lveSwapChain w) as [previous |] eqn:Hchain; cbn in Hrun.
  - destruct (new_LveSwapChain _ _ _ _) as [[chain | f] w2] eqn:Hnew.
    2:{ apply new_LveSwapChain_spec in Hnew.
        destruct Hnew as (_ & _ & _ & Hnew).
        destruct (swapchain_images P _); destruct Hnew as [Hr _]; [discriminate |].
        inversion Hr; subst f. inversion Hrun; subst. cbn. tauto. }
    apply new_LveSwapChain_spec in Hnew.
    destruct Hnew as (Hwin2 & (Hc2 & Hp2 & Hl2 & Hb2 & Hm2) & Hcalls2 & _).
    cbn in Hwin2, Hc2, Hp2, Hl2, Hb2, Hm2, Hcalls2.
    cbn in Hrun.
    destruct (negb (imageCount chain =? List.length (commandBuffers w2))%nat);
      cbn in Hrun.
    + destruct (freeCommandBuffers _) as [r4 w4] eqn:Hfree.
      apply freeCommandBuffers_spec in Hfree. cbn in Hfree.
      destruct Hfree as (-> & Hb4 & Htr4 & Hwin4 & Hc4 & Hp4 & Hl4 & Hm4 & Hcalls4).
      destruct (createCommandBuffers P w4) as [r5 w5] eqn:Hcreate.
      apply createCommandBuffers_spec in Hcreate.
      destruct Hcreate as (_ & Hc5 & _ & Hl5 & _ & _ & Hcreate).
      rewrite Hc4 in Hcreate, Hc5. destruct Hcreate as (_ & _ & Hr5).
      destruct (vkAllocateCommandBuffers_result P _ =? VK_SUCCESS); subst r5.
      * eapply (Hpipeline w5 r w' chain); [exact Hc5 | | exact Hrun].
        rewrite Hl5, Hl4. cbn. rewrite Hl2. exact Hl.
      * inversion Hrun; subst. cbn. tauto.
    + eapply (Hpipeline _ r w' chain); [| | exact Hrun]; cbn; [reflexivity |].
      rewrite Hl2. exact Hl.
  - destruct (new_LveSwapChain _ _ _ _) as [[chain | f] w2] eqn:Hnew.
    2:{ apply new_LveSwapChain_spec in Hnew.
        destruct Hnew as (_ & _ & _ & Hnew).
        destruct (swapchain_images P _); destruct Hnew as [Hr _]; [discriminate |].
        inversion Hr; subst f. inversion Hrun; subst. cbn. tauto. }
    apply new_LveSwapChain_spec in Hnew.
    destruct Hnew as (Hwin2 & (Hc2 & Hp2 & Hl2 & Hb2 & Hm2) & Hcalls2 & _).
    cbn in Hwin2, Hc2, Hp2, Hl2, Hb2, Hm2, Hcalls2.
    cbn in Hrun.
    eapply (Hpipeline _ r w' chain); [| | exact Hrun]; cbn; [reflexivity |].
    rewrite Hl2. exact Hl.
Qed.

Variable m : nat.
Hypothesis within : indices_within P m.

(** A recreation that returns leaves a ready coordinator, with a chain of
    the platform. *)
Lemma recreateSwapChain_Ready_for (fuel : nat) (w w' : World) (previous : LveSwapChain) :
  lveSwapChain w = Some previous ->
  lveModel w <> None ->
  recreateSwapChain P fuel w = (Ok tt, w') ->
  Ready_for m w'.
Proof.
  intros Hchain Hmodel Hrun.
  destruct (recreateSwapChain_Ok P fuel w w' previous Hchain Hrun)
    as (polls & e & n & layout & _ & Himages & Hlayout & _ & Hc & Hp & Hl & Hm & Hlen & _).
  eexists. split; [exact Hc |].
  split; [exact (proj1 within _ _ Himages) |]. split; [exact Hlen |].
  rewrite Hp, Hl, Hm, Hlayout. repeat split; try discriminate. exact Hmodel.
Qed.

(** A frame drawn from a ready coordinator does not end in a fault, and
    leaves the coordinator ready when it returns. *)
Lemma drawFrame_sound (fuel : nat) (w : World) (r : outcome unit) (w' : World) :
  Ready_for m w ->
  drawFrame P fuel w = (r, w') ->
  ~ is_fault r /\ (r = Ok tt -> Ready_for m w').
Proof.
  intros (chain & Hc & Hatleast & Hlen & Hp & Hl & Hm) Hrun.
  destruct within as (_ & Hbelow & Hint).
  destruct (acquireNextImage_result P (calls w AcquireNextImage))
    as [result index] eqn:Hacquired.
  specialize (Hbelow (calls w AcquireNextImage)).
  specialize (Hint (calls w AcquireNextImage)).
  rewrite Hacquired in Hbelow, Hint. cbn in Hbelow, Hint.
  assert (Hmod : (index mod 2 ^ 32)%N = index).
  { apply N.mod_small. assert ((2 ^ 31 < 2 ^ 32)%N) by reflexivity. lia. }
  pose proof (acquireNextImage_spec P chain w) as Hspec.
  rewrite Hacquired in Hspec. cbn in Hspec. rewrite Hmod in Hspec.
  destruct Hspec as (_ & _ & _ & (Hc1 & Hp1 & Hl1 & Hb1 & Hm1) & Hcalls1).
  set (w1 := snd (acquireNextImage P chain w)) in *.
  destruct (Z.eq_dec result VK_ERROR_OUT_OF_DATE_KHR) as [Hstale | Hfresh].
  { rewrite (drawFrame_stale P fuel w chain Hc) in Hrun
      by (rewrite Hacquired; exact Hstale).
    fold w1 in Hrun. split.
    - apply (recreateSwapChain_never_faults fuel w1 r w'); [| exact Hrun].
      rewrite Hl1. exact Hl.
    - intros ->. apply (recreateSwapChain_Ready_for fuel w1 w' chain); auto.
      + rewrite Hc1. exact Hc.
      + rewrite Hm1. exact Hm. }
  assert (Husable : result = VK_SUCCESS \/ result = VK_SUBOPTIMAL_KHR \/
                    (result <> VK_SUCCESS /\ result <> VK_SUBOPTIMAL_KHR)).
  { destruct (Z.eq_dec result VK_SUCCESS); [tauto |].
    destruct (Z.eq_dec result VK_SUBOPTIMAL_KHR); tauto. }
  destruct Husable as [Husable | [Husable | [Hnot Hnot']]].
  3:{ rewrite (drawFrame_acquire_error P fuel w chain Hc) in Hrun
        by (rewrite Hacquired; assumption).
      inversion Hrun; subst. split; [cbn; tauto | discriminate]. }
  all: assert (Hresult : result = VK_SUCCESS \/ result = VK_SUBOPTIMAL_KHR) by tauto;
    clear Husable.
  all: destruct (recordCommandBuffer P (to_int (index mod 2 ^ 32)) w1)
         as [r2 w2] eqn:Hrecord.
  all: pose proof (recordCommandBuffer_spec P _ _ _ _ Hrecord) as Hrec.
  all: destruct Hrec as (_ & _ & _ & Hrec).
  all: rewrite to_int_small in Hrec by exact Hint.
  all: assert (Hpos : (Z.of_N index <? 0) = false) by (apply Z.ltb_ge; lia).
  all: rewrite Hpos, to_nat_of_N, Hb1 in Hrec.
  all: destruct (nth_error (commandBuffers w) (N.to_nat index)) as [buffer |] eqn:Hbuffer;
    [| apply nth_error_None in Hbuffer; lia].
  all: rewrite Hc1, Hp1, Hm1, Hl1, Hc in Hrec.
  all: destruct (lvePipeline w) as [pipeline |] eqn:Hpipeline; [| congruence].
  all: destruct (lveModel w) as [model |] eqn:Hmodel; [| congruence].
  all: destruct (pipelineLayout w) as [layout |] eqn:Hlayout; [| congruence].
  all: cbn zeta in Hrec.
  all: assert (Hr2 : ~ is_fault r2).
  1,3: destruct (negb (_ =? VK_SUCCESS)) in Hrec;
    [destruct Hrec as [-> _]; cbn; tauto |].
  1,2: destruct Hrec as [_ ->]; destruct (negb (_ =? VK_SUCCESS)); cbn; tauto.
  all: destruct r2 as [[] | f].
  2,4: rewrite (drawFrame_record_fails P fuel w w2 chain result index f
                  Hc Hacquired Hresult Hrecord) in Hrun;
    inversion Hrun; subst; split; [exact Hr2 | discriminate].
  all: destruct (drawFrame_drawn P fuel w w2 chain result index
                   Hc Hacquired Hresult Hrecord)
         as (buffer' & _ & _ & _ & Hwin3 & (Hc3 & Hp3 & Hl3 & Hb3 & Hm3) & _ & Hdraw).
  all: cbn zeta in Hwin3, Hc3, Hp3, Hl3, Hb3, Hm3, Hdraw.
  all: set (w3 := snd (submitCommandBuffers P chain buffer' (index mod 2 ^ 32) w2)) in *.
  all: rewrite Hdraw in Hrun; clear Hdraw.
  all: destruct (_ || _ || _).
  1,3: split;
    [ apply (recreateSwapChain_never_faults fuel (snd (resetWindowResizedFlag w3)) r w');
      [| exact Hrun];
      unfold resetWindowResizedFlag; cbn; congruence
    | intros ->;
      apply (recreateSwapChain_Ready_for fuel (snd (resetWindowResizedFlag w3)) w' chain);
      [| | exact Hrun];
      unfold resetWindowResizedFlag; cbn; congruence ].
  all: destruct (negb _); inversion Hrun; subst.
  1,3: split; [cbn; tauto | discriminate].
  all: split; [cbn; tauto | intros _].
  all: exists chain.
  all: rewrite Hc3, Hb3, Hp3, Hl3, Hm3.
  all: split; [exact Hc |]; split; [exact Hatleast |]; split; [exact Hlen |].
  all: rewrite Hpipeline, Hlayout, Hmodel; split; [| split]; discriminate.
Qed.

(** The constructor does not end in a fault, and leaves the coordinator
    ready when it returns. *)
Lemma FirstApp_sound (fuel : nat) (win : LveWindow) (r : outcome unit) (w : World) :
  FirstApp P fuel (boot win) = (r, w) ->
  ~ is_fault r /\ (r = Ok tt -> Ready_for m w).
Proof.
  intros Hrun.
  unfold FirstApp, loadModels, new_LveModel, createPipelineLayout,
    vkCreatePipelineLayout, is_success in Hrun.
  cbn in Hrun.
  destruct (vkCreatePipelineLayout_result P 0 =? VK_SUCCESS) eqn:Hcreated;
    cbn in Hrun; rewrite ?Hcreated in Hrun; cbn in Hrun.
  2:{ inversion Hrun; subst. split; [cbn; tauto | discriminate]. }
  destruct (recreateSwapChain P fuel _) as [r3 w3] eqn:Hrecreate.
  assert (Hr3 : ~ is_fault r3).
  { eapply recreateSwapChain_never_faults; [| exact Hrecreate]. cbn. discriminate. }
  destruct r3 as [[] | f]; cbn in Hrun.
  2:{ inversion Hrun; subst. split; [exact Hr3 | discriminate]. }
  apply recreateSwapChain_first_trace in Hrecreate; [| reflexivity].
  destruct Hrecreate
    as (polls & e & n & layout & _ & Himages & _ & _ & Hc & Hp & Hl & Hm & _).
  cbn in Himages, Hc, Hp, Hl, Hm.
  apply createCommandBuffers_spec in Hrun.
  destruct Hrun as (_ & Hc4 & Hp4 & Hl4 & Hm4 & _ & Hrun).
  rewrite Hc in Hrun, Hc4. destruct Hrun as (Hlen & _ & ->).
  split.
  - destruct (vkAllocateCommandBuffers_result P (calls w3 AllocateCommandBuffers)
              =? VK_SUCCESS); cbn; tauto.
  - intros _. eexists. split; [exact Hc4 |].
    split; [exact (proj1 within _ _ Himages) |]. split; [exact Hlen |].
    rewrite Hp4, Hl4, Hm4, Hp, Hl, Hm. repeat split; discriminate.
Qed.

(** The loop, entered with a ready coordinator, does not end in a fault. *)
Lemma run_sound (fuel n : nat) :
  forall w, Ready_for m w -> ~ is_fault (fst (run P fuel n w)).
Proof.
  induction n as [| n IH]; intros w Hready; cbn [run]; unfold bind, shouldClose, read.
  - destruct (closeRequested (lveWindow w)); cbn; tauto.
  - destruct (closeRequested (lveWindow w)); [cbn; tauto |].
    assert (Hpolled : fst (glfwPollEvents P w) = Ok tt /\
                      Ready_for m (snd (glfwPollEvents P w))).
    { split; [reflexivity |].
      destruct Hready as (chain & H). exists chain.
      unfold glfwPollEvents, pump. cbn. exact H. }
    destruct (glfwPollEvents P w) as [r1 w1]. cbn in Hpolled.
    destruct Hpolled as [-> Hready1].
    destruct (drawFrame P fuel w1) as [r2 w2] eqn:Hdraw.
    destruct (drawFrame_sound fuel w1 r2 w2 Hready1 Hdraw) as [Hr2 Hready2].
    destruct r2 as [[] | f]; [| exact Hr2].
    apply IH, Hready2. reflexivity.
Qed.

End Soundness.

(** X5.  [FirstApp::FirstApp] and [FirstApp::run], no faults.  As long as the
    platform acquires indices of images of the chain (every chain has at
    least [m] images, every acquired index is below [m]), a session of
    any length ends, if it does, by returning or by an exception: the
    asserts of [createPipeline] never fail, no null member is
    dereferenced, and [commandBuffers] is never indexed past its end. *)
Theorem session_never_faults
    (P : Platform) (m fuel n : nat) (win : LveWindow) :
  indices_within P m ->
  ~ is_fault (fst (session P fuel n (boot win))).
Proof.
  intros Hwithin. unfold session, bind.
  destruct (FirstApp P fuel (boot win)) as [r w] eqn:Hfirst.
  destruct (FirstApp_sound P m Hwithin fuel win r w Hfirst) as [Hr Hready].
  destruct r as [[] | f]; [| exact Hr].
  apply (run_sound P m Hwithin). apply Hready. reflexivity.
Qed.

Lemma session_never_faults_witness :
  indices_within steady 3 /\
  ~ is_fault (fst (session steady 0 5 (boot window_800x600))).
Proof.
  assert (Hwithin : indices_within steady 3).
  { split; [| split].
    - intros k n Himages. inversion Himages. lia.
    - intros k. cbn. lia.
    - intros k. reflexivity. }
  split; [exact Hwithin |].
  exact (session_never_faults steady 3 0 5 window_800x600 Hwithin).
Defined.

(* ===================================================================== *)
(** ** The chain in place *)
(* ===================================================================== *)

Lemma current_throughout_app (current : option LveSwapChain) (a b : list Event) :
  current_throughout current a ->
  current_throughout (fold_left step_chain a current) b ->
  current_throughout current (a ++ b).
Proof.
  revert current. induction a as [| ev a IH]; intros current Ha Hb; cbn in *.
  - exact Hb.
  - destruct Ha as [Hev Ha]. split; [exact Hev | apply IH; assumption].
Qed.

(** The loop that waits neither uses nor replaces the chain. *)
Lemma waiting_current (e e' : VkExtent2D) (polls : list Event) :
  waiting e polls e' ->
  forall current,
    current_throughout current polls /\ fold_left step_chain polls current = current.
Proof.
  induction 1 as [e He | e e1 e' delivered polls He Hw IH]; intros current; cbn.
  - split; [exact I | reflexivity].
  - destruct (IH current) as [Hpolls Hfold]. repeat split; assumption.
Qed.

Lemma Coherent_extend (w w' : World) (delta : list Event) :
  Coherent w ->
  trace w' = trace w ++ delta ->
  current_throughout (lveSwapChain w) delta ->
  fold_left step_chain delta (lveSwapChain w) = lveSwapChain w' ->
  (forall chain pipeline,
      lveSwapChain w' = Some chain -> lvePipeline w' = Some pipeline ->
      config_renderPass (configInfo pipeline) = getRenderPass chain) ->
  Coherent w'.
Proof.
  intros (Hthroughout & Hplace & _) Htr Hdelta Hfold Hpipeline.
  split; [| split; [| exact Hpipeline]].
  - rewrite Htr. apply current_throughout_app; [exact Hthroughout |].
    rewrite Hplace. exact Hdelta.
  - rewrite Htr, fold_left_app, Hplace. exact Hfold.
Qed.

Lemma to_int_below (i : N) : (i < 2 ^ 31)%N -> to_int i = Z.of_N i.
Proof.
  intros Hi. unfold to_int, uint32_max.
  assert (Hz : 0 <= Z.of_N i < 2 ^ 31).
  { split; [lia |]. change (2 ^ 31) with (Z.of_N (2 ^ 31)). lia. }
  rewrite Z.mod_small by lia.
  destruct (Z.of_N i <? 2 ^ 31) eqn:Hcmp; [reflexivity |].
  apply Z.ltb_ge in Hcmp. lia.
Qed.

Section Currency.

Variable P : Platform.

Lemma recreateSwapChain_Coherent (fuel : nat) (w w' : World) (previous : LveSwapChain) :
  Coherent w ->
  lveSwapChain w = Some previous ->
  recreateSwapChain P fuel w = (Ok tt, w') ->
  Coherent w'.
Proof.
  intros Hcoherent Hchain Hrun.
  destruct (recreateSwapChain_Ok P fuel w w' previous Hchain Hrun)
    as (polls & e & n & layout & Hwaiting & _ & _ & Htr & Hc & Hp & _).
  cbn zeta in Htr, Hc, Hp.
  apply (Coherent_extend w w' _ Hcoherent Htr).
  - rewrite Hchain. cbn. split; [exact I |].
    apply current_throughout_app; [apply (waiting_current _ _ _ Hwaiting) |].
    rewrite (proj2 (waiting_current _ _ _ Hwaiting _)).
    cbn. split; [exact I |]. split; [reflexivity |].
    destruct (n =? List.length (commandBuffers w))%nat; cbn;
      repeat (split; [exact I |]); (split; [| exact I]);
      eexists; split; reflexivity.
  - rewrite Hchain, Hc. cbn. rewrite fold_left_app.
    rewrite (proj2 (waiting_current _ _ _ Hwaiting _)).
    destruct (n =? List.length (commandBuffers w))%nat; reflexivity.
  - intros chain pipeline Hc' Hp'. rewrite Hc in Hc'. rewrite Hp in Hp'.
    inversion Hc'; inversion Hp'; subst. reflexivity.
Qed.

Lemma recording_current (chain : LveSwapChain) (pipeline : LvePipeline)
    (model : LveModel) (layout : VkPipelineLayout) (buffer : VkCommandBuffer) (i : Z) :
  config_renderPass (configInfo pipeline) = getRenderPass chain ->
  forall rest,
    current_throughout (Some chain) rest ->
    current_throughout (Some chain)
      (recording chain pipeline model layout buffer i ++ rest).
Proof.
  intros Hpipeline rest Hrest. unfold recording, instances. cbn.
  repeat split; try exact I; try exact Hrest;
    exists chain; repeat split; try reflexivity; try exact Hpipeline.
  exists i. reflexivity.
Qed.

Lemma recording_keeps_chain (chain : LveSwapChain) (pipeline : LvePipeline)
    (model : LveModel) (layout : VkPipelineLayout) (buffer : VkCommandBuffer) (i : Z)
    (current : option LveSwapChain) :
  fold_left step_chain (recording chain pipeline model layout buffer i) current = current.
Proof. reflexivity. Qed.

Lemma drawFrame_Coherent (fuel : nat) (w w' : World) :
  Ready w -> Coherent w -> drawFrame P fuel w = (Ok tt, w') -> Coherent w'.
Proof.
  intros (chain & Hc & Hlen & Hp & Hl & Hm) Hcoherent Hrun.
  destruct (acquireNextImage_result P (calls w AcquireNextImage))
    as [result index] eqn:Hacquired.
  pose proof (acquireNextImage_spec P chain w) as Hspec.
  rewrite Hacquired in Hspec. cbn in Hspec.
  destruct Hspec as (_ & Htr1 & _ & (Hc1 & Hp1 & Hl1 & Hb1 & Hm1) & _).
  set (w1 := snd (acquireNextImage P chain w)) in *.
  assert (Hcoherent1 : Coherent w1).
  { apply (Coherent_extend w w1 _ Hcoherent Htr1).
    - rewrite Hc. cbn. auto.
    - rewrite Hc1. reflexivity.
    - rewrite Hc1, Hp1. apply Hcoherent. }
  destruct (Z.eq_dec result VK_ERROR_OUT_OF_DATE_KHR) as [Hstale | Hfresh].
  { rewrite (drawFrame_stale P fuel w chain Hc) in Hrun
      by (rewrite Hacquired; exact Hstale).
    apply (recreateSwapChain_Coherent fuel w1 w' chain Hcoherent1); [| exact Hrun].
    rewrite Hc1. exact Hc. }
  assert (Husable : result = VK_SUCCESS \/ result = VK_SUBOPTIMAL_KHR).
  { destruct (Z.eq_dec result VK_SUCCESS) as [Hsuccess | Hnot]; [left; assumption |].
    destruct (Z.eq_dec result VK_SUBOPTIMAL_KHR) as [Hsub | Hnot'];
      [right; assumption |].
    rewrite (drawFrame_acquire_error P fuel w chain Hc) in Hrun;
      [discriminate | | |]; rewrite Hacquired; assumption. }
  destruct (recordCommandBuffer P (to_int (index mod 2 ^ 32)) w1)
    as [[[] | f] w2] eqn:Hrecord.
  2:{ rewrite (drawFrame_record_fails P fuel w w2 chain result index f
                 Hc Hacquired Husable Hrecord) in Hrun. discriminate. }
  destruct (drawFrame_drawn P fuel w w2 chain result index
              Hc Hacquired Husable Hrecord)
    as (buffer & Hbuffer & Hindex & Htr3 & _ & (Hc3 & Hp3 & Hl3 & Hb3 & Hm3) & _ & Hdraw).
  cbn zeta in Htr3, Hc3, Hp3, Hl3, Hb3, Hm3, Hdraw.
  set (w3 := snd (submitCommandBuffers P chain buffer (index mod 2 ^ 32) w2)) in *.
  pose proof (recordCommandBuffer_spec P _ _ _ _ Hrecord) as Hrec.
  destruct Hrec as (_ & (Hc2 & Hp2 & _) & _ & Hrec).
  rewrite (to_int_below _ Hindex) in Hrec.
  assert (Hpos : (Z.of_N (index mod 2 ^ 32) <? 0) = false)
    by (apply Z.ltb_ge, N2Z.is_nonneg).
  rewrite Hpos, to_nat_of_N, Hb1, Hbuffer in Hrec.
  rewrite Hc1, Hp1, Hm1, Hl1, Hc in Hrec.
  cbn zeta in Hrec.
  match type of Hrec with
  | if negb ?began then _ else _ => destruct began
  end; cbn [negb] in Hrec; [| destruct Hrec; discriminate].
  destruct (lvePipeline w) as [pipeline |] eqn:Hpipeline; [| congruence].
  destruct (lveModel w) as [model |] eqn:Hmodel; [| congruence].
  destruct (pipelineLayout w) as [layout |] eqn:Hlayout; [| congruence].
  destruct Hrec as [Htr2 _].
  assert (Hfor : config_renderPass (configInfo pipeline) = getRenderPass chain).
  { apply Hcoherent; assumption. }
  assert (Hcoherent3 : Coherent w3).
  { pose proof Htr3 as Htr13.
    rewrite Htr2, <- app_assoc in Htr13. cbn [app] in Htr13.
    rewrite <- app_assoc in Htr13. cbn [app] in Htr13.
    apply (Coherent_extend w1 w3 _ Hcoherent1 Htr13).
    - rewrite Hc1, Hc. cbn. split; [exact I |].
      apply (recording_current _ _ _ _ _ _ Hfor). cbn. auto.
    - rewrite Hc1, Hc. cbn. rewrite fold_left_app, recording_keeps_chain. cbn.
      rewrite Hc3. symmetry. exact Hc.
    - rewrite Hc3, Hp3, ?Hpipeline, Hc. intros c p Hc' Hp'.
      inversion Hc'; inversion Hp'; subst. exact Hfor. }
  rewrite Hdraw in Hrun. clear Hdraw.
  destruct (_ || _ || _).
  - set (w4 := snd (resetWindowResizedFlag w3)) in *.
    assert (Hcoherent4 : Coherent w4).
    { apply (Coherent_extend w3 w4 [EvResetWindowResizedFlag] Hcoherent3).
      - reflexivity.
      - cbn. auto.
      - reflexivity.
      - apply Hcoherent3. }
    apply (recreateSwapChain_Coherent fuel w4 w' chain Hcoherent4); [| exact Hrun].
    unfold w4, resetWindowResizedFlag. cbn. rewrite Hc3. exact Hc.
  - destruct (negb _); [discriminate |].
    inversion Hrun; subst w'. exact Hcoherent3.
Qed.

Lemma FirstApp_Coherent (fuel : nat) (win : LveWindow) (w : World) :
  FirstApp P fuel (boot win) = (Ok tt, w) -> Coherent w.
Proof.
  unfold FirstApp. intros Hrun.
  apply bind_Ok in Hrun. destruct Hrun as ([] & w1 & Hload & Hrun).
  apply bind_Ok in Hrun. destruct Hrun as ([] & w2 & Hlayout & Hrun).
  apply bind_Ok in Hrun. destruct Hrun as ([] & w3 & Hrecreate & Hcreate).
  unfold loadModels, new_LveModel in Hload. cbn in Hload.
  inversion Hload; subst w1; clear Hload.
  unfold createPipelineLayout, vkCreatePipelineLayout in Hlayout. cbn in Hlayout.
  destruct (vkCreatePipelineLayout_result P 0) as [| code | code];
    cbn in Hlayout; [| discriminate | discriminate].
  inversion Hlayout; subst w2; clear Hlayout.
  apply recreateSwapChain_first_trace in Hrecreate; [| reflexivity].
  destruct Hrecreate
    as (polls & e & n & layout & Hwaiting & _ & _ & Htr & Hc & Hp & _).
  cbn in Hwaiting, Htr, Hc, Hp.
  apply createCommandBuffers_spec in Hcreate.
  destruct Hcreate as (_ & Hc4 & Hp4 & _ & _ & _ & Hcreate).
  rewrite Hc in Hcreate, Hc4. destruct Hcreate as (_ & Htr4 & _).
  rewrite Hp in Hp4.
  split; [| split].
  - rewrite Htr4, Htr. cbn.
    split; [exact I |]. split; [exact I |]. split; [exact I |].
    rewrite <- app_assoc.
    apply current_throughout_app; [apply (waiting_current _ _ _ Hwaiting) |].
    rewrite (proj2 (waiting_current _ _ _ Hwaiting _)).
    cbn. repeat split; try exact I. eexists; split; reflexivity.
  - rewrite Htr4, Htr, Hc4. cbn. rewrite <- app_assoc, fold_left_app.
    rewrite (proj2 (waiting_current _ _ _ Hwaiting _)). reflexivity.
  - intros chain pipeline Hc' Hp'. rewrite Hc4 in Hc'. rewrite Hp4 in Hp'.
    inversion Hc'; inversion Hp'; subst. reflexivity.
Qed.

End Currency.

(** X6.  [FirstApp::FirstApp], [run] and [drawFrame], the chain in place.
    After the constructor and any number of frames that return, every
    event of the trace found in place the chain it works with, the chain
    in place being the one built last: acquisitions and submissions went
    to it, every construction was handed it as the old chain, every
    pipeline was built for its render pass, and every recording began its
    render pass on one of its framebuffers and over its extent, set a
    viewport and a scissor of its extent, and bound a pipeline built for
    its render pass.  No frame works with a chain that was replaced. *)
Theorem frames_use_chain_in_place
    (P : Platform) (fuel n : nat) (win : LveWindow) (w : World) :
  (FirstApp P fuel ;; frames P fuel n) (boot win) = (Ok tt, w) ->
  current_throughout None (trace w) /\
  fold_left step_chain (trace w) None = lveSwapChain w.
Proof.
  intros Hrun.
  apply bind_Ok in Hrun. destruct Hrun as ([] & w0 & Hfirst & Hframes).
  assert (Hgoal : Ready w /\ Coherent w).
  { pose proof (FirstApp_Ready P fuel win w0 Hfirst) as Hready.
    apply FirstApp_Coherent in Hfirst.
    revert w Hframes. induction n as [| n IH]; intros w Hframes.
    - cbn in Hframes. inversion Hframes; subst. split; assumption.
    - cbn [frames] in Hframes.
      apply bind_Ok in Hframes. destruct Hframes as ([] & w1 & Hn & Hframe).
      apply bind_Ok in Hframe. destruct Hframe as ([] & w2 & Hpoll & Hdraw).
      destruct (IH w1 Hn) as [Hready1 Hcoherent1].
      apply (glfwPollEvents_Ready P w1) in Hready1.
      assert (Hcoherent2 : Coherent w2).
      { unfold glfwPollEvents, pump in Hpoll. cbn in Hpoll.
        inversion Hpoll; subst w2; clear Hpoll.
        eapply (Coherent_extend w1 _ [EvPollEvents _] Hcoherent1).
        - reflexivity.
        - cbn. auto.
        - reflexivity.
        - apply Hcoherent1. }
      rewrite Hpoll in Hready1. cbn in Hready1.
      split.
      + exact (drawFrame_Ready P fuel w2 w Hready1 Hdraw).
      + exact (drawFrame_Coherent P fuel w2 w Hready1 Hcoherent2 Hdraw). }
  destruct Hgoal as [_ (Hthroughout & Hplace & _)]. split; assumption.
Qed.

Lemma frames_use_chain_in_place_witness :
  current_throughout None
    (trace (snd ((FirstApp resized_after_stale 0 ;; frames resized_after_stale 0 2)
                   (boot window_800x600)))).
Proof.
  assert (Hrun : (FirstApp resized_after_stale 0 ;; frames resized_after_stale 0 2)
                   (boot window_800x600)
                 = (Ok tt,
                    snd ((FirstApp resized_after_stale 0 ;; frames resized_after_stale 0 2)
                           (boot window_800x600))))
    by (vm_compute; reflexivity).
  exact (proj1 (frames_use_chain_in_place resized_after_stale 0 2 window_800x600 _ Hrun)).
Defined.

Lemma frames_Ready_witness :
  Ready (snd ((FirstApp growing 0 ;; frames growing 0 2) (boot window_800x600))).
Proof.
  assert (Hrun : (FirstApp growing 0 ;; frames growing 0 2) (boot window_800x600)
                 = (Ok tt,
                    snd ((FirstApp growing 0 ;; frames growing 0 2)
                           (boot window_800x600))))
    by (vm_compute; reflexivity).
  exact (frames_Ready growing 0 2 window_800x600 _ Hrun).
Defined.

(* ===================================================================== *)
(** ** Command buffers across a recreation *)
(* ===================================================================== *)

(** A recreation that returns and finds another number of images than
    there are command buffers: the vector holds the handles of the
    allocation it made. *)
Lemma recreateSwapChain_reallocated
    (P : Platform) (fuel : nat) (w w' : World) (previous : LveSwapChain) :
  lveSwapChain w = Some previous ->
  recreateSwapChain P fuel w = (Ok tt, w') ->
  exists n,
    swapchain_images P (calls w NewSwapChain) = Some n /\
    ((n =? List.length (commandBuffers w))%nat = false ->
     Z.of_nat n < 2 ^ 32 ->
     commandBuffers w' = fresh_buffers (calls w AllocateCommandBuffers) n).
Proof.
  intros Hchain Hrun.
  unfold recreateSwapChain in Hrun. cbn in Hrun.
  destruct (await_extent _ _ _ _) as [[e1 | f] w1] eqn:Hawait; [| discriminate].
  apply await_extent_spec in Hawait.
  destruct Hawait
    as (polls1 & _ & _ & Hc & _ & _ & Hb & _ & Hcalls & _ & _).
  cbn in Hc, Hb, Hcalls.
  rewrite Hc, Hchain in Hrun. cbn in Hrun.
  destruct (new_LveSwapChain _ _ _ _) as [[built | f] w2] eqn:Hnew; [| discriminate].
  apply new_LveSwapChain_spec in Hnew.
  destruct Hnew as (_ & (_ & _ & _ & Hb2 & _) & Hcalls2 & Hnew).
  unfold calls_only in Hcalls2. cbn in Hb2, Hcalls2, Hnew.
  rewrite (Hcalls NewSwapChain) in Hnew by discriminate.
  destruct (swapchain_images P _) as [n |] eqn:Himages; [| destruct Hnew; discriminate].
  destruct Hnew as [Hbuilt _]. inversion Hbuilt; subst built; clear Hbuilt.
  cbn in Hrun. rewrite Hb2, Hb in Hrun.
  exists n. split; [reflexivity |].
  intros Hsize Hsmall. rewrite Hsize in Hrun. cbn in Hrun.
  destruct (freeCommandBuffers _) as [r4 w4] eqn:Hfree.
  apply freeCommandBuffers_spec in Hfree. cbn in Hfree.
  destruct Hfree as (-> & _ & _ & _ & Hc4 & _ & _ & _ & Hcalls4).
  pose proof (createCommandBuffers_handles P w4 _ Hc4 Hsmall) as Hhandles.
  destruct (createCommandBuffers P w4) as [r5 w5] eqn:Hcreate.
  apply createCommandBuffers_spec in Hcreate.
  destruct Hcreate as (_ & _ & _ & _ & _ & _ & Hcreate).
  rewrite Hc4 in Hcreate. destruct Hcreate as (_ & _ & Hr5).
  cbn [snd imageCount chain_images] in Hhandles.
  rewrite Hcalls4, (Hcalls2 AllocateCommandBuffers), (Hcalls AllocateCommandBuffers)
    in Hhandles, Hr5 by discriminate.
  destruct (vkAllocateCommandBuffers_result P _ =? VK_SUCCESS); subst r5;
    [| discriminate].
  apply createPipeline_spec in Hrun.
  destruct Hrun as (_ & _ & _ & Hb6 & _).
  rewrite Hb6. exact Hhandles.
Qed.

(** X17.  [recreateSwapChain], [freeCommandBuffers] and
    [createCommandBuffers], a changed image count.  When a recreation
    returns with a chain whose image count differs from the number of
    command buffers held, the handles that were held were all handed to
    [vkFreeCommandBuffers], and the vector is afterwards exactly the
    handles of the one allocation made since, one per image. *)
Theorem reallocation_replaces_every_buffer
    (P : Platform) (fuel : nat) (w w' : World) (previous chain : LveSwapChain) :
  lveSwapChain w = Some previous ->
  recreateSwapChain P fuel w = (Ok tt, w') ->
  lveSwapChain w' = Some chain ->
  imageCount chain <> List.length (commandBuffers w) ->
  Z.of_nat (imageCount chain) < 2 ^ 32 ->
  commandBuffers w' = fresh_buffers (calls w AllocateCommandBuffers) (imageCount chain) /\
  In (EvFreeCommandBuffers (to_uint32 (List.length (commandBuffers w))) (commandBuffers w))
    (added w w') /\
  In (EvAllocateCommandBuffers (Z.of_nat (imageCount chain)) VK_SUCCESS) (added w w').
Proof.
  intros Hchain Hrun Hrebuilt Hcount Hsmall.
  destruct (recreateSwapChain_Ok P fuel w w' previous Hchain Hrun)
    as (polls & e & n & layout & _ & Himages & _ & Htrace & Hc' & _).
  cbn zeta in Htrace, Hc'.
  rewrite Hc' in Hrebuilt. inversion Hrebuilt; subst chain; clear Hrebuilt.
  unfold imageCount in Hcount, Hsmall |- *. cbn [chain_images] in Hcount, Hsmall |- *.
  apply Nat.eqb_neq in Hcount. rewrite Hcount in Htrace.
  destruct (recreateSwapChain_reallocated P fuel w w' previous Hchain Hrun)
    as (n' & Himages' & Hhandles).
  rewrite Himages in Himages'. inversion Himages'; subst n'; clear Himages'.
  split; [exact (Hhandles Hcount Hsmall) |].
  rewrite (added_app w w' _ Htrace).
  split; apply in_cons, in_or_app; right; apply in_or_app; right; cbn.
  - tauto.
  - right. left. unfold to_uint32, uint32_max.
    rewrite (Z.mod_small (Z.of_nat n)) by lia. reflexivity.
Qed.

Lemma reallocation_replaces_every_buffer_witness :
  commandBuffers growing_world = [CommandBuffer 0 0; CommandBuffer 0 1] /\
  commandBuffers (snd (recreateSwapChain growing 0 growing_world))
  = [CommandBuffer 1 0; CommandBuffer 1 1; CommandBuffer 1 2].
Proof.
  split; [vm_compute; reflexivity |].
  assert (Hrun : recreateSwapChain growing 0 growing_world
                 = (Ok tt, snd (recreateSwapChain growing 0 growing_world)))
    by (vm_compute; reflexivity).
  destruct (reallocation_replaces_every_buffer growing 0 growing_world _
              (first_chain 2)
              {| chain_serial := 1; windowExtent := {| width := 800; height := 600 |};
                 chain_images := 3; oldSwapChain := Some O |}
              ltac:(vm_compute; reflexivity)
              Hrun
              ltac:(vm_compute; reflexivity)
              ltac:(vm_compute; discriminate)
              ltac:(vm_compute; reflexivity))
    as (Hb & _).
  rewrite Hb. vm_compute. reflexivity.
Defined.

(* ===================================================================== *)
(** ** The extents of the chains of a session *)
(* ===================================================================== *)

Lemma snoc_split {A} (tr : list A) (ev : A) (pre : list A) (x : A) (post : list A) :
  tr ++ [ev] = pre ++ x :: post ->
  (post = [] /\ pre = tr /\ x = ev) \/
  (exists post', post = post' ++ [ev] /\ tr = pre ++ x :: post').
Proof.
  intros H. induction post as [| y post' _] using rev_ind.
  - left. apply app_inj_tail in H. destruct H as [-> ->]. auto.
  - right. rewrite app_comm_cons, app_assoc in H.
    apply app_inj_tail in H. destruct H as [-> ->]. eauto.
Qed.

Lemma window_at_snoc (win : LveWindow) (tr : list Event) (ev : Event) :
  window_at win (tr ++ [ev]) = window_step (window_at win tr) ev.
Proof. unfold window_at. rewrite fold_left_app. reflexivity. Qed.

Lemma reports_window_snoc (win : LveWindow) (tr : list Event) (ev : Event) :
  reports_window win tr ->
  (forall extent, ev = EvGetExtent extent ->
                  extent = window_extent (window_at win tr)) ->
  reports_window win (tr ++ [ev]).
Proof.
  intros Htr Hev pre extent post H.
  apply snoc_split in H. destruct H as [(_ & -> & Hx) | (post' & _ & ->)].
  - apply Hev. symmetry. exact Hx.
  - eapply Htr. reflexivity.
Qed.

Lemma built_snoc (tr : list Event) (ev : Event) :
  built_after_waiting tr ->
  is_construction ev = false ->
  built_after_waiting (tr ++ [ev]).
Proof.
  intros Htr Hev pre extent previous built post H.
  apply snoc_split in H. destruct H as [(_ & _ & Hx) | (post' & _ & ->)].
  - subst ev. discriminate Hev.
  - eapply Htr. reflexivity.
Qed.

Lemma built_app (delta : list Event) :
  forall tr,
    built_after_waiting tr ->
    Forall (fun ev => is_construction ev = false) delta ->
    built_after_waiting (tr ++ delta).
Proof.
  induction delta as [| ev delta IH]; intros tr Htr Hdelta.
  - rewrite app_nil_r. exact Htr.
  - inversion Hdelta as [| ? ? Hev Hrest]; subst.
    change (ev :: delta) with ([ev] ++ delta). rewrite app_assoc.
    apply IH; [apply built_snoc; assumption | exact Hrest].
Qed.

(** A chain built on the extent the loop was left with, right after the
    wait for the device. *)
Lemma built_construction
    (tr before polls : list Event) (first extent : VkExtent2D)
    (previous built : option LveSwapChain) :
  built_after_waiting tr ->
  tr = before ++ EvGetExtent first :: polls ++ [EvDeviceWaitIdle] ->
  waiting first polls extent ->
  built_after_waiting (tr ++ [EvNewSwapChain extent previous built]).
Proof.
  intros Htr Hshape Hwaiting pre e p b post H.
  apply snoc_split in H. destruct H as [(_ & -> & Hx) | (post' & _ & ->)].
  - inversion Hx; subst e p b. clear Hx.
    pose proof (waiting_proper _ _ _ Hwaiting) as Hproper.
    apply degenerate_false in Hproper. destruct Hproper as [Hwidth Hheight].
    split; [exact Hwidth |]. split; [exact Hheight |]. split.
    + rewrite Hshape, last_reported_app, app_comm_cons, last_reported_app.
      rewrite (waiting_last_reported _ _ _ Hwaiting). reflexivity.
    + exists before, first, polls. split; [exact Hshape | exact Hwaiting].
  - eapply Htr. reflexivity.
Qed.

Lemma wait_events_build_nothing (polls : list Event) :
  Forall wait_event polls -> Forall (fun ev => is_construction ev = false) polls.
Proof.
  intros H. eapply Forall_impl; [| exact H].
  intros ev Hev. destruct ev; cbn in *; tauto.
Qed.

Section Extents.

Variable P : Platform.

(** *** What a recreation leaves in the trace, whatever its outcome *)

Ltac builds_nothing :=
  apply since_emit; reflexivity.

Lemma createPipeline_builds_no_chain (w0 : World) :
  preserves (since w0 (fun ev => is_construction ev = false)) (createPipeline P).
Proof. unfold createPipeline, new_LvePipeline. preserves_steps builds_nothing. Qed.

Lemma createCommandBuffers_builds_no_chain (w0 : World) :
  preserves (since w0 (fun ev => is_construction ev = false)) (createCommandBuffers P).
Proof.
  unfold createCommandBuffers, vkAllocateCommandBuffers. preserves_steps builds_nothing.
Qed.

Lemma freeCommandBuffers_builds_no_chain (w0 : World) :
  preserves (since w0 (fun ev => is_construction ev = false)) freeCommandBuffers.
Proof.
  unfold freeCommandBuffers, vkFreeCommandBuffers. preserves_steps builds_nothing.
Qed.

(** Either the loop is still waiting, or it was left as [waiting] says, the
    device was waited for and a chain was built on the extent the loop was
    left with; no other chain is built. *)
Lemma recreateSwapChain_trace (fuel : nat) (w : World) (r : outcome unit) (w' : World) :
  recreateSwapChain P fuel w = (r, w') ->
  exists first polls,
    (trace w' = trace w ++ EvGetExtent first :: polls /\ Forall wait_event polls) \/
    (exists extent previous built rest,
        trace w' =
          trace w ++ EvGetExtent first :: polls
          ++ EvDeviceWaitIdle :: EvNewSwapChain extent previous built :: rest /\
        waiting first polls extent /\
        Forall (fun ev => is_construction ev = false) rest).
Proof.
  intros Hrun.
  unfold recreateSwapChain in Hrun. cbn in Hrun.
  destruct (await_extent _ _ _ _) as [[e | f] w1] eqn:Hawait;
    apply await_extent_spec in Hawait;
    destruct Hawait as (polls & Htr & Hpolls & Hc & _ & _ & _ & _ & _ & _ & Hwaiting);
    cbn in Htr, Hc, Hwaiting;
    exists (window_extent (lveWindow w)), polls.
  2:{ inversion Hrun; subst. left.
      split; [rewrite Htr, <- app_assoc; reflexivity | exact Hpolls]. }
  right.
  assert (Htail : forall (m : M unit) w2 built previous,
             preserves (since w2 (fun ev => is_construction ev = false)) m ->
             trace w2 = trace w1 ++ [EvDeviceWaitIdle; EvNewSwapChain e previous built] ->
             m w2 = (r, w') ->
             exists extent previous built rest,
               trace w' =
                 trace w ++ EvGetExtent (window_extent (lveWindow w)) :: polls
                 ++ EvDeviceWaitIdle :: EvNewSwapChain extent previous built :: rest /\
               waiting (window_extent (lveWindow w)) polls extent /\
               Forall (fun ev => is_construction ev = false) rest).
  { intros m w2 built previous Hm Htr2 Hrest.
    specialize (Hm w2 (since_start w2 _)). rewrite Hrest in Hm.
    destruct Hm as (rest & Htr' & Hnone). cbn in Htr'.
    exists e, previous, built, rest.
    split; [| split; [exact Hwaiting | exact Hnone]].
    rewrite Htr', Htr2, Htr, <- !app_assoc. reflexivity. }
  destruct (lveSwapChain w1) as [previous |] eqn:Hchain; cbn in Hrun.
  - destruct (new_LveSwapChain _ _ _ _) as [[chain | f] w2] eqn:Hnew;
      apply new_LveSwapChain_spec in Hnew;
      destruct Hnew as (_ & _ & _ & Hnew); cbn in Hnew;
      destruct (swapchain_images P _) as [n |];
      destruct Hnew as [Hr Htr2]; try discriminate.
    + cbn in Hrun.
      destruct (negb (imageCount chain =? List.length (commandBuffers w2))%nat);
        cbn in Hrun.
      * apply (Htail (freeCommandBuffers ;; createCommandBuffers P ;; createPipeline P)
                 (set_lveSwapChain (Some chain) w2) (Some chain) (Some previous)).
        -- pose proof (freeCommandBuffers_builds_no_chain
                         (set_lveSwapChain (Some chain) w2)).
           pose proof (createCommandBuffers_builds_no_chain
                         (set_lveSwapChain (Some chain) w2)).
           pose proof (createPipeline_builds_no_chain
                         (set_lveSwapChain (Some chain) w2)).
           preserves_steps idtac.
        -- cbn. rewrite Htr2. cbn. rewrite <- app_assoc.
           inversion Hr; subst chain. reflexivity.
        -- unfold bind.
           destruct (freeCommandBuffers _) as [[[] | f4] w4]; [| exact Hrun].
           destruct (createCommandBuffers P w4) as [[[] | f5] w5]; exact Hrun.
      * apply (Htail (createPipeline P)
                 (set_lveSwapChain (Some chain) w2) (Some chain) (Some previous)).
        -- apply createPipeline_builds_no_chain.
        -- cbn. rewrite Htr2. cbn. rewrite <- app_assoc.
           inversion Hr; subst chain. reflexivity.
        -- exact Hrun.
    + inversion Hrun; subst r w'.
      exists e, (Some previous), None, [].
      split; [| split; [exact Hwaiting | constructor]].
      rewrite Htr2. cbn. rewrite Htr, <- !app_assoc. reflexivity.
  - destruct (new_LveSwapChain _ _ _ _) as [[chain | f] w2] eqn:Hnew;
      apply new_LveSwapChain_spec in Hnew;
      destruct Hnew as (_ & _ & _ & Hnew); cbn in Hnew;
      destruct (swapchain_images P _) as [n |];
      destruct Hnew as [Hr Htr2]; try discriminate.
    + cbn in Hrun.
      apply (Htail (createPipeline P)
               (set_lveSwapChain (Some chain) w2) (Some chain) None).
      * apply createPipeline_builds_no_chain.
      * cbn. rewrite Htr2. cbn. rewrite <- app_assoc.
        inversion Hr; subst chain. reflexivity.
      * exact Hrun.
    + inversion Hrun; subst r w'.
      exists e, None, None, [].
      split; [| split; [exact Hwaiting | constructor]].
      rewrite Htr2. cbn. rewrite Htr, <- !app_assoc. reflexivity.
Qed.

End Extents.

(** *** Invariants of a session *)

Section Invariant.

Variable P : Platform.
Variable I : World -> Prop.

Hypothesis I_quiet :
  forall (A : Type) (m : M A),
    (forall w, trace (snd (m w)) = trace w) ->
    (forall w, lveWindow (snd (m w)) = lveWindow w) ->
    preserves I m.
Hypothesis I_emit : forall ev, is_plain ev = true -> preserves I (emit ev).
Hypothesis I_poll : preserves I (glfwPollEvents P).
Hypothesis I_reset : preserves I resetWindowResizedFlag.
Hypothesis I_recreate : forall fuel, preserves I (recreateSwapChain P fuel).

Ltac plain_leaf :=
  first [ apply I_emit; reflexivity | apply I_quiet; intros; reflexivity ].

Lemma createCommandBuffers_invariant : preserves I (createCommandBuffers P).
Proof.
  unfold createCommandBuffers, vkAllocateCommandBuffers. preserves_steps plain_leaf.
Qed.

Lemma recordCommandBuffer_invariant (imageIndex : Z) :
  preserves I (recordCommandBuffer P imageIndex).
Proof.
  unfold recordCommandBuffer, commandBuffer_at, vkBeginCommandBuffer,
    vkEndCommandBuffer, cmd.
  preserves_steps plain_leaf.
Qed.

Lemma drawFrame_invariant (fuel : nat) : preserves I (drawFrame P fuel).
Proof.
  pose proof (I_recreate fuel).
  pose proof recordCommandBuffer_invariant.
  unfold drawFrame, acquireNextImage, submitCommandBuffers, commandBuffer_at,
    wasWindowResized.
  preserves_steps plain_leaf.
Qed.

Lemma run_invariant (fuel frames : nat) : preserves I (run P fuel frames).
Proof.
  pose proof (drawFrame_invariant fuel).
  induction frames as [| frames IH]; cbn; unfold shouldClose, vkDeviceWaitIdle;
    preserves_steps plain_leaf.
Qed.

Lemma session_invariant (fuel frames : nat) : preserves I (session P fuel frames).
Proof.
  pose proof (I_recreate fuel).
  pose proof createCommandBuffers_invariant.
  pose proof (run_invariant fuel frames).
  unfold session, FirstApp, loadModels, new_LveModel, createPipelineLayout,
    vkCreatePipelineLayout.
  preserves_steps plain_leaf.
Qed.

End Invariant.

Section Reports.

Variable P : Platform.
Variable win : LveWindow.

Lemma Truthful_quiet (A : Type) (m : M A) :
  (forall w, trace (snd (m w)) = trace w) ->
  (forall w, lveWindow (snd (m w)) = lveWindow w) ->
  preserves (Truthful win) m.
Proof.
  intros Htrace Hwindow w [Hw Hr]. unfold Truthful.
  rewrite Htrace, Hwindow. split; assumption.
Qed.

Lemma Truthful_emit (ev : Event) :
  (forall win', window_step win' ev = win') ->
  (forall extent, ev <> EvGetExtent extent) ->
  preserves (Truthful win) (emit ev).
Proof.
  intros Hstep Hev w [Hw Hr]. split; cbn.
  - rewrite window_at_snoc, Hstep. exact Hw.
  - apply reports_window_snoc; [exact Hr |].
    intros extent Heq. destruct (Hev extent Heq).
Qed.

Lemma Truthful_plain (ev : Event) :
  is_plain ev = true -> preserves (Truthful win) (emit ev).
Proof.
  intros Hev. apply Truthful_emit.
  - intros win'. destruct ev; try discriminate Hev; reflexivity.
  - intros extent Heq. subst ev. discriminate Hev.
Qed.

Lemma Truthful_getExtent : preserves (Truthful win) getExtent.
Proof.
  intros w [Hw Hr]. unfold getExtent. split; cbn.
  - rewrite window_at_snoc. exact Hw.
  - apply reports_window_snoc; [exact Hr |].
    intros extent Heq. inversion Heq. rewrite Hw. reflexivity.
Qed.

Lemma Truthful_glfwWaitEvents : preserves (Truthful win) (glfwWaitEvents P).
Proof.
  intros w [Hw Hr]. unfold glfwWaitEvents, pump. split; cbn.
  - rewrite window_at_snoc, Hw. reflexivity.
  - apply reports_window_snoc; [exact Hr | discriminate].
Qed.

Lemma Truthful_glfwPollEvents : preserves (Truthful win) (glfwPollEvents P).
Proof.
  intros w [Hw Hr]. unfold glfwPollEvents, pump. split; cbn.
  - rewrite window_at_snoc, Hw. reflexivity.
  - apply reports_window_snoc; [exact Hr | discriminate].
Qed.

Lemma Truthful_resetWindowResizedFlag :
  preserves (Truthful win) resetWindowResizedFlag.
Proof.
  intros w [Hw Hr]. unfold resetWindowResizedFlag. split; cbn.
  - rewrite window_at_snoc, Hw. reflexivity.
  - apply reports_window_snoc; [exact Hr | discriminate].
Qed.

Ltac truthful_leaf :=
  first [ apply Truthful_emit; [intros; reflexivity | intros; discriminate]
        | apply Truthful_quiet; intros; reflexivity ].

Lemma Truthful_await_extent (fuel : nat) (extent : VkExtent2D) :
  preserves (Truthful win) (await_extent P fuel extent).
Proof.
  pose proof Truthful_getExtent. pose proof Truthful_glfwWaitEvents.
  revert extent. induction fuel as [| fuel IH]; intros extent; cbn;
    preserves_steps idtac.
Qed.

Lemma Truthful_recreateSwapChain (fuel : nat) :
  preserves (Truthful win) (recreateSwapChain P fuel).
Proof.
  pose proof Truthful_getExtent.
  pose proof (Truthful_await_extent fuel).
  unfold recreateSwapChain, vkDeviceWaitIdle, new_LveSwapChain, freeCommandBuffers,
    vkFreeCommandBuffers, createCommandBuffers, vkAllocateCommandBuffers,
    createPipeline, new_LvePipeline.
  preserves_steps truthful_leaf.
Qed.

(** Throughout a session the window member is what the delivered events
    made of the window, and every report of its extent is true. *)
Lemma session_Truthful (fuel frames : nat) :
  Truthful win (snd (session P fuel frames (boot win))).
Proof.
  apply (session_invariant P (Truthful win) Truthful_quiet Truthful_plain
           Truthful_glfwPollEvents Truthful_resetWindowResizedFlag
           Truthful_recreateSwapChain).
  split; [reflexivity |].
  intros pre extent post H. destruct pre; discriminate H.
Qed.

End Reports.

Section Constructions.

Variable P : Platform.

Lemma Built_silent (A : Type) (m : M A) :
  (forall w, trace (snd (m w)) = trace w) -> preserves Built m.
Proof. intros Htrace w Hw. unfold Built. rewrite Htrace. exact Hw. Qed.

Lemma Built_quiet (A : Type) (m : M A) :
  (forall w, trace (snd (m w)) = trace w) ->
  (forall w, lveWindow (snd (m w)) = lveWindow w) ->
  preserves Built m.
Proof. intros Htrace _. apply Built_silent, Htrace. Qed.

Lemma Built_emit (ev : Event) :
  is_construction ev = false -> preserves Built (emit ev).
Proof. intros Hev w Hw. apply built_snoc; assumption. Qed.

Lemma Built_plain (ev : Event) :
  is_plain ev = true -> preserves Built (emit ev).
Proof.
  intros Hev. apply Built_emit. destruct ev; try discriminate Hev; reflexivity.
Qed.

Ltac built_leaf :=
  first [ apply Built_emit; reflexivity
        | apply Built_silent; intros; reflexivity ].

Lemma Built_glfwPollEvents : preserves Built (glfwPollEvents P).
Proof. unfold glfwPollEvents, pump. preserves_steps built_leaf. Qed.

Lemma Built_resetWindowResizedFlag : preserves Built resetWindowResizedFlag.
Proof. unfold resetWindowResizedFlag. preserves_steps built_leaf. Qed.

Lemma waiting_builds_nothing (first extent : VkExtent2D) (polls : list Event) :
  waiting first polls extent ->
  Forall (fun ev => is_construction ev = false) polls.
Proof. induction 1; repeat constructor; assumption. Qed.

Lemma Built_recreateSwapChain (fuel : nat) :
  preserves Built (recreateSwapChain P fuel).
Proof.
  intros w Hw.
  destruct (recreateSwapChain P fuel w) as [r w'] eqn:Hrun. cbn [snd].
  destruct (recreateSwapChain_trace P fuel w r w' Hrun)
    as (first & polls
        & [(Htr & Hpolls)
          | (extent & previous & built & rest & Htr & Hwaiting & Hrest)]);
    unfold Built; rewrite Htr.
  - apply built_app; [exact Hw |].
    constructor; [reflexivity | apply wait_events_build_nothing, Hpolls].
  - replace (trace w ++ EvGetExtent first :: polls
             ++ EvDeviceWaitIdle :: EvNewSwapChain extent previous built :: rest)
      with (((trace w ++ EvGetExtent first :: polls ++ [EvDeviceWaitIdle])
             ++ [EvNewSwapChain extent previous built]) ++ rest)
      by (rewrite <- !app_assoc; cbn; rewrite <- !app_assoc; reflexivity).
    apply built_app; [| exact Hrest].
    apply (built_construction _ (trace w) polls first extent);
      [| reflexivity | exact Hwaiting].
    apply built_app; [exact Hw |].
    constructor; [reflexivity |].
    apply Forall_app. split; [| repeat constructor].
    eapply waiting_builds_nothing, Hwaiting.
Qed.

Lemma session_Built (fuel frames : nat) (win : LveWindow) :
  Built (snd (session P fuel frames (boot win))).
Proof.
  apply (session_invariant P Built Built_quiet Built_plain
           Built_glfwPollEvents Built_resetWindowResizedFlag
           Built_recreateSwapChain).
  intros pre extent previous built post H. destruct pre; discriminate H.
Qed.

End Constructions.

(** C2. In every session, however it ends, every construction of a chain,
    the one of the constructor and all the later ones, ends a sequence
    that goes as the loop of [recreateSwapChain] goes: the extent of the
    window is read; while the extent in hand is degenerate it is read
    again and events are waited for; once the extent in hand is proper the
    device is waited for and the chain is built on that extent.  The
    extent the chain is given is thus the last one the window reported
    before the construction, and is non-zero in width and in height; and
    every report is the extent the window had when it was asked.  (The
    window reports before the events of a pass are waited for, so what is
    known is the extent at the last report, not at the construction.) *)
Theorem chains_built_on_proper_extents
    (P : Platform) (fuel frames : nat) (win : LveWindow) :
  built_after_waiting (trace (snd (session P fuel frames (boot win)))) /\
  reports_window win (trace (snd (session P fuel frames (boot win)))).
Proof.
  split.
  - apply session_Built.
  - apply session_Truthful.
Qed.

Lemma chains_built_on_proper_extents_witness :
  last_reported
    (firstn 8 (trace (snd (session restoring 2 0 (boot window_minimized)))))
  = Some {| width := 800; height := 600 |} /\
  exists before first polls,
    firstn 8 (trace (snd (session restoring 2 0 (boot window_minimized))))
    = before ++ EvGetExtent first :: polls ++ [EvDeviceWaitIdle] /\
    waiting first polls {| width := 800; height := 600 |}.
Proof.
  destruct (chains_built_on_proper_extents restoring 2 0 window_minimized)
    as [Hbuilt _].
  assert (Hsplit : trace (snd (session restoring 2 0 (boot window_minimized))) =
                   firstn 8 (trace (snd (session restoring 2 0 (boot window_minimized))))
                   ++ EvNewSwapChain {| width := 800; height := 600 |} None
                        (Some (first_chain 3))
                   :: skipn 9 (trace (snd (session restoring 2 0
                                             (boot window_minimized)))))
    by (vm_compute; reflexivity).
  destruct (Hbuilt _ _ _ _ _ Hsplit) as (_ & _ & Hlast & Hshape).
  split; [exact Hlast | exact Hshape].
Defined.
